(** * Classified-car MVP: price estimation and analysis orchestration

    A shallow embedding of [backend/agents/pricing.py] and
    [backend/app/orchestrator.py] (with the data contract of
    [backend/app/schemas.py]) and the properties the specification states
    about them.

    Conventions of the embedding.
    - A Python [str] is a list of Unicode code points; literals are written
      as UTF-8 and decoded by [u].
    - A Python [float] is an IEEE-754 binary64 value, [spec_float] with
      precision 53 and maximal exponent 1024; arithmetic is the correctly
      rounded arithmetic of the standard library's [SpecFloat].
    - Dynamically typed values (JSON documents, agent outputs, dictionaries)
      are [pyval]; a dictionary is an association list in insertion order.
    - Code that can raise returns a [result]; code that also talks to the
      outside world runs in the monad [M], which threads the log of external
      calls.
    - What the repository does not contain (builtins with large tables, the
      JSON parser, pandas, the regressor, the remote agents) is a field of
      [Builtins] or [Env]; every theorem quantifies over them. *)

From Stdlib Require Import String Ascii ZArith NArith List Bool Lia SpecFloat.
Import ListNotations.
Set Warnings "-register-all".
Local Open Scope string_scope.
Local Open Scope list_scope.

(* ================================================================== *)
(** ** Python strings *)

Module PyStr.

Definition str := list N.

Fixpoint bytes_of (s : string) : list N :=
  match s with
  | EmptyString => []
  | String a r => N_of_ascii a :: bytes_of r
  end.

(** UTF-8 decoding of well-formed input (the literals of this file). *)
Fixpoint utf8_decode (bs : list N) : str :=
  match bs with
  | [] => []
  | b0 :: r0 =>
    if (b0 <? 128)%N then b0 :: utf8_decode r0
    else match r0 with
    | [] => [b0]
    | b1 :: r1 =>
      if (b0 <? 224)%N then ((b0 - 192) * 64 + (b1 - 128))%N :: utf8_decode r1
      else match r1 with
      | [] => [b0; b1]
      | b2 :: r2 =>
        if (b0 <? 240)%N
        then ((b0 - 224) * 4096 + (b1 - 128) * 64 + (b2 - 128))%N :: utf8_decode r2
        else match r2 with
        | [] => [b0; b1; b2]
        | b3 :: r3 =>
          ((b0 - 240) * 262144 + (b1 - 128) * 4096
           + (b2 - 128) * 64 + (b3 - 128))%N :: utf8_decode r3
        end
      end
    end
  end.

Definition u (s : string) : str := utf8_decode (bytes_of s).

Fixpoint str_eqb (a b : str) : bool :=
  match a, b with
  | [], [] => true
  | x :: a', y :: b' => (x =? y)%N && str_eqb a' b'
  | _, _ => false
  end.

(** [s.startswith(p)] *)
Fixpoint startswith (p s : str) : bool :=
  match p, s with
  | [], _ => true
  | x :: p', y :: s' => (x =? y)%N && startswith p' s'
  | _ :: _, [] => false
  end.

(** [s.endswith(p)] *)
Definition endswith (p s : str) : bool := startswith (rev p) (rev s).

(** [s.find(p)]: index of the first occurrence, [None] for Python's -1. *)
Fixpoint find (p s : str) : option nat :=
  if startswith p s then Some O
  else match s with
       | [] => None
       | _ :: s' => option_map S (find p s')
       end.

(** [s.rfind(p)]: index of the last occurrence. *)
Fixpoint rfind (p s : str) : option nat :=
  match s with
  | [] => if startswith p s then Some O else None
  | _ :: s' =>
    match rfind p s' with
    | Some i => Some (S i)
    | None => if startswith p s then Some O else None
    end
  end.

(** [p in s] *)
Definition contains (p s : str) : bool :=
  match find p s with Some _ => true | None => false end.

(** [c in chars] for a one-character string [c]. *)
Definition char_in (c : N) (chars : str) : bool :=
  existsb (N.eqb c) chars.

(** [str.isspace] on one code point: the characters Python's [strip()]
    removes. *)
Definition isspace (c : N) : bool :=
  ((9 <=? c) && (c <=? 13) || (28 <=? c) && (c <=? 32)
   || (c =? 133) || (c =? 160) || (c =? 5760)
   || (8192 <=? c) && (c <=? 8202)
   || (c =? 8232) || (c =? 8233) || (c =? 8239) || (c =? 8287)
   || (c =? 12288))%N.

Fixpoint lstrip (s : str) : str :=
  match s with
  | c :: s' => if isspace c then lstrip s' else s
  | [] => []
  end.

Definition rstrip (s : str) : str := rev (lstrip (rev s)).

(** [s.strip()] *)
Definition strip (s : str) : str := rstrip (lstrip s).

End PyStr.
Export PyStr.

(* ================================================================== *)
(** ** Python floats (binary64) *)

Module PyFloat.

Definition float := spec_float.

Definition prec : Z := 53.
Definition emax : Z := 1024.

Definition fadd : float -> float -> float := SFadd prec emax.
Definition fsub : float -> float -> float := SFsub prec emax.
Definition fdiv : float -> float -> float := SFdiv prec emax.

(** The double nearest to an integer (ties to even); may be an infinity. *)
Definition of_Z (z : Z) : float := binary_normalize prec emax z 0 false.

(** The double a decimal literal [a/b] denotes. *)
Definition ratio (a b : Z) : float := fdiv (of_Z a) (of_Z b).

Definition f0_0 : float := S754_zero false.
Definition f0_5 : float := Eval vm_compute in ratio 1 2.
Definition f0_6 : float := Eval vm_compute in ratio 6 10.
Definition f0_7 : float := Eval vm_compute in ratio 7 10.
Definition f0_9 : float := Eval vm_compute in ratio 9 10.
Definition f1_0 : float := Eval vm_compute in of_Z 1.

Definition is_zero (x : float) : bool :=
  match x with S754_zero _ => true | _ => false end.

Definition is_nan (x : float) : bool :=
  match x with S754_nan => true | _ => false end.

Definition is_inf (x : float) : bool :=
  match x with S754_infinity _ => true | _ => false end.

(** The sign bit of a float that has one. *)
Definition sign_bit (x : float) : bool :=
  match x with
  | S754_zero s | S754_infinity s | S754_finite s _ _ => s
  | S754_nan => false
  end.

(** Nearest integer to [m * 2^e], ties to even. *)
Definition round_half_even (m : positive) (e : Z) : Z :=
  match e with
  | Z0 => Zpos m
  | Zpos p => Zpos m * 2 ^ Zpos p
  | Zneg p =>
    let d := 2 ^ Zpos p in
    let q := Zpos m / d in
    let r := Zpos m mod d in
    match 2 * r ?= d with
    | Lt => q
    | Gt => q + 1
    | Eq => if Z.even q then q else q + 1
    end
  end%Z.

(** Integer part of [m * 2^e] (towards zero, for the positive value). *)
Definition trunc_pos (m : positive) (e : Z) : Z :=
  match e with
  | Z0 => Zpos m
  | Zpos p => Zpos m * 2 ^ Zpos p
  | Zneg p => Zpos m / 2 ^ Zpos p
  end%Z.

(** [x < y] on floats, as IEEE: false when either is NaN. *)
Definition flt (x y : float) : bool := SFltb x y.

(** Exact comparison [z < x] of a Python int with a float. *)
Definition int_lt_float (z : Z) (x : float) : bool :=
  match x with
  | S754_nan => false
  | S754_infinity s => negb s
  | S754_zero _ => (z <? 0)%Z
  | S754_finite s m e =>
    let v := if s then Zneg m else Zpos m in
    match e with
    | Zneg p => (z * 2 ^ Zpos p <? v)%Z
    | _ => (z <? v * 2 ^ e)%Z
    end
  end.

End PyFloat.
Export PyFloat.

(* ================================================================== *)
(** ** Dynamically typed values, exceptions *)

Module PyVal.

Inductive pyval : Type :=
| PNone
| PBool (b : bool)
| PInt (z : Z)
| PFloat (x : float)
| PStr (s : str)
| PList (l : list pyval)
| PDict (d : list (str * pyval)).

Definition dict := list (str * pyval).

(** Truth value of an object ([bool(v)]). *)
Definition truthy (v : pyval) : bool :=
  match v with
  | PNone => false
  | PBool b => b
  | PInt z => negb (z =? 0)%Z
  | PFloat x => negb (is_zero x)
  | PStr s => match s with [] => false | _ => true end
  | PList l => match l with [] => false | _ => true end
  | PDict d => match d with [] => false | _ => true end
  end.

(** [a or b] *)
Definition py_or (a b : pyval) : pyval := if truthy a then a else b.

Definition is_none (v : pyval) : bool :=
  match v with PNone => true | _ => false end.

Fixpoint lookup (d : dict) (k : str) : option pyval :=
  match d with
  | [] => None
  | (k', v) :: d' => if str_eqb k k' then Some v else lookup d' k
  end.

(** [k in d] *)
Definition has_key (d : dict) (k : str) : bool :=
  match lookup d k with Some _ => true | None => false end.

(** [d.get(k)] *)
Definition dget (d : dict) (k : str) : pyval :=
  match lookup d k with Some v => v | None => PNone end.

(** [d.get(k, default)] *)
Definition dget_default (d : dict) (k : str) (default : pyval) : pyval :=
  match lookup d k with Some v => v | None => default end.

Definition type_name (v : pyval) : str :=
  match v with
  | PNone => u "NoneType"
  | PBool _ => u "bool"
  | PInt _ => u "int"
  | PFloat _ => u "float"
  | PStr _ => u "str"
  | PList _ => u "list"
  | PDict _ => u "dict"
  end.

(** Exceptions: the classes the source distinguishes, and [str(e)]. *)
Inductive exn_class :=
| AttributeError | TypeError | ValueError | JSONDecodeError
| OverflowError | OtherException.

Record exn := mkExn { exn_cls : exn_class; exn_msg : str }.

(** [isinstance(e, ValueError)]: [json.JSONDecodeError] is a subclass. *)
Definition is_ValueError (e : exn) : bool :=
  match exn_cls e with
  | ValueError | JSONDecodeError => true
  | _ => false
  end.

Definition is_TypeError (e : exn) : bool :=
  match exn_cls e with TypeError => true | _ => false end.

Inductive result (A : Type) : Type :=
| Ok (a : A)
| Raise (e : exn).
Arguments Ok {A} a.
Arguments Raise {A} e.

Definition rbind {A B} (r : result A) (k : A -> result B) : result B :=
  match r with
  | Ok a => k a
  | Raise e => Raise e
  end.

Definition no_attribute (v : pyval) (attr : string) : exn :=
  mkExn AttributeError
        (u "'" ++ type_name v ++ u "' object has no attribute '" ++ u attr ++ u "'").

(** [v.get(k)] on an arbitrary object: only dictionaries have [get]. *)
Definition py_get (v : pyval) (k : str) : result pyval :=
  match v with
  | PDict d => Ok (dget d k)
  | _ => Raise (no_attribute v "get")
  end.

(** [v.strip()] on an arbitrary object: only strings have [strip]. *)
Definition py_strip (v : pyval) : result str :=
  match v with
  | PStr s => Ok (strip s)
  | _ => Raise (no_attribute v "strip")
  end.

(** [iter(v)] for the types a JSON document can hold. *)
Definition py_iter (v : pyval) : result (list pyval) :=
  match v with
  | PList l => Ok l
  | PStr s => Ok (map (fun c => PStr [c]) s)
  | PDict d => Ok (map (fun kv => PStr (fst kv)) d)
  | _ => Raise (mkExn TypeError (u "'" ++ type_name v ++ u "' object is not iterable"))
  end.

(** [float(z)] for an int: the nearest double, [OverflowError] beyond the
    range. *)
Definition float_of_int (z : Z) : result float :=
  let x := of_Z z in
  if is_inf x
  then Raise (mkExn OverflowError (u "int too large to convert to float"))
  else Ok x.

(** [round(x)] with one argument: an int, ties to even. *)
Definition py_round (x : float) : result Z :=
  match x with
  | S754_zero _ => Ok 0%Z
  | S754_finite s m e =>
    let r := round_half_even m e in Ok (if s then (- r)%Z else r)
  | S754_nan => Raise (mkExn ValueError (u "cannot convert float NaN to integer"))
  | S754_infinity _ =>
    Raise (mkExn OverflowError (u "cannot convert float infinity to integer"))
  end.

(** [round(x, 0)]: a float, ties to even, the sign kept. *)
Definition py_round0 (x : float) : float :=
  match x with
  | S754_finite s m (Zneg p) =>
    match round_half_even m (Zneg p) with
    | Zpos r => binary_normalize prec emax (if s then Zneg r else Zpos r) 0 false
    | _ => S754_zero s
    end
  | _ => x
  end.

(** [int(x)] for a float: truncation. *)
Definition int_of_float (x : float) : result Z :=
  match x with
  | S754_zero _ => Ok 0%Z
  | S754_finite s m e =>
    let r := trunc_pos m e in Ok (if s then (- r)%Z else r)
  | S754_nan => Raise (mkExn ValueError (u "cannot convert float NaN to integer"))
  | S754_infinity _ =>
    Raise (mkExn OverflowError (u "cannot convert float infinity to integer"))
  end.

(** Builtins whose tables or algorithms are not part of the repository. *)
Record Builtins := {
  (** [s.lower()] (the Unicode case mapping) *)
  str_lower : str -> str;
  (** [str(v)] for a value that is not already a string *)
  repr_nonstr : pyval -> str;
  (** [int(s)] on a string, [None] for [ValueError] *)
  int_of_str : str -> option Z;
  (** [float(s)] on a string, [None] for [ValueError] *)
  float_of_str : str -> option float;
}.

Section WithBuiltins.
Variable lib : Builtins.

(** [str(v)] *)
Definition py_str (v : pyval) : str :=
  match v with
  | PStr s => s
  | _ => repr_nonstr lib v
  end.

Definition bad_argument (fn : string) (v : pyval) : exn :=
  mkExn TypeError (u fn ++ u "() argument has an unsupported type: '"
                     ++ type_name v ++ u "'").

Definition bad_literal (fn : string) (s : str) : exn :=
  mkExn ValueError (u "invalid literal for " ++ u fn ++ u "(): " ++ s).

(** [int(v)] *)
Definition py_int (v : pyval) : result Z :=
  match v with
  | PInt z => Ok z
  | PBool b => Ok (if b then 1 else 0)%Z
  | PFloat x => int_of_float x
  | PStr s =>
    match int_of_str lib s with
    | Some z => Ok z
    | None => Raise (bad_literal "int" s)
    end
  | _ => Raise (bad_argument "int" v)
  end.

(** [float(v)] *)
Definition py_float (v : pyval) : result float :=
  match v with
  | PFloat x => Ok x
  | PInt z => float_of_int z
  | PBool b => Ok (if b then f1_0 else f0_0)
  | PStr s =>
    match float_of_str lib s with
    | Some x => Ok x
    | None => Raise (bad_literal "float" s)
    end
  | _ => Raise (bad_argument "float" v)
  end.

End WithBuiltins.

End PyVal.
Export PyVal.

(* ================================================================== *)
(** ** The outside world: external calls and their log *)

Module World.

(** [_build_pricing_prompt(brand, model, n_rows)] is a fixed template around
    its three arguments; the request records them with the sampling
    parameters of [client.chat.completions.create]. *)
Record generation_request := {
  rq_brand : str;
  rq_model : str;
  rq_n_rows : Z;
  rq_temperature : float;
  rq_max_completion_tokens : Z;
}.

(** A [pandas.DataFrame]: the number of rows and the columns in order, each
    with one cell per row. A cell absent from a record is NaN. *)
Record frame := {
  f_nrows : nat;
  f_columns : list (str * list pyval);
}.

(** The arguments of [run_pricing], typed as its signature declares them;
    [None] is accepted wherever the body guards against it. *)
Record pricing_args := {
  a_brand : option str;
  a_model : option str;
  a_body_type : option str;
  a_color : option str;
  a_steering_wheel_position : option str;
  a_year : option Z;
  a_engine_capacity : option float;
  a_transmission : option str;
  a_drive_type : option str;
  a_mileage : option Z;
  a_damage_flag : option str;
  a_visual_condition_score : option float;
  a_inspection_reliability_score : option float;
  a_defects : pyval;
}.

Inductive event :=
| EvChat (rq : generation_request)
| EvFit (X : frame) (y : list Z) (cat_cols : list str)
| EvPredict (car_row : dict)
| EvVision (images_b64 : list str)
| EvClassification (images_b64 : list str)
| EvPricing (args : pricing_args)
| EvDescription (images_b64 : list str) (classification vision : pyval)
                (df_for_pricing : dict).

(** A computation that may raise and logs its external calls. *)
Definition M (A : Type) : Type := (list event * result A)%type.

Definition ret {A} (a : A) : M A := ([], Ok a).

Definition throw {A} (e : exn) : M A := ([], Raise e).

Definition lift {A} (r : result A) : M A := ([], r).

Definition tell (ev : event) : M unit := ([ev], Ok tt).

Definition bind {A B} (m : M A) (k : A -> M B) : M B :=
  match m with
  | (l, Ok a) => let (l', r) := k a in (l ++ l', r)
  | (l, Raise e) => (l, Raise e)
  end.

(** [try: m  except Exception as e: h e] *)
Definition catch {A} (m : M A) (h : exn -> M A) : M A :=
  match m with
  | (l, Ok a) => (l, Ok a)
  | (l, Raise e) => let (l', r) := h e in (l ++ l', r)
  end.

Definition log_of {A} (m : M A) : list event := fst m.
Definition outcome {A} (m : M A) : result A := snd m.

(** The fitted regressor: its held-out MAE and its [predict]. *)
Record trained_model := {
  tm_mae : float;
  tm_predict : dict -> result (list float);
}.

(** Everything [run_pricing] and [analyze_images] reach outside the
    repository's own code. *)
Record Env := {
  (** [os.environ.get("OPENAI_API_KEY")] *)
  env_api_key : option str;
  (** the [attempt]-th chat completion: [resp.choices[0].message.content] *)
  chat_completion : nat -> generation_request -> result (option str);
  (** [json.loads] on a text that starts with an opening square bracket: a
      list, or an exception *)
  json_loads : str -> result (list pyval);
  (** [pd.DataFrame(rows)] when not every row is a JSON object: it raises
      ([Some e]) or labels the columns with integers ([None]) *)
  frame_of_irregular : list pyval -> option exn;
  (** [pd.to_numeric(col, errors="coerce").astype(int)] cell by cell: the
      integer price, or [None] where the coercion gave NaN ([dropna] then
      removes the row) *)
  to_numeric_int : list pyval -> result (list (option Z));
  (** [train_test_split], [CatBoostRegressor.fit], [predict] on the held-out
      rows and [mean_absolute_error] *)
  fit_model : frame -> list Z -> list str -> result trained_model;
  (** the rows of the corpus made JSON-serializable ([_to_serializable] over
      [df.iterrows()]) *)
  serialize_rows : frame -> result (list pyval);
  (** the agents the orchestrator calls *)
  run_vision : list str -> result pyval;
  run_classification : list str -> result pyval;
  run_description : list str -> pyval -> pyval -> dict -> result str;
}.

End World.
Export World.

Declare Scope py_scope.
Delimit Scope py_scope with py.
Notation "x <- m ;; k" := (bind m (fun x => k))
  (at level 61, m at next level, right associativity) : py_scope.
Notation "x <~ r ;; k" := (rbind r (fun x => k))
  (at level 61, r at next level, right associativity) : py_scope.
Local Open Scope py_scope.

(* ================================================================== *)
(** ** [backend/agents/pricing.py] *)

Module Pricing.

Definition CAT_FEATURES : list str :=
  map u ["color"; "steering_wheel_position"; "body_type"; "transmission";
         "drive_type"; "damage_flag"].

Definition FEATURE_COLUMNS : list str :=
  map u ["body_type"; "color"; "steering_wheel_position"; "year";
         "engine_capacity"; "transmission"; "drive_type"; "mileage";
         "damage_flag"; "visual_condition_score";
         "inspection_reliability_score"; "defects_cnt";
         "defects_severity_weak_cnt"; "defects_severity_moderate_cnt";
         "defects_severity_strong_cnt"].

Definition REQUIRED_FOR_PRICING : list str :=
  map u ["brand"; "model"; "body_type"; "color"; "steering_wheel_position";
         "year"; "engine_capacity"; "transmission"; "drive_type"; "mileage";
         "damage_flag"].

Definition is_empty (s : str) : bool :=
  match s with [] => true | _ => false end.

(** *** [_extract_json_array] *)

(** The loop over [range(start, len(text))]: [i] is the index of the
    character at the head of [s]; the result is the index of the bracket
    that brings the depth back to zero. *)
Fixpoint scan_brackets (s : str) (depth : Z) (i : nat) : option nat :=
  match s with
  | [] => None
  | c :: s' =>
    if char_in c (u "[{") then scan_brackets s' (depth + 1)%Z (S i)
    else if char_in c (u "]}") then
      let depth := (depth - 1)%Z in
      if (depth =? 0)%Z then Some i else scan_brackets s' depth (S i)
    else scan_brackets s' depth (S i)
  end.

(** [text[a:b]] for [0 <= a]. *)
Definition slice (a b : nat) (text : str) : str := firstn (b - a) (skipn a text).

Definition _extract_json_array (env : Env) (text : str) : result (list pyval) :=
  let text := strip text in
  match find (u "[") text with
  | None => Raise (mkExn ValueError (u "No JSON array in response"))
  | Some start =>
    match scan_brackets (skipn start text) 0 start with
    | Some i => json_loads env (slice start (i + 1) text)
    | None => Raise (mkExn ValueError (u "Unbalanced brackets"))
    end
  end.

(** *** [_check_missing] *)

Section CheckMissing.
Variable lib : Builtins.
Variable row : dict.

(** [(row.get(k) or "").strip()] *)
Definition stripped (k : string) : result str :=
  py_strip (py_or (dget row (u k)) (PStr [])).

(** [if not (row.get(k) or "").strip(): missing.append(k)] *)
Definition check_blank (k : string) (missing : list str) : result (list str) :=
  s <~ stripped k ;;
  Ok (if is_empty s then missing ++ [u k] else missing).

(** [sp not in ("left", "right")] *)
Definition check_steering (missing : list str) : result (list str) :=
  sp <~ stripped "steering_wheel_position" ;;
  Ok (if str_eqb sp (u "left") || str_eqb sp (u "right") then missing
      else missing ++ [u "steering_wheel_position"]).

(** The [None] test followed by [try: conv(row[k])
    except (TypeError, ValueError): missing.append(k)]. *)
Definition check_number {A} (conv : pyval -> result A) (k : string)
           (missing : list str) : result (list str) :=
  if is_none (dget row (u k)) then Ok (missing ++ [u k])
  else match conv (dget row (u k)) with
       | Ok _ => Ok missing
       | Raise e =>
         if is_TypeError e || is_ValueError e then Ok (missing ++ [u k])
         else Raise e
       end.

Definition _check_missing : result (list str) :=
  missing <~ check_blank "brand" [] ;;
  missing <~ check_blank "model" missing ;;
  missing <~ check_blank "body_type" missing ;;
  missing <~ check_blank "color" missing ;;
  missing <~ check_steering missing ;;
  missing <~ check_number (py_int lib) "year" missing ;;
  missing <~ check_number (py_float lib) "engine_capacity" missing ;;
  missing <~ check_blank "transmission" missing ;;
  missing <~ check_blank "drive_type" missing ;;
  missing <~ check_number (py_int lib) "mileage" missing ;;
  check_blank "damage_flag" missing.

End CheckMissing.

(** *** The subject record *)

Section SubjectRow.
Variable lib : Builtins.

(** The local function [_severity_ru]. *)
Definition _severity_ru (sev : pyval) : result str :=
  s0 <~ py_strip (py_or sev (PStr [])) ;;
  let s := str_lower lib s0 in
  if str_eqb s (u "слабая") || str_eqb s (u "weak") then Ok (u "слабая")
  else if str_eqb s (u "умеренная") || str_eqb s (u "moderate")
       then Ok (u "умеренная")
  else if str_eqb s (u "сильная") || str_eqb s (u "strong") then Ok (u "сильная")
  else Ok [].

(** [sum(1 for d in defects
         if _severity_ru(d.get("severity") or "") == target)] *)
Fixpoint count_severity (defects : list pyval) (target : str) : result Z :=
  match defects with
  | [] => Ok 0%Z
  | d :: rest =>
    sev <~ py_get d (u "severity") ;;
    s <~ _severity_ru (py_or sev (PStr [])) ;;
    n <~ count_severity rest target ;;
    Ok ((if str_eqb s target then 1 else 0) + n)%Z
  end.

Definition count_defects (defects : pyval) (target : str) : result Z :=
  ds <~ py_iter defects ;;
  count_severity ds target.

(** [(x or "").strip()] for a string argument *)
Definition text_of (x : option str) : str :=
  strip (match x with Some s => s | None => [] end).

Definition text_field (x : option str) : pyval := PStr (text_of x).

(** [int(x) if x is not None else None] for an [int] argument *)
Definition int_field (x : option Z) : pyval :=
  match x with Some z => PInt z | None => PNone end.

(** [float(x) if x is not None else None] for a [float] argument *)
Definition float_field (x : option float) : pyval :=
  match x with Some f => PFloat f | None => PNone end.

(** The dictionary [row] built at the top of [run_pricing]. *)
Definition subject_row (a : pricing_args) (weak moderate strong : Z) : dict :=
  [ (u "brand", text_field (a_brand a));
    (u "model", text_field (a_model a));
    (u "body_type", text_field (a_body_type a));
    (u "color", text_field (a_color a));
    (u "steering_wheel_position", text_field (a_steering_wheel_position a));
    (u "year", int_field (a_year a));
    (u "engine_capacity", float_field (a_engine_capacity a));
    (u "transmission", text_field (a_transmission a));
    (u "drive_type", text_field (a_drive_type a));
    (u "mileage", int_field (a_mileage a));
    (u "damage_flag", text_field (a_damage_flag a));
    (u "visual_condition_score", float_field (a_visual_condition_score a));
    (u "inspection_reliability_score",
     float_field (a_inspection_reliability_score a));
    (u "defects_cnt", PInt (weak + moderate + strong));
    (u "defects_severity_weak_cnt", PInt weak);
    (u "defects_severity_moderate_cnt", PInt moderate);
    (u "defects_severity_strong_cnt", PInt strong) ].

(** The first block of [run_pricing]: the three counts, then [row]. *)
Definition build_row (a : pricing_args) : result dict :=
  weak <~ count_defects (a_defects a) (u "слабая") ;;
  moderate <~ count_defects (a_defects a) (u "умеренная") ;;
  strong <~ count_defects (a_defects a) (u "сильная") ;;
  Ok (subject_row a weak moderate strong).

End SubjectRow.

(** *** The corpus as a data frame *)

Definition nan_cell : pyval := PFloat S754_nan.

Fixpoint all_dicts (rows : list pyval) : option (list dict) :=
  match rows with
  | [] => Some []
  | PDict d :: rest => option_map (cons d) (all_dicts rest)
  | _ :: _ => None
  end.

Definition mem (k : str) (ks : list str) : bool := existsb (str_eqb k) ks.

(** Column labels: the keys of the records in order of first appearance. *)
Definition add_label (cols : list str) (k : str) : list str :=
  if mem k cols then cols else cols ++ [k].

Definition columns_of (rows : list dict) : list str :=
  fold_left (fun cols r => fold_left add_label (map fst r) cols) rows [].

(** [pd.DataFrame(rows)] for a list of JSON objects. *)
Definition DataFrame (rows : list dict) : frame :=
  {| f_nrows := length rows;
     f_columns :=
       map (fun c => (c, map (fun r => dget_default r c nan_cell) rows))
           (columns_of rows) |}.

(** [df.columns] *)
Definition columns (df : frame) : list str := map fst (f_columns df).

Fixpoint lookup_col (cs : list (str * list pyval)) (c : str)
  : option (list pyval) :=
  match cs with
  | [] => None
  | (c', cells) :: cs' => if str_eqb c c' then Some cells else lookup_col cs' c
  end.

(** [df[c]] *)
Definition column (df : frame) (c : str) : option (list pyval) :=
  lookup_col (f_columns df) c.

(** [df.drop(columns=names, errors="ignore")] *)
Definition drop (names : list str) (df : frame) : frame :=
  {| f_nrows := f_nrows df;
     f_columns := filter (fun c => negb (mem (fst c) names)) (f_columns df) |}.

(** [X[col] = v] for a label that is not yet a column: the scalar is
    broadcast over the rows. *)
Definition add_column (X : frame) (col : str) (v : pyval) : frame :=
  {| f_nrows := f_nrows X;
     f_columns := f_columns X ++ [(col, repeat v (f_nrows X))] |}.

(** The series [y]: the rows of the frame whose price survived [dropna],
    with their index. *)
Definition surviving (nrows : nat) (prices : list (option Z)) : list (nat * Z) :=
  flat_map (fun ip => match snd ip with
                      | Some z => [(fst ip, z)]
                      | None => []
                      end) (combine (seq 0 nrows) prices).

(** [X.loc[index]] *)
Definition loc (index : list nat) (X : frame) : frame :=
  {| f_nrows := length index;
     f_columns :=
       map (fun c => (fst c, map (fun i => nth i (snd c) nan_cell) index))
           (f_columns X) |}.

(** [0 if "cnt" in col or "score" in col else ""] *)
Definition neutral (col : str) : pyval :=
  if contains (u "cnt") col || contains (u "score") col then PInt 0
  else PStr [].

(** The loop [for col in FEATURE_COLUMNS: if col not in X.columns:
    X[col] = row.get(col, ...)]. *)
Definition backfill_step (row : dict) (X : frame) (col : str) : frame :=
  if mem col (columns X) then X
  else add_column X col (dget_default row col (neutral col)).

Definition backfill (row : dict) (X : frame) : frame :=
  fold_left (backfill_step row) FEATURE_COLUMNS X.

(** [car_row]: the subject's values for the columns of [X] it has, then a
    default for every other column. *)
Definition car_row_of (row : dict) (X : frame) : dict :=
  let base :=
    flat_map (fun k => match lookup row k with
                       | Some v => [(k, v)]
                       | None => []
                       end) (columns X) in
  fold_left (fun cr k => if has_key cr k then cr
                         else cr ++ [(k, dget_default row k (neutral k))])
            (columns X) base.

(** *** Results of [run_pricing] *)

(** The dictionary every failure path returns, with its extra keys. *)
Definition no_estimate (missing : list str) (extra : dict) : dict :=
  [ (u "min_price", PNone); (u "max_price", PNone);
    (u "suggested_price", PNone); (u "mae", PNone);
    (u "missing_fields", PList (map PStr missing)) ] ++ extra.

Definition with_reason (reason : str) : dict :=
  no_estimate [] [(u "_reason", PStr reason)].

Definition with_error (msg : str) : dict :=
  no_estimate [] [(u "_error", PStr msg)].

(** *** The generation loop *)

(** Removal of a markdown fence around the answer. *)
Definition strip_fence (raw : str) : str :=
  if startswith (u "```") raw then
    let raw :=
      if startswith (u "```json") raw
      then strip (skipn (length (u "```json")) raw)
      else strip (skipn (length (u "```")) raw) in
    if endswith (u "```") raw then
      match rfind (u "```") raw with
      | Some i => strip (firstn i raw)
      | None => strip (removelast raw)
      end
    else raw
  else raw.

(** The body of the [try] up to the assignment of [rows]. *)
Definition parse_answer (env : Env) (content : option str)
  : result (list pyval) :=
  let raw := strip (match content with Some s => s | None => [] end) in
  let raw := strip_fence raw in
  let raw := if is_empty raw then u "[]" else raw in
  _extract_json_array env raw.

(** The request of one attempt: the prompt for [row["brand"]],
    [row["model"]] and [n_rows = 50], the temperature of the attempt. *)
Definition request (brand model : str) (attempt : nat) : generation_request :=
  {| rq_brand := brand;
     rq_model := model;
     rq_n_rows := 50;
     rq_temperature := if Nat.eqb attempt 0 then f0_7 else f0_9;
     rq_max_completion_tokens := 16384 |}.

(** How the [for attempt in range(2)] loop is left: by [break] or
    exhaustion, or by a [return] inside a handler. *)
Inductive loop_exit :=
| Finished (rows : list pyval) (last_error : str)
| Returned (d : dict).

Section RunPricing.
Variable lib : Builtins.
Variable env : Env.

Fixpoint generation_loop (brand model : str) (attempts : list nat)
         (rows : list pyval) (last_error : str) : M loop_exit :=
  match attempts with
  | [] => ret (Finished rows last_error)
  | attempt :: rest =>
    let rq := request brand model attempt in
    _ <- tell (EvChat rq) ;;
    match rbind (chat_completion env attempt rq) (parse_answer env) with
    | Ok rows' =>
      if truthy (PList rows') && (10 <=? length rows')%nat
      then ret (Finished rows' last_error)
      else generation_loop brand model rest rows'
             (if negb (truthy (PList rows')) then u "empty data"
              else u "too few rows")
    | Raise e =>
      if is_ValueError e then
        if Nat.eqb attempt 1
        then ret (Returned (with_reason (u "failed to parse synthetic data")))
        else generation_loop brand model rest rows
               (u "failed to parse synthetic data")
      else
        if Nat.eqb attempt 1
        then ret (Returned (with_error (exn_msg e)))
        else generation_loop brand model rest rows (exn_msg e)
    end
  end.

(** [get_client()]: [get_api_key] raises when the key is unset or empty. *)
Definition get_client : result unit :=
  match env_api_key env with
  | Some (_ :: _) => Ok tt
  | _ => Raise (mkExn ValueError (u "OPENAI_API_KEY is not set"))
  end.

(** The estimate returned on success. *)
Definition estimate (min_price max_price suggested_price : Z) (mae : float)
           (generated_rows : list pyval) : dict :=
  [ (u "min_price", PInt min_price);
    (u "max_price", PInt max_price);
    (u "suggested_price", PInt suggested_price);
    (u "mae", PFloat (py_round0 mae));
    (u "missing_fields", PList []);
    (u "generated_rows", PList generated_rows) ].

(** From [df = pd.DataFrame(rows)] to the end of [run_pricing]. *)
Definition train_and_estimate (row : dict) (rows : list pyval) : M dict :=
  match all_dicts rows with
  | None =>
    match frame_of_irregular env rows with
    | Some e => throw e
    | None => ret (with_reason (u "no price column or too few rows"))
    end
  | Some records =>
    let df := DataFrame records in
    if negb (mem (u "price") (columns df)) || (f_nrows df <? 10)%nat
    then ret (with_reason (u "no price column or too few rows"))
    else
      let drop_cols :=
        filter (fun c => mem c (columns df)) (map u ["price"; "brand"; "model"]) in
      let X := drop drop_cols df in
      let X := backfill row X in
      prices <- lift (to_numeric_int env
                        (match column df (u "price") with
                         | Some cells => cells
                         | None => []
                         end)) ;;
      let y := surviving (f_nrows df) prices in
      if (length y <? 10)%nat then ret (with_reason (u "too few valid prices"))
      else
        let X := loc (map fst y) X in
        let cat_cols := filter (fun c => mem c (columns X)) CAT_FEATURES in
        _ <- tell (EvFit X (map snd y) cat_cols) ;;
        cb <- lift (fit_model env X (map snd y) cat_cols) ;;
        let mae := tm_mae cb in
        let car_row := car_row_of row X in
        _ <- tell (EvPredict car_row) ;;
        predicted <- lift (tm_predict cb car_row) ;;
        match predicted with
        | [] => ret (no_estimate [] [])
        | p :: _ =>
          suggested_price <- lift (py_round p) ;;
          fsp <- lift (float_of_int suggested_price) ;;
          lo <- lift (py_round (fsub fsp mae)) ;;
          let min_price := Z.max 0 lo in
          max_price <- lift (py_round (fadd fsp mae)) ;;
          generated_rows <- lift (serialize_rows env df) ;;
          ret (estimate min_price max_price suggested_price mae generated_rows)
        end
  end.

Definition run_pricing (a : pricing_args) : M dict :=
  row <- lift (build_row lib a) ;;
  missing <- lift (_check_missing lib row) ;;
  if truthy (PList (map PStr missing)) then ret (no_estimate missing [])
  else
    _ <- lift get_client ;;
    ex <- generation_loop (text_of (a_brand a)) (text_of (a_model a))
                          (seq 0 2) [] (u "empty data") ;;
    match ex with
    | Returned d => ret d
    | Finished rows last_error =>
      if negb (truthy (PList rows)) || (length rows <? 10)%nat
      then ret (with_reason last_error)
      else train_and_estimate row rows
    end.

End RunPricing.

End Pricing.
Export Pricing.

(* ================================================================== *)
(** ** [backend/app/schemas.py] *)

Module Schemas.

Record CarIdentity := {
  ci_brand : str;
  ci_model : str;
  ci_generation : str;
  ci_year : option Z;
  ci_body_type : str;
  ci_color : str;
  ci_steering_wheel_position : str;
  ci_engine_capacity : option float;
  ci_transmission : str;
  ci_drive_type : str;
  ci_mileage : option Z;
  ci_damage_flag : str;
}.

Record DefectItem := {
  di_type : str;
  di_severity : str;
  di_location : str;
  di_body_part : str;
}.

Record VisualCondition := {
  overall_score : float;
  defects : list DefectItem;
}.

Record TechnicalAssumptions := {
  accident_signs : bool;
  repaint_probability : float;
}.

Record PriceEstimation := {
  min_price : option Z;
  max_price : option Z;
  suggested_price : option Z;
  mae : option float;
  missing_fields : list pyval;
  error_message : option str;
  generated_rows : option (list pyval);
}.

Record ConfidenceWarning := {
  field : str;
  confidence : str;
  reason : str;
}.

Record AnalysisResponse := {
  car_identity : CarIdentity;
  visual_condition : VisualCondition;
  technical_assumptions : TechnicalAssumptions;
  price_estimation : PriceEstimation;
  generated_description : str;
  confidence_warnings : list ConfidenceWarning;
  status : str;
  vision_result : dict;
}.

(** The field defaults of the models. *)
Definition default_CarIdentity : CarIdentity :=
  {| ci_brand := []; ci_model := []; ci_generation := []; ci_year := None;
     ci_body_type := []; ci_color := []; ci_steering_wheel_position := [];
     ci_engine_capacity := None; ci_transmission := []; ci_drive_type := [];
     ci_mileage := None; ci_damage_flag := [] |}.

Definition default_VisualCondition : VisualCondition :=
  {| overall_score := f0_0; defects := [] |}.

Definition default_TechnicalAssumptions : TechnicalAssumptions :=
  {| accident_signs := false; repaint_probability := f0_0 |}.

Definition default_PriceEstimation : PriceEstimation :=
  {| min_price := None; max_price := None; suggested_price := None;
     mae := None; missing_fields := []; error_message := None;
     generated_rows := None |}.

(** [AnalysisResponse(status=..., confidence_warnings=...)] *)
Definition response_with (st : str) (warnings : list ConfidenceWarning)
  : AnalysisResponse :=
  {| car_identity := default_CarIdentity;
     visual_condition := default_VisualCondition;
     technical_assumptions := default_TechnicalAssumptions;
     price_estimation := default_PriceEstimation;
     generated_description := [];
     confidence_warnings := warnings;
     status := st;
     vision_result := [] |}.

Definition SEVERITY_MAP : list (str * str) :=
  [ (u "слабая", u "weak"); (u "умеренная", u "moderate");
    (u "сильная", u "strong") ].

Definition DEFECT_TYPE_MAP : list (str * str) :=
  [ (u "царапина", u "scratch"); (u "вмятина", u "dent");
    (u "скол", u "chip"); (u "коррозия", u "corrosion");
    (u "загрязнение", u "chip"); (u "окрашена", u "painted");
    (u "перекрашена", u "painted"); (u "заменена", u "replaced") ].

End Schemas.
Export Schemas.

(* ================================================================== *)
(** ** [backend/app/orchestrator.py] *)

Module Orchestrator.

Section WithLibrary.
Variable lib : Builtins.

Fixpoint str_lookup (m : list (str * str)) (k : str) : option str :=
  match m with
  | [] => None
  | (k', v) :: m' => if str_eqb k k' then Some v else str_lookup m' k
  end.

Definition _normalize_defect_type (t : str) : str :=
  let t_lower := str_lower lib (strip t) in
  match List.find (fun kv => contains (fst kv) t_lower || contains t_lower (fst kv))
                  DEFECT_TYPE_MAP with
  | Some (_, en) => en
  | None =>
    if is_empty t_lower then u "scratch"
    else if contains (u "царапин") t_lower then u "scratch"
    else if contains (u "вмятин") t_lower || contains (u "деформац") t_lower
         then u "dent"
    else if contains (u "скол") t_lower then u "chip"
    else if contains (u "коррози") t_lower || contains (u "ржавчин") t_lower
         then u "corrosion"
    else if contains (u "окраш") t_lower || contains (u "перекраш") t_lower
         then u "painted"
    else if contains (u "замен") t_lower then u "replaced"
    else u "scratch"
  end.

(** The body of the loop of [_map_defects] for one dictionary; nothing in
    it raises. *)
Definition map_defect (d : dict) : DefectItem :=
  let severity_ru :=
    str_lower lib (strip (py_str lib (py_or (dget d (u "severity"))
                                            (PStr (u "слабая"))))) in
  let severity :=
    match str_lookup SEVERITY_MAP severity_ru with
    | Some s => s
    | None => u "weak"
    end in
  let defect_type0 :=
    _normalize_defect_type (py_str lib (py_or (dget d (u "type")) (PStr []))) in
  let defect_type :=
    if mem defect_type0
           (map u ["scratch"; "dent"; "chip"; "corrosion"; "replaced"; "painted"])
    then defect_type0 else u "scratch" in
  let body_part := strip (py_str lib (py_or (dget d (u "body_part")) (PStr []))) in
  let location := strip (py_str lib (py_or (dget d (u "location")) (PStr []))) in
  {| di_type := defect_type; di_severity := severity;
     di_location := location; di_body_part := body_part |}.

Definition _map_defects (vision : dict) : list DefectItem :=
  match py_or (dget vision (u "defects")) (PList []) with
  | PList raw =>
    flat_map (fun d => match d with
                       | PDict d => [map_defect d]
                       | _ => []
                       end) raw
  | _ => []
  end.

(** [v == s] for a string literal [s] *)
Definition eq_str (v : pyval) (s : str) : bool :=
  match v with PStr s' => str_eqb s' s | _ => false end.

Definition warning (f c r : string) : ConfidenceWarning :=
  {| field := u f; confidence := u c; reason := u r |}.

Definition warn_classification : ConfidenceWarning :=
  warning "model" "low" "Низкая уверенность визуальной классификации".
Definition warn_identity : ConfidenceWarning :=
  warning "model" "low" "Марка или модель не определены по фото".
Definition warn_visibility : ConfidenceWarning :=
  warning "visual_condition" "medium" "Ограниченная видимость на фото".
Definition warn_price : ConfidenceWarning :=
  warning "price_estimation" "low" "Недостаточно данных для оценки цены".

(** The four statements of the [try] block of [_confidence_warnings]; each
    takes the list built so far. *)
Definition check_confidence (classification : pyval)
           (warnings : list ConfidenceWarning)
  : result (list ConfidenceWarning) :=
  c <~ py_get classification (u "classification_confidence") ;;
  match py_or c (PDict []) with
  | PDict conf =>
    if eq_str (dget conf (u "category")) (u "low")
       || eq_str (dget conf (u "subcategory")) (u "low")
    then Ok (warnings ++ [warn_classification])
    else Ok warnings
  | _ => Ok warnings
  end.

Definition check_identity (classification : pyval)
           (warnings : list ConfidenceWarning)
  : result (list ConfidenceWarning) :=
  b <~ py_get classification (u "brand") ;;
  if negb (truthy b) then Ok (warnings ++ [warn_identity])
  else
    m <~ py_get classification (u "model") ;;
    if negb (truthy m) then Ok (warnings ++ [warn_identity])
    else Ok warnings.

(** [isinstance(insp, (int, float)) and insp < 0.6]; a [bool] is an [int]. *)
Definition below_0_6 (insp : pyval) : bool :=
  match insp with
  | PInt z => int_lt_float z f0_6
  | PBool b => int_lt_float (if b then 1 else 0) f0_6
  | PFloat x => flt x f0_6
  | _ => false
  end.

Definition check_visibility (vision : pyval)
           (warnings : list ConfidenceWarning)
  : result (list ConfidenceWarning) :=
  insp <~ py_get vision (u "inspection_reliability_score") ;;
  if below_0_6 insp then Ok (warnings ++ [warn_visibility]) else Ok warnings.

Definition check_price (price_est : pyval)
           (warnings : list ConfidenceWarning)
  : result (list ConfidenceWarning) :=
  sp <~ py_get price_est (u "suggested_price") ;;
  if is_none sp then
    mf <~ py_get price_est (u "missing_fields") ;;
    if truthy mf then Ok (warnings ++ [warn_price])
    else
      er <~ py_get price_est (u "_error") ;;
      if truthy er then Ok (warnings ++ [warn_price])
      else
        rs <~ py_get price_est (u "_reason") ;;
        if truthy rs then Ok (warnings ++ [warn_price]) else Ok warnings
  else Ok warnings.

(** One [try] around a sequence of statements: the first exception ends the
    block and keeps what was built. *)
Fixpoint try_block {A} (steps : list (A -> result A)) (acc : A) : A :=
  match steps with
  | [] => acc
  | step :: rest =>
    match step acc with
    | Ok acc' => try_block rest acc'
    | Raise _ => acc
    end
  end.

Definition _confidence_warnings (classification vision price_est : pyval)
  : list ConfidenceWarning :=
  try_block [ check_confidence classification;
              check_identity classification;
              check_visibility vision;
              check_price price_est ] [].

(** The three rejection phrases searched in the lowered description. *)
Definition REJECTION_PHRASES : list str :=
  map u ["анализ невозможен"; "не содержит автомобиль"; "не соответствует задаче"].

Definition decide (vision classification : pyval) : result str :=
  ve <~ py_get vision (u "_error") ;;
  vp <~ (if truthy ve then Ok ve else py_get vision (u "_parse_error")) ;;
  if truthy vp then Ok (u "error")
  else
    ce <~ py_get classification (u "_error") ;;
    cp <~ (if truthy ce then Ok ce else py_get classification (u "_parse_error")) ;;
    if truthy cp then Ok (u "error")
    else
      rd <~ py_get vision (u "raw_text_description") ;;
      let raw_desc := str_lower lib (py_str lib (py_or rd (PStr []))) in
      if existsb (fun p => contains p raw_desc) REJECTION_PHRASES
      then Ok (u "needs_user_input")
      else
        st <~ py_get classification (u "status") ;;
        let status := py_str lib (py_or st (PStr [])) in
        fr <~ (if str_eqb status (u "failed")
               then py_get classification (u "failure_reason")
               else Ok PNone) ;;
        if str_eqb status (u "failed") && truthy fr
        then Ok (u "needs_user_input")
        else
          b <~ py_get classification (u "brand") ;;
          m <~ (if negb (truthy b) then py_get classification (u "model")
                else Ok PNone) ;;
          if negb (truthy b) && negb (truthy m)
          then Ok (u "needs_user_input")
          else Ok (u "ok").

(** [_decide_status]: the body in a [try] whose handler returns "error". *)
Definition _decide_status (vision classification : pyval) : str :=
  match decide vision classification with
  | Ok s => s
  | Raise _ => u "error"
  end.

End WithLibrary.

(** [base64.b64encode(raw).decode("utf-8")] on a sequence of bytes. *)
Definition b64_alphabet : str :=
  u "ABCDEFGHIJKLMNOPQRSTUVWXYZabcdefghijklmnopqrstuvwxyz0123456789+/".

Definition b64_char (n : N) : N := nth (N.to_nat n) b64_alphabet 0%N.

Fixpoint b64encode (raw : list N) : str :=
  match raw with
  | [] => []
  | [a] => [b64_char (a / 4); b64_char (a mod 4 * 16); 61; 61]%N
  | [a; b] =>
    [b64_char (a / 4); b64_char (a mod 4 * 16 + b / 16);
     b64_char (b mod 16 * 4); 61]%N
  | a :: b :: c :: rest =>
    [b64_char (a / 4); b64_char (a mod 4 * 16 + b / 16);
     b64_char (b mod 16 * 4 + c / 64); b64_char (c mod 64)]%N
      ++ b64encode rest
  end.

Section Analyze.
Variable lib : Builtins.
Variable env : Env.

(** Two tasks submitted to a pool of two workers, then [result()] on the
    first and on the second: both run; the exception that surfaces is the
    first task's if it raised, else the second's. *)
Definition both {A B} (ma : M A) (mb : M B) : M (A * B) :=
  (log_of ma ++ log_of mb,
   match outcome ma, outcome mb with
   | Ok a, Ok b => Ok (a, b)
   | Raise e, _ => Raise e
   | Ok _, Raise e => Raise e
   end).

(** The local function [safe_str]. *)
Definition safe_str (value : pyval) : str :=
  match value with
  | PNone => []
  | _ => strip (py_str lib value)
  end.

(** The local functions [safe_int] and [safe_float]: [None] stays [None],
    [TypeError] and [ValueError] of the conversion give [None]. *)
Definition safe_conv {A} (conv : pyval -> result A) (value : pyval)
  : result (option A) :=
  if is_none value then Ok None
  else match conv value with
       | Ok x => Ok (Some x)
       | Raise e =>
         if is_ValueError e || is_TypeError e then Ok None else Raise e
       end.

Definition safe_int : pyval -> result (option Z) := safe_conv (py_int lib).
Definition safe_float : pyval -> result (option float) := safe_conv (py_float lib).

(** The first use of an agent's output is a [.get]. *)
Definition as_dict (v : pyval) : result dict :=
  match v with
  | PDict d => Ok d
  | _ => Raise (no_attribute v "get")
  end.

Definition identity_of (classification vision : dict) : CarIdentity :=
  {| ci_brand := safe_str (dget classification (u "brand"));
     ci_model := safe_str (dget classification (u "model"));
     ci_generation := [];
     ci_year := None;
     ci_body_type := safe_str (dget classification (u "body_type"));
     ci_color := safe_str (dget classification (u "color"));
     ci_steering_wheel_position :=
       safe_str (dget classification (u "steering_wheel_position"));
     ci_engine_capacity := None;
     ci_transmission := safe_str (dget classification (u "transmission"));
     ci_drive_type := [];
     ci_mileage := None;
     ci_damage_flag :=
       safe_str (py_or (dget vision (u "damage_flag")) (PStr (u "не определено"))) |}.

(** [float(vision.get("visual_condition_score") or 0.0)] in its [try]. *)
Definition visual_score_of (vision : dict) : result float :=
  match py_float lib (py_or (dget vision (u "visual_condition_score"))
                            (PFloat f0_0)) with
  | Ok x => Ok x
  | Raise e => if is_ValueError e || is_TypeError e then Ok f0_0 else Raise e
  end.

Definition visual_condition_of (vision : dict) (score : float)
  : VisualCondition :=
  {| overall_score := score; defects := _map_defects lib vision |}.

Definition assumptions_of (ci : CarIdentity) : TechnicalAssumptions :=
  {| accident_signs := str_eqb (str_lower lib (ci_damage_flag ci)) (u "битый");
     repaint_probability := f0_0 |}.

Definition opt_int (x : option Z) : pyval :=
  match x with Some z => PInt z | None => PNone end.

Definition opt_float (x : option float) : pyval :=
  match x with Some f => PFloat f | None => PNone end.

Definition df_for_pricing_of (ci : CarIdentity) (vc : VisualCondition) : dict :=
  [ (u "brand", PStr (ci_brand ci));
    (u "model", PStr (ci_model ci));
    (u "body_type", PStr (ci_body_type ci));
    (u "color", PStr (ci_color ci));
    (u "steering_wheel_position", PStr (ci_steering_wheel_position ci));
    (u "year", opt_int (ci_year ci));
    (u "engine_capacity", opt_float (ci_engine_capacity ci));
    (u "transmission", PStr (ci_transmission ci));
    (u "drive_type", PStr (ci_drive_type ci));
    (u "mileage", opt_int (ci_mileage ci));
    (u "damage_flag", PStr (ci_damage_flag ci));
    (u "visual_condition_score", PFloat (overall_score vc));
    (u "defects_cnt", PInt (Z.of_nat (length (defects vc)))) ].

(** The closure [_run_pricing]: its arguments are evaluated in the worker. *)
Definition pricing_task (ci : CarIdentity) (vc : VisualCondition)
           (vision : dict) : M dict :=
  let insp := dget vision (u "inspection_reliability_score") in
  irs <- lift (if is_none insp then Ok f0_5
               else py_float lib (py_or insp (PFloat f0_5))) ;;
  let args :=
    {| a_brand := Some (ci_brand ci);
       a_model := Some (ci_model ci);
       a_body_type := Some (ci_body_type ci);
       a_color := Some (ci_color ci);
       a_steering_wheel_position := Some (ci_steering_wheel_position ci);
       a_year := ci_year ci;
       a_engine_capacity := ci_engine_capacity ci;
       a_transmission := Some (ci_transmission ci);
       a_drive_type := Some (ci_drive_type ci);
       a_mileage := ci_mileage ci;
       a_damage_flag := Some (ci_damage_flag ci);
       a_visual_condition_score := Some (overall_score vc);
       a_inspection_reliability_score := Some irs;
       a_defects := py_or (dget vision (u "defects")) (PList []) |} in
  _ <- tell (EvPricing args) ;;
  run_pricing lib env args.

Definition description_task (images_b64 : list str) (classification vision : dict)
           (df_for_pricing : dict) : M str :=
  _ <- tell (EvDescription images_b64 (PDict classification) (PDict vision)
                           df_for_pricing) ;;
  lift (run_description env images_b64 (PDict classification) (PDict vision)
                        df_for_pricing).

(** The second barrier with its handler. *)
Definition phase2 (images_b64 : list str) (ci : CarIdentity)
           (vc : VisualCondition) (classification vision : dict)
  : M (dict * str) :=
  catch (both (pricing_task ci vc vision)
              (description_task images_b64 classification vision
                                (df_for_pricing_of ci vc)))
        (fun e => ret ([(u "_error", PStr (exn_msg e))], [])).

Definition price_estimation_of (price_est : dict) : result PriceEstimation :=
  let err_msg := py_or (dget price_est (u "_error")) (dget price_est (u "_reason")) in
  mn <~ safe_int (dget price_est (u "min_price")) ;;
  mx <~ safe_int (dget price_est (u "max_price")) ;;
  sp <~ safe_int (dget price_est (u "suggested_price")) ;;
  ma <~ safe_float (dget price_est (u "mae")) ;;
  Ok {| min_price := mn;
        max_price := mx;
        suggested_price := sp;
        mae := ma;
        missing_fields :=
          match dget price_est (u "missing_fields") with
          | PList l => l
          | _ => []
          end;
        error_message :=
          if truthy err_msg then Some (py_str lib err_msg) else None;
        generated_rows :=
          match dget price_est (u "generated_rows") with
          | PList l => Some l
          | _ => None
          end |}.

(** Steps 2 to 5 of [analyze_images], after the first barrier. *)
Definition assemble (images_b64 : list str) (vision classification : pyval)
  : M AnalysisResponse :=
  v <- lift (as_dict vision) ;;
  c <- lift (as_dict classification) ;;
  let ci := identity_of c v in
  visual_score <- lift (visual_score_of v) ;;
  let vc := visual_condition_of v visual_score in
  let ta := assumptions_of ci in
  p2 <- phase2 images_b64 ci vc c v ;;
  let price_est := fst p2 in
  pe <- lift (price_estimation_of price_est) ;;
  ret {| car_identity := ci;
         visual_condition := vc;
         technical_assumptions := ta;
         price_estimation := pe;
         generated_description := snd p2;
         confidence_warnings :=
           _confidence_warnings (PDict c) (PDict v) (PDict price_est);
         status := _decide_status lib (PDict v) (PDict c);
         vision_result := v |}.

Definition vision_task (images_b64 : list str) : M pyval :=
  _ <- tell (EvVision images_b64) ;;
  lift (run_vision env images_b64).

Definition classification_task (images_b64 : list str) : M pyval :=
  _ <- tell (EvClassification images_b64) ;;
  lift (run_classification env images_b64).

Definition agents_failed (e : exn) : AnalysisResponse :=
  response_with (u "error")
    [ {| field := u "agents"; confidence := u "low";
         reason := u "Ошибка выполнения агентов: " ++ exn_msg e |} ].

Definition analyze_images (images_bytes : list (list N)) : M AnalysisResponse :=
  match images_bytes with
  | [] =>
    ret (response_with (u "needs_user_input")
                       [warning "images" "low" "Нет загруженных фото"])
  | _ :: _ =>
    let images_b64 := map b64encode images_bytes in
    p1 <- catch (p <- both (vision_task images_b64)
                           (classification_task images_b64) ;;
                 ret (inl p))
                (fun e => ret (inr (agents_failed e))) ;;
    match p1 with
    | inr resp => ret resp
    | inl (vision, classification) => assemble images_b64 vision classification
    end
  end.

End Analyze.

End Orchestrator.
Export Orchestrator.

(* ================================================================== *)
(** ** Sample builtins, worlds and inputs

    Concrete instances for the examples below. [sample_lib] is exact on the
    inputs the examples give it: letters of the Latin and Russian
    alphabets, [None], booleans and integers. *)

Module Samples.

Definition lower_char (c : N) : N :=
  if ((65 <=? c) && (c <=? 90))%N then (c + 32)%N
  else if ((1040 <=? c) && (c <=? 1071))%N then (c + 32)%N
  else if ((1024 <=? c) && (c <=? 1039))%N then (c + 80)%N
  else c.

Fixpoint digits (d : Decimal.uint) : str :=
  match d with
  | Decimal.Nil => []
  | Decimal.D0 r => 48%N :: digits r
  | Decimal.D1 r => 49%N :: digits r
  | Decimal.D2 r => 50%N :: digits r
  | Decimal.D3 r => 51%N :: digits r
  | Decimal.D4 r => 52%N :: digits r
  | Decimal.D5 r => 53%N :: digits r
  | Decimal.D6 r => 54%N :: digits r
  | Decimal.D7 r => 55%N :: digits r
  | Decimal.D8 r => 56%N :: digits r
  | Decimal.D9 r => 57%N :: digits r
  end.

Definition decimal (z : Z) : str :=
  match Z.to_int z with
  | Decimal.Pos d => digits d
  | Decimal.Neg d => 45%N :: digits d
  end.

Definition sample_lib : Builtins :=
  {| str_lower := map lower_char;
     repr_nonstr := fun v =>
       match v with
       | PNone => u "None"
       | PBool b => if b then u "True" else u "False"
       | PInt z => decimal z
       | _ => []
       end;
     int_of_str := fun _ => None;
     float_of_str := fun _ => None |}.

(** The character U+0022, which delimits JSON strings. *)
Definition dq : str := [34%N].

(** The JSON text of a corpus whose records hold a price only. *)
Definition record_text (price : Z) : str :=
  u "{" ++ dq ++ u "price" ++ dq ++ u ": " ++ decimal price ++ u "}".

Fixpoint join (sep : str) (parts : list str) : str :=
  match parts with
  | [] => []
  | [p] => p
  | p :: rest => p ++ sep ++ join sep rest
  end.

Definition corpus_text (prices : list Z) : str :=
  u "[" ++ join (u ", ") (map record_text prices) ++ u "]".

Definition corpus_rows (prices : list Z) : list pyval :=
  map (fun z => PDict [(u "price", PInt z)]) prices.

Definition ten_prices : list Z :=
  [800000; 850000; 900000; 950000; 1000000;
   1100000; 1200000; 1300000; 1450000; 1600000]%Z.

Definition negative_prices : list Z := repeat (-100000)%Z 10.

Definition timeout : exn := mkExn OtherException [].

(** A world whose generative service answers every request with the corpus
    of [prices], whose regressor reports [mae] and predicts [predicted],
    and whose agents return [vision] and [classification]. *)
Definition world (prices : list Z) (mae : float) (predicted : list float)
           (vision classification : pyval) (description : result str) : Env :=
  {| env_api_key := Some (u "sk-test");
     chat_completion := fun _ _ => Ok (Some (corpus_text prices));
     json_loads := fun s =>
       if str_eqb s (corpus_text prices) then Ok (corpus_rows prices)
       else Raise (mkExn JSONDecodeError (u "Expecting value"));
     frame_of_irregular := fun _ => None;
     to_numeric_int := fun cells =>
       Ok (map (fun c => match c with PInt z => Some z | _ => None end) cells);
     fit_model := fun _ _ _ =>
       Ok {| tm_mae := mae; tm_predict := fun _ => Ok predicted |};
     serialize_rows := fun _ => Ok (corpus_rows prices);
     run_vision := fun _ => Ok vision;
     run_classification := fun _ => Ok classification;
     run_description := fun _ _ _ _ => description |}.

Definition camry_vision : pyval :=
  PDict [ (u "visual_condition_score", PFloat f0_9);
          (u "inspection_reliability_score", PFloat f0_7);
          (u "damage_flag", PStr (u "не битый"));
          (u "defects", PList []);
          (u "raw_text_description", PStr (u "Седан в хорошем состоянии")) ].

Definition camry_classification : pyval :=
  PDict [ (u "brand", PStr (u "Toyota")); (u "model", PStr (u "Camry"));
          (u "body_type", PStr (u "sedan")); (u "color", PStr (u "red"));
          (u "steering_wheel_position", PStr (u "left"));
          (u "transmission", PStr (u "automatic"));
          (u "status", PStr (u "ok")) ].

Definition pricing_world (prices : list Z) (mae : float)
           (predicted : list float) : Env :=
  world prices mae predicted camry_vision camry_classification (Ok (u "Toyota Camry")).

(** A complete subject record. *)
Definition camry (defects : pyval) : pricing_args :=
  {| a_brand := Some (u "Toyota");
     a_model := Some (u "Camry");
     a_body_type := Some (u "sedan");
     a_color := Some (u "red");
     a_steering_wheel_position := Some (u "left");
     a_year := Some 2015%Z;
     a_engine_capacity := Some (ratio 5 2);
     a_transmission := Some (u "automatic");
     a_drive_type := Some (u "fwd");
     a_mileage := Some 90000%Z;
     a_damage_flag := Some (u "не битый");
     a_visual_condition_score := Some f0_9;
     a_inspection_reliability_score := Some f0_7;
     a_defects := defects |}.

(** The same record without a mileage. *)
Definition camry_no_mileage (defects : pyval) : pricing_args :=
  {| a_brand := Some (u "Toyota");
     a_model := Some (u "Camry");
     a_body_type := Some (u "sedan");
     a_color := Some (u "red");
     a_steering_wheel_position := Some (u "left");
     a_year := Some 2015%Z;
     a_engine_capacity := Some (ratio 5 2);
     a_transmission := Some (u "automatic");
     a_drive_type := Some (u "fwd");
     a_mileage := None;
     a_damage_flag := Some (u "не битый");
     a_visual_condition_score := Some f0_9;
     a_inspection_reliability_score := Some f0_7;
     a_defects := defects |}.

(** The regressor predicts 900001 with a held-out MAE of 25000.5. *)
Definition tie_world : Env :=
  pricing_world ten_prices (ratio 50001 2) [of_Z 900001].

Definition tie_estimate : dict :=
  estimate 875000 925002 900001 (ratio 50001 2) (corpus_rows ten_prices).

(** The corpus holds negative prices and the regressor predicts one. *)
Definition negative_world : Env :=
  pricing_world negative_prices (of_Z 0) [of_Z (-100000)].

Definition negative_estimate : dict :=
  estimate 0 (-100000) (-100000) (of_Z 0) (corpus_rows negative_prices).

(** The frame the regressor is fitted on in [tie_world] for [camry]: the
    corpus holds prices only, so every feature column is back-filled. *)
Definition tie_frame : frame :=
  {| f_nrows := 10;
     f_columns :=
       map (fun kv => (u (fst kv), repeat (snd kv) 10))
           [ ("body_type", PStr (u "sedan"));
             ("color", PStr (u "red"));
             ("steering_wheel_position", PStr (u "left"));
             ("year", PInt 2015);
             ("engine_capacity", PFloat (ratio 5 2));
             ("transmission", PStr (u "automatic"));
             ("drive_type", PStr (u "fwd"));
             ("mileage", PInt 90000);
             ("damage_flag", PStr (u "не битый"));
             ("visual_condition_score", PFloat f0_9);
             ("inspection_reliability_score", PFloat f0_7);
             ("defects_cnt", PInt 0);
             ("defects_severity_weak_cnt", PInt 0);
             ("defects_severity_moderate_cnt", PInt 0);
             ("defects_severity_strong_cnt", PInt 0) ] |}.

(** The entries of a dictionary value. *)
Definition fields (v : pyval) : dict :=
  match v with PDict d => d | _ => [] end.

(** One uploaded image: the first bytes of a JPEG file. *)
Definition one_image : list (list N) := [[255; 216; 255; 224]%N].

Definition timed_out : exn := mkExn OtherException (u "Request timed out.").

(** A world whose description agent raises [e]. *)
Definition failing_description (e : exn) : Env :=
  world ten_prices (ratio 50001 2) [of_Z 900001]
        camry_vision camry_classification (Raise e).

(** The generative service answers every request with five records. *)
Definition few_rows_world : Env :=
  pricing_world (firstn 5 ten_prices) (ratio 50001 2) [of_Z 900001].

(** The generative service answers every request with an array of ten
    numbers: ten elements, none of them a record. *)
Definition ten_numbers : list pyval :=
  map PInt [1; 2; 3; 4; 5; 6; 7; 8; 9; 10]%Z.

Definition numbers_world : Env :=
  {| env_api_key := env_api_key tie_world;
     chat_completion := fun _ _ =>
       Ok (Some (u "[1, 2, 3, 4, 5, 6, 7, 8, 9, 10]"));
     json_loads := fun s =>
       if str_eqb s (u "[1, 2, 3, 4, 5, 6, 7, 8, 9, 10]") then Ok ten_numbers
       else Raise (mkExn JSONDecodeError (u "Expecting value"));
     frame_of_irregular := fun _ => None;
     to_numeric_int := to_numeric_int tie_world;
     fit_model := fit_model tie_world;
     serialize_rows := serialize_rows tie_world;
     run_vision := run_vision tie_world;
     run_classification := run_classification tie_world;
     run_description := run_description tie_world |}.

End Samples.

(* ================================================================== *)
(** ** Vocabulary of the properties *)

Module Properties.

(** *** Price estimates *)

Definition k_min_price : str := u "min_price".
Definition k_max_price : str := u "max_price".
Definition k_suggested_price : str := u "suggested_price".
Definition k_mae : str := u "mae".
Definition k_missing_fields : str := u "missing_fields".

(** The estimate carries a price. *)
Definition has_price (d : dict) : bool := negb (is_none (dget d k_suggested_price)).

(** The estimate names missing fields. *)
Definition has_missing (d : dict) : bool := truthy (dget d k_missing_fields).

(** The estimate carries an error or a reason (a non-null value). *)
Definition has_error (d : dict) : bool :=
  negb (is_none (dget d (u "_error"))) || negb (is_none (dget d (u "_reason"))).

(** Exactly one of a price and a failure reason. *)
Definition exclusive (d : dict) : bool :=
  xorb (has_price d) (has_missing d || has_error d).

(** All four numeric fields are null. *)
Definition null_prices (d : dict) : Prop :=
  dget d k_min_price = PNone /\ dget d k_max_price = PNone
  /\ dget d k_suggested_price = PNone /\ dget d k_mae = PNone.

(** What [run_pricing] can return, with the calls that led to it. *)
Inductive returned (env : Env) : dict -> Prop :=
| ret_missing missing :
    missing <> [] -> returned env (no_estimate missing [])
| ret_reason r : returned env (with_reason r)
| ret_error msg : returned env (with_error msg)
| ret_silent X y cats cb car :
    fit_model env X y cats = Ok cb ->
    tm_predict cb car = Ok [] ->
    returned env (no_estimate [] [])
| ret_estimate X y cats cb car p rest sp fsp lo hi rows :
    fit_model env X y cats = Ok cb ->
    tm_predict cb car = Ok (p :: rest) ->
    py_round p = Ok sp ->
    float_of_int sp = Ok fsp ->
    py_round (fsub fsp (tm_mae cb)) = Ok lo ->
    py_round (fadd fsp (tm_mae cb)) = Ok hi ->
    returned env (estimate (Z.max 0 lo) hi sp (tm_mae cb) rows).

(** A float with a definite sign: not NaN, sign bit [s]. *)
Definition signed (s : bool) (x : float) : Prop :=
  is_nan x = false /\ sign_bit x = s.

(** The range invariant read with the reported [mae] field. *)
Definition range_with_reported_mae (d : dict) : Prop :=
  forall sp m r,
    dget d k_suggested_price = PInt sp ->
    dget d k_mae = PFloat m ->
    py_round m = Ok r ->
    dget d k_min_price = PInt (Z.max 0 (sp - r))
    /\ dget d k_max_price = PInt (sp + r).

(** No price field of the estimate is negative. *)
Definition no_negative_price (d : dict) : Prop :=
  forall k z,
    In k [k_min_price; k_max_price; k_suggested_price] ->
    dget d k = PInt z -> (0 <= z)%Z.

(** *** Completeness of the subject record *)

(** An entry of the defect list [run_pricing] can count: a dictionary
    whose severity is a string or is falsy. *)
Definition defect_ok (d : pyval) : bool :=
  match d with
  | PDict dd =>
    match py_or (dget dd (u "severity")) (PStr []) with
    | PStr _ => true
    | _ => false
    end
  | _ => false
  end.

Definition defects_ok (defects : pyval) : bool :=
  match py_iter defects with
  | Ok ds => forallb defect_ok ds
  | Raise _ => false
  end.

Definition unset {A} (x : option A) : bool :=
  match x with None => true | Some _ => false end.

(** Per required field: is it empty (blank text, or no number)? *)
Definition empty_fields (a : pricing_args) : list (str * bool) :=
  [ (u "brand", is_empty (text_of (a_brand a)));
    (u "model", is_empty (text_of (a_model a)));
    (u "body_type", is_empty (text_of (a_body_type a)));
    (u "color", is_empty (text_of (a_color a)));
    (u "steering_wheel_position",
     is_empty (text_of (a_steering_wheel_position a)));
    (u "year", unset (a_year a));
    (u "engine_capacity", unset (a_engine_capacity a));
    (u "transmission", is_empty (text_of (a_transmission a)));
    (u "drive_type", is_empty (text_of (a_drive_type a)));
    (u "mileage", unset (a_mileage a));
    (u "damage_flag", is_empty (text_of (a_damage_flag a))) ].

(** Per required field: does the check reject it? The steering side must
    be one of the two admitted values. *)
Definition rejected_fields (a : pricing_args) : list (str * bool) :=
  [ (u "brand", is_empty (text_of (a_brand a)));
    (u "model", is_empty (text_of (a_model a)));
    (u "body_type", is_empty (text_of (a_body_type a)));
    (u "color", is_empty (text_of (a_color a)));
    (u "steering_wheel_position",
     negb (str_eqb (text_of (a_steering_wheel_position a)) (u "left")
           || str_eqb (text_of (a_steering_wheel_position a)) (u "right")));
    (u "year", unset (a_year a));
    (u "engine_capacity", unset (a_engine_capacity a));
    (u "transmission", is_empty (text_of (a_transmission a)));
    (u "drive_type", is_empty (text_of (a_drive_type a)));
    (u "mileage", unset (a_mileage a));
    (u "damage_flag", is_empty (text_of (a_damage_flag a))) ].

Definition flagged (fields : list (str * bool)) : list str :=
  map fst (filter snd fields).

(** The short circuit as the specification words it: an empty required
    field makes [run_pricing] return the list of missing fields. *)
Definition short_circuits (lib : Builtins) (env : Env) (a : pricing_args) : Prop :=
  (exists k, In (k, true) (empty_fields a)) ->
  exists missing, outcome (run_pricing lib env a) = Ok (no_estimate missing []).

(** *** Generation attempts *)

Definition generation_calls (log : list event) : list generation_request :=
  flat_map (fun ev => match ev with EvChat rq => [rq] | _ => [] end) log.

(** The rows the [attempt]-th call yields, or the exception of the call or
    of the parsing. *)
Definition attempt_result (env : Env) (a : pricing_args) (attempt : nat)
  : result (list pyval) :=
  rbind (chat_completion env attempt
           (request (text_of (a_brand a)) (text_of (a_model a)) attempt))
        (parse_answer env).

(** The attempt gives no array of at least ten elements. *)
Definition attempt_fails (env : Env) (a : pricing_args) (attempt : nat) : bool :=
  match attempt_result env a attempt with
  | Ok rows => (length rows <? 10)%nat
  | Raise _ => true
  end.

(** A generation failure: null prices and a reason string. *)
Definition generation_failure (d : dict) : Prop :=
  null_prices d
  /\ exists r, dget d (u "_reason") = PStr r \/ dget d (u "_error") = PStr r.

(** *** The frames given to the regressor *)

Definition fitted_frames (log : list event) : list frame :=
  flat_map (fun ev => match ev with EvFit X _ _ => [X] | _ => [] end) log.

(** The frame built from the accepted rows up to the fit: the corpus
    without price, brand and model, back-filled, restricted to the rows
    with a valid price. *)
Definition training_frame (row : dict) (records : list dict)
           (prices : list (option Z)) : frame :=
  let df := DataFrame records in
  loc (map fst (surviving (f_nrows df) prices))
      (backfill row
         (drop (filter (fun c => mem c (columns df))
                       (map u ["price"; "brand"; "model"])) df)).

(** Back-filling as the specification words it: a declared feature column
    the corpus lacks holds the neutral value in every row. *)
Definition backfilled_with_neutral (X : frame) (corpus_columns : list str) : Prop :=
  forall col,
    In col FEATURE_COLUMNS -> mem col corpus_columns = false ->
    column X col = Some (repeat (neutral col) (f_nrows X)).

(** *** Status resolution as the specification words it *)

Definition carries_marker (out : dict) : bool :=
  truthy (dget out (u "_error")) || truthy (dget out (u "_parse_error")).

Definition summary_rejected (lib : Builtins) (vision : dict) : bool :=
  let summary :=
    str_lower lib (py_str lib (py_or (dget vision (u "raw_text_description"))
                                     (PStr []))) in
  existsb (fun p => contains p summary) REJECTION_PHRASES.

Definition signals_failure (lib : Builtins) (classification : dict) : bool :=
  str_eqb (py_str lib (py_or (dget classification (u "status")) (PStr [])))
          (u "failed")
  && truthy (dget classification (u "failure_reason")).

Definition brand_and_model_empty (classification : dict) : bool :=
  negb (truthy (dget classification (u "brand")))
  && negb (truthy (dget classification (u "model"))).

Definition resolve_status (lib : Builtins) (vision classification : dict) : str :=
  if carries_marker vision || carries_marker classification then u "error"
  else if summary_rejected lib vision || signals_failure lib classification
          || brand_and_model_empty classification
       then u "needs_user_input"
  else u "ok".

(** *** Confidence warnings *)

(** The warning a check contributes on its own, if it runs to the end. *)
Definition contributes (check : list ConfidenceWarning ->
                               result (list ConfidenceWarning))
           (w : ConfidenceWarning) : Prop :=
  check [] = Ok [w].

(** Fault isolation per warning: whatever a check contributes on its own is
    in the returned list. *)
Definition isolates_faults (classification vision price_est : pyval) : Prop :=
  forall check w,
    In check [ check_confidence classification; check_identity classification;
               check_visibility vision; check_price price_est ] ->
    contributes check w ->
    In w (_confidence_warnings classification vision price_est).

(** The warnings of well-formed inputs, one condition each. *)
Definition low_confidence (c : dict) : bool :=
  match py_or (dget c (u "classification_confidence")) (PDict []) with
  | PDict conf =>
    eq_str (dget conf (u "category")) (u "low")
    || eq_str (dget conf (u "subcategory")) (u "low")
  | _ => false
  end.

Definition identity_unknown (c : dict) : bool :=
  negb (truthy (dget c (u "brand"))) || negb (truthy (dget c (u "model"))).

Definition poor_visibility (v : dict) : bool :=
  below_0_6 (dget v (u "inspection_reliability_score")).

Definition price_unresolved (p : dict) : bool :=
  is_none (dget p (u "suggested_price"))
  && (truthy (dget p (u "missing_fields")) || truthy (dget p (u "_error"))
      || truthy (dget p (u "_reason"))).

Definition when (b : bool) (w : ConfidenceWarning) : list ConfidenceWarning :=
  if b then [w] else [].

Definition is_dict (v : pyval) : bool :=
  match v with PDict _ => true | _ => false end.

(** Inputs on which the third check faults while the fourth contributes. *)
Definition unresolved_estimate : pyval :=
  PDict (no_estimate [u "mileage"] []).

(** *** Degraded responses *)

(** The price estimate carries an error message. *)
Definition carries_error_message (pe : PriceEstimation) : Prop :=
  error_message pe <> None.

(** The two tasks of the second barrier for the first-phase outputs
    [vision] and [classification]. *)
Definition second_barrier (lib : Builtins) (env : Env) (images : list (list N))
           (vision classification : dict) (score : float) : M (dict * str) :=
  let ci := identity_of lib classification vision in
  let vc := visual_condition_of lib vision score in
  both (pricing_task lib env ci vc vision)
       (description_task env (map b64encode images) classification vision
                         (df_for_pricing_of ci vc)).

(** The price estimate of a response whose second barrier raised [e]. *)
Definition degraded_price (e : exn) : PriceEstimation :=
  {| min_price := None; max_price := None; suggested_price := None;
     mae := None; missing_fields := [];
     error_message := if is_empty (exn_msg e) then None else Some (exn_msg e);
     generated_rows := None |}.

(** *** The regressor and the batch, as the specification words them *)

(** The fitted regressor answers with a prediction for the row it is given
    ([predict] returns one value per row of the one-row frame). *)
Definition predicts_each_row (env : Env) : Prop :=
  forall X y cats cb car,
    fit_model env X y cats = Ok cb -> tm_predict cb car <> Ok [].

(** A valid row, as the specification has it: a record with a numeric
    price. *)
Definition valid_row (v : pyval) : bool :=
  match v with
  | PDict d =>
    match dget d (u "price") with
    | PInt _ | PFloat _ => true
    | _ => false
    end
  | _ => false
  end.

(** The retry rule as the specification words it: a first batch with fewer
    than ten valid rows is followed by exactly one more request. *)
Definition retries_invalid_batch (lib : Builtins) (env : Env)
           (a : pricing_args) : Prop :=
  forall rows,
    attempt_result env a 0 = Ok rows ->
    (length (filter valid_row rows) < 10)%nat ->
    length (generation_calls (log_of (run_pricing lib env a))) = 2%nat.

End Properties.
Export Properties.

(* ================================================================== *)
(** ** The other entry points: [recalculate_price],
    [regenerate_description] and the [/api/analyze] handler *)

Module Callers.

(** [{"type": d.type, "severity": d.severity, "location": d.location}] *)
Definition defect_dict (d : DefectItem) : pyval :=
  PDict [ (u "type", PStr (di_type d));
          (u "severity", PStr (di_severity d));
          (u "location", PStr (di_location d)) ].

(** ["битый" if accident_signs else (damage_flag or "не битый")] *)
Definition recalc_damage_flag (ci : CarIdentity) (ta : TechnicalAssumptions) : str :=
  if accident_signs ta then u "битый"
  else match ci_damage_flag ci with
       | [] => u "не битый"
       | flag => flag
       end.

(** The arguments [recalculate_price] passes to [run_pricing]. *)
Definition recalc_args (ci : CarIdentity) (vc : VisualCondition)
           (ta : TechnicalAssumptions) : pricing_args :=
  {| a_brand := Some (ci_brand ci);
     a_model := Some (ci_model ci);
     a_body_type := Some (ci_body_type ci);
     a_color := Some (ci_color ci);
     a_steering_wheel_position := Some (ci_steering_wheel_position ci);
     a_year := ci_year ci;
     a_engine_capacity := ci_engine_capacity ci;
     a_transmission := Some (ci_transmission ci);
     a_drive_type := Some (ci_drive_type ci);
     a_mileage := ci_mileage ci;
     a_damage_flag := Some (recalc_damage_flag ci ta);
     a_visual_condition_score := Some (overall_score vc);
     a_inspection_reliability_score := Some f0_7;
     a_defects := PList (map defect_dict (defects vc)) |}.

Definition validation_error (field_name : string) : exn :=
  mkExn OtherException (u "validation error for PriceEstimation: " ++ u field_name).

(** The fields of [PriceEstimation] as the model validates them, on the
    values [run_pricing] puts in its result: an int or [None], a float or
    [None], a list or [None]. *)
Definition int_or_none (field_name : string) (v : pyval) : result (option Z) :=
  match v with
  | PNone => Ok None
  | PInt z => Ok (Some z)
  | _ => Raise (validation_error field_name)
  end.

Definition float_or_none (field_name : string) (v : pyval)
  : result (option float) :=
  match v with
  | PNone => Ok None
  | PFloat x => Ok (Some x)
  | _ => Raise (validation_error field_name)
  end.

Definition list_or_none (field_name : string) (v : pyval)
  : result (option (list pyval)) :=
  match v with
  | PNone => Ok None
  | PList l => Ok (Some l)
  | _ => Raise (validation_error field_name)
  end.

Section WithWorld.
Variable lib : Builtins.
Variable env : Env.

Definition recalculate_price (ci : CarIdentity) (vc : VisualCondition)
           (ta : TechnicalAssumptions) : M PriceEstimation :=
  raw <- run_pricing lib env (recalc_args ci vc ta) ;;
  let err_msg := py_or (dget raw (u "_error")) (dget raw (u "_reason")) in
  mn <- lift (int_or_none "min_price" (dget raw (u "min_price"))) ;;
  mx <- lift (int_or_none "max_price" (dget raw (u "max_price"))) ;;
  sp <- lift (int_or_none "suggested_price" (dget raw (u "suggested_price"))) ;;
  ma <- lift (float_or_none "mae" (dget raw (u "mae"))) ;;
  mf <- lift (list_or_none "missing_fields"
                (py_or (dget raw (u "missing_fields")) (PList []))) ;;
  gr <- lift (list_or_none "generated_rows" (dget raw (u "generated_rows"))) ;;
  ret {| min_price := mn;
         max_price := mx;
         suggested_price := sp;
         mae := ma;
         missing_fields := match mf with Some l => l | None => [] end;
         error_message :=
           if truthy err_msg then Some (py_str lib err_msg) else None;
         generated_rows := gr |}.

(** [d[k] = v]: the value is replaced in place, a new key goes last. *)
Fixpoint dict_set (d : dict) (k : str) (v : pyval) : dict :=
  match d with
  | [] => [(k, v)]
  | (k', v') :: d' =>
    if str_eqb k k' then (k', v) :: d' else (k', v') :: dict_set d' k v
  end.

(** [{..., **extra}] after the entries of [d] *)
Definition dict_update (d extra : dict) : dict :=
  fold_left (fun acc kv => dict_set acc (fst kv) (snd kv)) extra d.

(** The dictionary [df_for_pricing] of [regenerate_description]. *)
Definition regenerated_features (ci : CarIdentity) (extra_params : dict) : dict :=
  dict_update
    [ (u "brand", PStr (ci_brand ci));
      (u "model", PStr (ci_model ci));
      (u "body_type", PStr (ci_body_type ci));
      (u "color", PStr (ci_color ci));
      (u "year", py_or (opt_int (ci_year ci)) (dget extra_params (u "year")));
      (u "mileage", dget extra_params (u "mileage")) ]
    extra_params.

Definition regenerate_description (images_base64 : list str) (ci : CarIdentity)
           (vision_result extra_params : dict) : M str :=
  let classification_result :=
    [ (u "brand", PStr (ci_brand ci));
      (u "model", PStr (ci_model ci));
      (u "body_type", PStr (ci_body_type ci));
      (u "color", PStr (ci_color ci)) ] in
  let df_for_pricing := regenerated_features ci extra_params in
  _ <- tell (EvDescription images_base64 (PDict classification_result)
                           (PDict vision_result) df_for_pricing) ;;
  lift (run_description env images_base64 (PDict classification_result)
                        (PDict vision_result) df_for_pricing).

(** An uploaded file: its declared content type and its bytes. *)
Record upload := {
  content_type : option str;
  content : list N;
}.

(** What the handler answers: a body, or [HTTPException(400, detail)]. *)
Inductive http_answer :=
| Http200 (body : AnalysisResponse)
| Http400 (detail : str).

(** The test the loop of [analyze] applies before it reads a file in:
    [f.content_type and f.content_type.startswith("image/")]. *)
Definition is_image (f : upload) : bool :=
  match content_type f with
  | Some t => negb (is_empty t) && startswith (u "image/") t
  | None => false
  end.

(** [15 * 1024 * 1024] *)
Definition size_limit : Z := 15 * 1024 * 1024.

(** The files whose bytes reach [images_bytes]. *)
Definition accepted (f : upload) : bool :=
  is_image f && negb (size_limit <? Z.of_nat (length (content f)))%Z.

Definition analysis_failed (e : exn) : AnalysisResponse :=
  response_with (u "error")
    [ {| field := u "analysis"; confidence := u "low";
         reason := u "Ошибка обработки: " ++ exn_msg e |} ].

(** The handler of [POST /api/analyze]. *)
Definition analyze (files : list upload) : M http_answer :=
  match files with
  | [] => ret (Http400 (u "Need at least one image"))
  | _ :: _ =>
    let images_bytes := map content (filter accepted files) in
    match images_bytes with
    | [] => ret (Http400 (u "No valid image files"))
    | _ :: _ =>
      catch (result <- analyze_images lib env images_bytes ;;
             ret (Http200 result))
            (fun e => ret (Http200 (analysis_failed e)))
    end
  end.

End WithWorld.

End Callers.
Export Callers.

(* ================================================================== *)
(** ** Vocabulary of the further properties *)

Module MoreProperties.

(** The defect types and severities of the data contract. *)
Definition DEFECT_TYPES : list str :=
  map u ["scratch"; "dent"; "chip"; "corrosion"; "replaced"; "painted"].

Definition SEVERITIES : list str := map u ["weak"; "moderate"; "strong"].

(** The dictionaries among the entries of a list. *)
Definition dict_entries (raw : list pyval) : list dict :=
  flat_map (fun d => match d with PDict dd => [dd] | _ => [] end) raw.

(** The world of [Samples] without an API key. *)
Definition no_key_world : Env :=
  {| env_api_key := None;
     chat_completion := chat_completion Samples.tie_world;
     json_loads := json_loads Samples.tie_world;
     frame_of_irregular := frame_of_irregular Samples.tie_world;
     to_numeric_int := to_numeric_int Samples.tie_world;
     fit_model := fit_model Samples.tie_world;
     serialize_rows := serialize_rows Samples.tie_world;
     run_vision := run_vision Samples.tie_world;
     run_classification := run_classification Samples.tie_world;
     run_description := run_description Samples.tie_world |}.

(** A world whose perception agent raises. *)
Definition blind_world : Env :=
  {| env_api_key := env_api_key Samples.tie_world;
     chat_completion := chat_completion Samples.tie_world;
     json_loads := json_loads Samples.tie_world;
     frame_of_irregular := frame_of_irregular Samples.tie_world;
     to_numeric_int := to_numeric_int Samples.tie_world;
     fit_model := fit_model Samples.tie_world;
     serialize_rows := serialize_rows Samples.tie_world;
     run_vision := fun _ => Raise Samples.timed_out;
     run_classification := run_classification Samples.tie_world;
     run_description := run_description Samples.tie_world |}.

(** A defect list with one strong, one weak and one unrated entry. *)
Definition mixed_defects : pyval :=
  PList [PDict [(u "severity", PStr (u "Сильная"))];
         PDict [(u "severity", PStr (u "weak"))];
         PDict [(u "type", PStr (u "скол"))]].

(** A record whose stored damage flag is two spaces. *)
Definition blank_flag_identity : CarIdentity :=
  {| ci_brand := u "Toyota"; ci_model := u "Camry"; ci_generation := [];
     ci_year := Some 2015%Z; ci_body_type := u "sedan"; ci_color := u "red";
     ci_steering_wheel_position := u "left";
     ci_engine_capacity := Some (ratio 5 2);
     ci_transmission := u "automatic"; ci_drive_type := u "fwd";
     ci_mileage := None; ci_damage_flag := u "  " |}.

(** A visual condition with a strong and a weak defect. *)
Definition two_defects : VisualCondition :=
  {| overall_score := f0_9;
     defects :=
       [ {| di_type := u "dent"; di_severity := u "strong";
            di_location := u "front door"; di_body_part := u "front_door_left" |};
         {| di_type := u "scratch"; di_severity := u "weak";
            di_location := u "hood"; di_body_part := u "hood" |} ] |}.

(** The change of bracket depth one character makes in the scan of
    [_extract_json_array]. *)
Definition delta (c : N) : Z :=
  if char_in c (u "[{") then 1%Z
  else if char_in c (u "]}") then (-1)%Z else 0%Z.

(** The bracket depth after a text. *)
Definition net (s : str) : Z := fold_right (fun c n => (delta c + n)%Z) 0%Z s.

(** Every proper, non-empty prefix of [s] leaves the depth above zero. *)
Definition inside (s : str) : bool :=
  forallb (fun n => (0 <? net (firstn n s))%Z) (seq 1 (length s - 1)).

(** A bracketed passage: it opens with a square bracket and the depth
    returns to zero at its last character, not before. *)
Definition bracketed (s : str) : bool :=
  startswith (u "[") s && inside s && (net s =? 0)%Z.

(** What [recalculate_price] answers for [blank_flag_identity]. *)
Definition blank_flag_answer : PriceEstimation :=
  {| min_price := None; max_price := None; suggested_price := None;
     mae := None;
     missing_fields := [PStr (u "mileage"); PStr (u "damage_flag")];
     error_message := None;
     generated_rows := None |}.

(** The identity fields [regenerate_description] hands over. *)
Definition identity_fields (ci : CarIdentity) : dict :=
  [ (u "brand", PStr (ci_brand ci));
    (u "model", PStr (ci_model ci));
    (u "body_type", PStr (ci_body_type ci));
    (u "color", PStr (ci_color ci)) ].

(** Form values of a user: another colour and a mileage. *)
Definition user_edits : dict :=
  [ (u "color", PStr (u "blue")); (u "mileage", PInt 120000) ].

(** Uploads: a photo, and a text file. *)
Definition photo : upload :=
  {| content_type := Some (u "image/jpeg");
     content := [255; 216; 255; 224]%N |}.

Definition notes : upload :=
  {| content_type := Some (u "text/plain");
     content := [110; 111; 116; 101]%N |}.

End MoreProperties.
Export MoreProperties.

(* ================================================================== *)
(** * Properties *)

(** ** Strings and the monad *)

Lemma str_eqb_refl (s : str) : str_eqb s s = true.
Proof.
  induction s as [|c s IH]; simpl; [reflexivity|].
  now rewrite N.eqb_refl.
Qed.

Lemma str_eqb_eq (a b : str) : str_eqb a b = true <-> a = b.
Proof.
  split.
  - revert b; induction a as [|x a IH]; intros [|y b]; simpl; try discriminate;
      [reflexivity|].
    intros H. apply andb_true_iff in H as [Hx Hab].
    apply N.eqb_eq in Hx. f_equal; auto.
  - intros ->. apply str_eqb_refl.
Qed.

Lemma str_eqb_neq (a b : str) : str_eqb a b = false <-> a <> b.
Proof.
  rewrite <- str_eqb_eq. destruct (str_eqb a b); split; congruence.
Qed.

Lemma outcome_bind_ok {A B} (m : M A) (k : A -> M B) (b : B) :
  outcome (bind m k) = Ok b ->
  exists a, outcome m = Ok a /\ outcome (k a) = Ok b.
Proof.
  destruct m as [l [a|e]]; unfold bind, outcome; simpl.
  - destruct (k a) as [l' r] eqn:E. simpl. intros ->. exists a. now rewrite E.
  - discriminate.
Qed.

Lemma log_bind {A B} (m : M A) (k : A -> M B) :
  log_of (bind m k) =
  log_of m ++ match outcome m with
              | Ok a => log_of (k a)
              | Raise _ => []
              end.
Proof.
  destruct m as [l [a|e]]; unfold bind, log_of, outcome; simpl.
  - now destruct (k a).
  - now rewrite app_nil_r.
Qed.

Lemma bind_lift_ok {A B} (r : result A) (a : A) (k : A -> M B) :
  r = Ok a -> bind (lift r) k = k a.
Proof.
  intros ->. unfold bind, lift. now destruct (k a).
Qed.

Lemma bind_lift_raise {A B} (r : result A) (e : exn) (k : A -> M B) :
  r = Raise e -> bind (lift r) k = ([], Raise e).
Proof. now intros ->. Qed.

Lemma bind_tell {B} (ev : event) (k : unit -> M B) :
  bind (tell ev) k = (ev :: log_of (k tt), outcome (k tt)).
Proof. unfold bind, tell, log_of, outcome. now destruct (k tt). Qed.

Lemma bind_ret {A B} (a : A) (k : A -> M B) : bind (ret a) k = k a.
Proof. unfold bind, ret. now destruct (k a). Qed.

(** ** C10: no images *)

(** C10. With an empty image list [analyze_images] answers
    "needs_user_input" with exactly one low-confidence warning on the field
    "images", every other field at its default, and the log of external
    calls is empty: no agent is called. *)
Theorem C10_no_images (lib : Builtins) (env : Env) :
  log_of (analyze_images lib env []) = []
  /\ exists resp,
      outcome (analyze_images lib env []) = Ok resp
      /\ status resp = u "needs_user_input"
      /\ (exists w, confidence_warnings resp = [w]
                    /\ field w = u "images" /\ confidence w = u "low")
      /\ car_identity resp = default_CarIdentity
      /\ visual_condition resp = default_VisualCondition
      /\ defects (visual_condition resp) = []
      /\ technical_assumptions resp = default_TechnicalAssumptions
      /\ price_estimation resp = default_PriceEstimation
      /\ generated_description resp = []
      /\ vision_result resp = [].
Proof.
  split; [reflexivity|].
  eexists. split; [reflexivity|].
  repeat split. eexists. repeat split.
Qed.

(** ** C5: status precedence *)

Lemma status_values_distinct :
  u "error" <> u "needs_user_input" /\ u "error" <> u "ok"
  /\ u "needs_user_input" <> u "ok".
Proof. repeat split; vm_compute; discriminate. Qed.

Lemma decide_status_resolve (lib : Builtins) (v c : dict) :
  _decide_status lib (PDict v) (PDict c) = resolve_status lib v c.
Proof.
  unfold _decide_status, decide, resolve_status, carries_marker,
    summary_rejected, signals_failure, brand_and_model_empty.
  cbn [py_get rbind].
  destruct (truthy (dget v (u "_error"))) eqn:E1; cbn [rbind orb].
  { now rewrite E1. }
  destruct (truthy (dget v (u "_parse_error"))) eqn:E2; cbn [rbind orb];
    [reflexivity|].
  destruct (truthy (dget c (u "_error"))) eqn:E3; cbn [rbind orb].
  { now rewrite E3. }
  destruct (truthy (dget c (u "_parse_error"))) eqn:E4; cbn [rbind orb];
    [reflexivity|].
  destruct (existsb _ REJECTION_PHRASES); cbn [rbind orb]; [reflexivity|].
  destruct (str_eqb _ (u "failed")); cbn [rbind orb andb].
  - destruct (truthy (dget c (u "failure_reason"))); cbn [orb]; [reflexivity|].
    destruct (truthy (dget c (u "brand"))); cbn [negb rbind andb];
      [reflexivity|].
    now destruct (truthy (dget c (u "model"))).
  - destruct (truthy (dget c (u "brand"))); cbn [negb rbind andb];
      [reflexivity|].
    now destruct (truthy (dget c (u "model"))).
Qed.

(** C5. On the outputs of the two first-phase agents the resolver follows
    the rules in order, first match wins ([resolve_status]): "error" exactly
    when one output carries an error or parse-error marker, otherwise
    "needs_user_input" when the summary holds a rejection phrase, the
    classification signals a failure with a reason, or brand and model are
    both empty, otherwise "ok". In particular an [_error] in the perception
    output gives "error" whatever the classification holds. *)
Theorem C5_status_precedence (lib : Builtins) (v c : dict) :
  _decide_status lib (PDict v) (PDict c) = resolve_status lib v c
  /\ (_decide_status lib (PDict v) (PDict c) = u "error"
      <-> carries_marker v = true \/ carries_marker c = true)
  /\ (_decide_status lib (PDict v) (PDict c) = u "needs_user_input"
      <-> carries_marker v = false /\ carries_marker c = false
          /\ (summary_rejected lib v = true \/ signals_failure lib c = true
              \/ brand_and_model_empty c = true))
  /\ (truthy (dget v (u "_error")) = true ->
      _decide_status lib (PDict v) (PDict c) = u "error").
Proof.
  destruct status_values_distinct as (Hen & Heo & Hno).
  rewrite decide_status_resolve. unfold resolve_status.
  split; [reflexivity|]. split; [|split].
  - destruct (carries_marker v), (carries_marker c); cbn [orb];
      try (split; [intros _; auto | reflexivity]).
    split; [|intros [?|?]; discriminate].
    destruct (_ || _ || _); intros H; [now symmetry in H | now symmetry in H].
  - destruct (carries_marker v), (carries_marker c); cbn [orb];
      try (split; [intros H; now elim Hen | intros (? & ? & _); discriminate]).
    destruct (summary_rejected lib v), (signals_failure lib c),
      (brand_and_model_empty c); cbn [orb];
      try (split; [intros _; repeat split; auto | reflexivity]).
    split; [intros H; symmetry in H; now elim Hno
           | intros (_ & _ & [?|[?|?]]); discriminate].
  - intros H. unfold carries_marker. now rewrite H.
Qed.

(** The perception output carries [_error], the classification names a
    valid brand and model: the status is "error". *)
Lemma C5_witness :
  _decide_status Samples.sample_lib
    (PDict [(u "_error", PStr (u "timeout"))]) Samples.camry_classification
  = u "error".
Proof.
  apply (C5_status_precedence Samples.sample_lib
           [(u "_error", PStr (u "timeout"))]).
  reflexivity.
Defined.

(** ** C9: confidence warnings *)

Lemma check_confidence_dict (c : dict) (ws : list ConfidenceWarning) :
  check_confidence (PDict c) ws = Ok (ws ++ when (low_confidence c) warn_classification).
Proof.
  unfold check_confidence, low_confidence. cbn [py_get rbind].
  destruct (py_or _ _); try (now rewrite app_nil_r).
  destruct (_ || _); cbn [when]; [reflexivity | now rewrite app_nil_r].
Qed.

Lemma check_identity_dict (c : dict) (ws : list ConfidenceWarning) :
  check_identity (PDict c) ws = Ok (ws ++ when (identity_unknown c) warn_identity).
Proof.
  unfold check_identity, identity_unknown. cbn [py_get rbind].
  destruct (truthy (dget c (u "brand"))); cbn [negb orb rbind when];
    [|reflexivity].
  destruct (truthy (dget c (u "model"))); cbn [negb when];
    [now rewrite app_nil_r | reflexivity].
Qed.

Lemma check_visibility_dict (v : dict) (ws : list ConfidenceWarning) :
  check_visibility (PDict v) ws = Ok (ws ++ when (poor_visibility v) warn_visibility).
Proof.
  unfold check_visibility, poor_visibility. cbn [py_get rbind].
  destruct (below_0_6 _); cbn [when]; [reflexivity | now rewrite app_nil_r].
Qed.

Lemma check_price_dict (p : dict) (ws : list ConfidenceWarning) :
  check_price (PDict p) ws = Ok (ws ++ when (price_unresolved p) warn_price).
Proof.
  unfold check_price, price_unresolved. cbn [py_get rbind].
  destruct (is_none _); cbn [andb when rbind]; [|now rewrite app_nil_r].
  destruct (truthy (dget p (u "missing_fields"))); cbn [orb when rbind];
    [reflexivity|].
  destruct (truthy (dget p (u "_error"))); cbn [orb when rbind];
    [reflexivity|].
  destruct (truthy (dget p (u "_reason"))); cbn [when];
    [reflexivity | now rewrite app_nil_r].
Qed.

Lemma get_not_dict (v : pyval) (k : str) :
  is_dict v = false -> py_get v k = Raise (no_attribute v "get").
Proof. destruct v; simpl; congruence. Qed.

Lemma check_confidence_fault (c : pyval) ws :
  is_dict c = false -> exists e, check_confidence c ws = Raise e.
Proof.
  intros H. unfold check_confidence. rewrite (get_not_dict _ _ H). now eexists.
Qed.

Lemma check_visibility_fault (v : pyval) ws :
  is_dict v = false -> exists e, check_visibility v ws = Raise e.
Proof.
  intros H. unfold check_visibility. rewrite (get_not_dict _ _ H). now eexists.
Qed.

Lemma check_price_fault (p : pyval) ws :
  is_dict p = false -> exists e, check_price p ws = Raise e.
Proof.
  intros H. unfold check_price. rewrite (get_not_dict _ _ H). now eexists.
Qed.

Lemma when_incl b w (l : list ConfidenceWarning) : In w l -> incl (when b w) l.
Proof. destruct b; intros H x [<-|[]] || intros H x []; assumption. Qed.

Lemma four_warnings :
  In warn_classification
     [warn_classification; warn_identity; warn_visibility; warn_price]
  /\ In warn_identity
        [warn_classification; warn_identity; warn_visibility; warn_price]
  /\ In warn_visibility
        [warn_classification; warn_identity; warn_visibility; warn_price]
  /\ In warn_price
        [warn_classification; warn_identity; warn_visibility; warn_price].
Proof.
  repeat split.
  - left; reflexivity.
  - right; left; reflexivity.
  - right; right; left; reflexivity.
  - right; right; right; left; reflexivity.
Qed.

Ltac among_the_four :=
  repeat apply incl_app; apply when_incl;
  match goal with
  | |- In warn_classification _ => exact (proj1 four_warnings)
  | |- In warn_identity _ => exact (proj1 (proj2 four_warnings))
  | |- In warn_visibility _ => exact (proj1 (proj2 (proj2 four_warnings)))
  | |- In warn_price _ => exact (proj2 (proj2 (proj2 four_warnings)))
  end.

(** C9 (as the code has it). [_confidence_warnings] returns a list for every
    combination of inputs, made of the four warnings only. On three
    dictionaries it holds each warning exactly when its own condition
    holds, in the fixed order. All four checks share one [try]: a fault in
    one check omits its warning and those of the checks after it, and keeps
    the warnings already collected. *)
Theorem C9_one_try_for_all_warnings (c v p : pyval) :
  incl (_confidence_warnings c v p)
       [warn_classification; warn_identity; warn_visibility; warn_price]
  /\ (forall cd vd pd, c = PDict cd -> v = PDict vd -> p = PDict pd ->
      _confidence_warnings c v p =
      when (low_confidence cd) warn_classification
      ++ when (identity_unknown cd) warn_identity
      ++ when (poor_visibility vd) warn_visibility
      ++ when (price_unresolved pd) warn_price)
  /\ (forall cd vd, c = PDict cd -> v = PDict vd -> is_dict p = false ->
      _confidence_warnings c v p =
      when (low_confidence cd) warn_classification
      ++ when (identity_unknown cd) warn_identity
      ++ when (poor_visibility vd) warn_visibility)
  /\ (forall cd, c = PDict cd -> is_dict v = false ->
      _confidence_warnings c v p =
      when (low_confidence cd) warn_classification
      ++ when (identity_unknown cd) warn_identity)
  /\ (is_dict c = false -> _confidence_warnings c v p = []).
Proof.
  assert (Hfull : forall cd vd pd,
             _confidence_warnings (PDict cd) (PDict vd) (PDict pd) =
             when (low_confidence cd) warn_classification
             ++ when (identity_unknown cd) warn_identity
             ++ when (poor_visibility vd) warn_visibility
             ++ when (price_unresolved pd) warn_price).
  { intros. unfold _confidence_warnings. cbn [try_block].
    rewrite check_confidence_dict. cbn [app]. rewrite check_identity_dict.
    rewrite check_visibility_dict, check_price_dict.
    now rewrite <- !app_assoc. }
  assert (H3 : forall cd vd, is_dict p = false ->
             _confidence_warnings (PDict cd) (PDict vd) p =
             when (low_confidence cd) warn_classification
             ++ when (identity_unknown cd) warn_identity
             ++ when (poor_visibility vd) warn_visibility).
  { intros cd vd Hp. unfold _confidence_warnings. cbn [try_block].
    rewrite check_confidence_dict. cbn [app]. rewrite check_identity_dict.
    rewrite check_visibility_dict.
    match goal with
    | |- context [check_price p ?w] =>
      destruct (check_price_fault p w Hp) as [e ->]
    end.
    now rewrite <- !app_assoc. }
  assert (H2 : forall cd, is_dict v = false ->
             _confidence_warnings (PDict cd) v p =
             when (low_confidence cd) warn_classification
             ++ when (identity_unknown cd) warn_identity).
  { intros cd Hv. unfold _confidence_warnings. cbn [try_block].
    rewrite check_confidence_dict. cbn [app]. rewrite check_identity_dict.
    match goal with
    | |- context [check_visibility v ?w] =>
      now destruct (check_visibility_fault v w Hv) as [e ->]
    end. }
  assert (H1 : is_dict c = false -> _confidence_warnings c v p = []).
  { intros Hc. unfold _confidence_warnings. cbn [try_block].
    now destruct (check_confidence_fault c [] Hc) as [e ->]. }
  split; [|split; [|split; [|split]]].
  - destruct (is_dict c) eqn:Hc; [|rewrite H1 by reflexivity; intros x []].
    destruct c as [| | | | | |cd]; try discriminate.
    destruct (is_dict v) eqn:Hv.
    + destruct v as [| | | | | |vd]; try discriminate.
      destruct (is_dict p) eqn:Hp.
      * destruct p as [| | | | | |pd]; try discriminate. rewrite Hfull.
        among_the_four.
      * rewrite H3 by (assumption || reflexivity).
        among_the_four.
    + rewrite H2 by (assumption || reflexivity).
      among_the_four.
  - intros cd vd pd -> -> ->. apply Hfull.
  - intros cd vd -> -> Hp. now apply H3.
  - intros cd -> Hv. now apply H2.
  - exact H1.
Qed.

(** The perception output is not a dictionary: the check of the inspection
    score faults, and the list stops after the two classification checks. *)
Lemma C9_witness :
  _confidence_warnings Samples.camry_classification PNone unresolved_estimate
  = when (low_confidence [ (u "brand", PStr (u "Toyota"));
                           (u "model", PStr (u "Camry"));
                           (u "body_type", PStr (u "sedan"));
                           (u "color", PStr (u "red"));
                           (u "steering_wheel_position", PStr (u "left"));
                           (u "transmission", PStr (u "automatic"));
                           (u "status", PStr (u "ok")) ]) warn_classification
    ++ when (identity_unknown [ (u "brand", PStr (u "Toyota"));
                                (u "model", PStr (u "Camry"));
                                (u "body_type", PStr (u "sedan"));
                                (u "color", PStr (u "red"));
                                (u "steering_wheel_position", PStr (u "left"));
                                (u "transmission", PStr (u "automatic"));
                                (u "status", PStr (u "ok")) ]) warn_identity.
Proof.
  destruct (C9_one_try_for_all_warnings
              Samples.camry_classification PNone unresolved_estimate)
    as (_ & _ & _ & H & _).
  exact (H _ eq_refl eq_refl).
Defined.

(** C9 as stated fails: with a perception output that is not a dictionary
    the price warning, which its own check contributes, is missing from the
    returned list. *)
Lemma C9_counterexample :
  ~ isolates_faults Samples.camry_classification PNone unresolved_estimate.
Proof.
  intros H.
  specialize (H (check_price unresolved_estimate) warn_price).
  assert (Hin : In warn_price
                   (_confidence_warnings Samples.camry_classification PNone
                                         unresolved_estimate)).
  { apply H; [simpl; auto | reflexivity]. }
  vm_compute in Hin. exact Hin.
Qed.

(** ** What [run_pricing] returns *)

Ltac run_step :=
  first [ rewrite bind_tell
        | rewrite bind_ret
        | erewrite bind_lift_ok by reflexivity
        | erewrite bind_lift_raise by reflexivity ];
  cbv beta; cbn [outcome log_of fst snd].

Lemma outcome_ret {A} (a : A) : outcome (ret a) = Ok a.
Proof. reflexivity. Qed.

Lemma train_and_estimate_returned (env : Env) (row : dict) (rows : list pyval)
      (d : dict) :
  outcome (train_and_estimate env row rows) = Ok d -> returned env d.
Proof.
  unfold train_and_estimate.
  destruct (all_dicts rows) as [records|].
  2:{ destruct (frame_of_irregular env rows); cbn [outcome throw ret snd];
      [discriminate|]. intros [= <-]. constructor. }
  destruct (negb _ || _).
  { cbn [outcome ret snd]. intros [= <-]. constructor. }
  cbv zeta.
  destruct (to_numeric_int env _) as [prices|e]; [|run_step; discriminate].
  run_step.
  destruct (length _ <? 10)%nat.
  { cbn [outcome ret snd]. intros [= <-]. constructor. }
  run_step.
  match goal with
  | |- context [fit_model env ?X ?y ?cats] =>
    destruct (fit_model env X y cats) as [cb|e] eqn:Efit
  end; [|run_step; discriminate].
  run_step. run_step.
  match goal with
  | |- context [tm_predict cb ?car] =>
    destruct (tm_predict cb car) as [[|p rest]|e] eqn:Epred
  end; [| |run_step; discriminate].
  { run_step. cbn [outcome ret snd]. intros [= <-].
    eapply ret_silent; eassumption. }
  run_step.
  destruct (py_round p) as [sp|e] eqn:Esp; [|run_step; discriminate].
  run_step.
  destruct (float_of_int sp) as [fsp|e] eqn:Efsp; [|run_step; discriminate].
  run_step.
  destruct (py_round (fsub fsp (tm_mae cb))) as [lo|e] eqn:Elo;
    [|run_step; discriminate].
  run_step.
  destruct (py_round (fadd fsp (tm_mae cb))) as [hi|e] eqn:Ehi;
    [|run_step; discriminate].
  run_step.
  destruct (serialize_rows env _) as [gen|e]; [|run_step; discriminate].
  run_step. cbn [outcome ret snd]. intros [= <-].
  eapply ret_estimate; eassumption.
Qed.

(** The loop never raises: it ends with rows and a last error, or with a
    returned failure. *)
Lemma generation_loop_exit (env : Env) (brand model : str)
      (attempts : list nat) (rows : list pyval) (last_error : str) :
  exists ex,
    outcome (generation_loop env brand model attempts rows last_error) = Ok ex
    /\ ((exists rows' le, ex = Finished rows' le)
        \/ (exists r, ex = Returned (with_reason r))
        \/ (exists r, ex = Returned (with_error r))).
Proof.
  revert rows last_error.
  induction attempts as [|attempt rest IH]; intros rows last_error.
  - eexists. split; [reflexivity|]. left. eauto.
  - cbn [generation_loop]. cbv zeta. rewrite bind_tell. cbn [outcome snd].
    destruct (rbind _ _) as [rows'|e].
    + destruct (truthy (PList rows') && _).
      * eexists. split; [reflexivity|]. left. eauto.
      * apply IH.
    + destruct (is_ValueError e), (Nat.eqb attempt 1);
        try apply IH; (eexists; split; [reflexivity|]; eauto).
Qed.

Lemma missing_truthy (missing : list str) :
  truthy (PList (map PStr missing)) = true -> missing <> [].
Proof. destruct missing; [discriminate | discriminate]. Qed.

Lemma run_pricing_returned (lib : Builtins) (env : Env) (a : pricing_args)
      (d : dict) :
  outcome (run_pricing lib env a) = Ok d -> returned env d.
Proof.
  unfold run_pricing.
  destruct (build_row lib a) as [row|e]; [|run_step; discriminate].
  run_step.
  destruct (_check_missing lib row) as [missing|e]; [|run_step; discriminate].
  run_step.
  destruct (truthy (PList (map PStr missing))) eqn:Em.
  { cbn [outcome ret snd]. intros [= <-]. constructor.
    now apply missing_truthy. }
  destruct (get_client env) as [[]|e]; [|run_step; discriminate].
  run_step.
  intros H. apply outcome_bind_ok in H as (ex & Hex & H).
  destruct (generation_loop_exit env (text_of (a_brand a)) (text_of (a_model a))
              (seq 0 2) [] (u "empty data")) as (ex' & Hex' & Hshape).
  rewrite Hex in Hex'. injection Hex' as <-.
  destruct Hshape as [(rows' & le & ->)|[(r & ->)|(r & ->)]].
  - destruct (negb _ || _).
    + cbn [outcome ret snd] in H. injection H as <-. constructor.
    + now apply train_and_estimate_returned in H.
  - cbn [outcome ret snd] in H. injection H as <-. constructor.
  - cbn [outcome ret snd] in H. injection H as <-. constructor.
Qed.

(** ** Signs of floats *)

Section FloatSigns.
Local Open Scope Z_scope.

Lemma iter_pos_invariant {A} (P : A -> Prop) (f : A -> A) :
  (forall x, P x -> P (f x)) -> forall p x, P x -> P (iter_pos f p x).
Proof.
  intros Hf. induction p as [p IH|p IH|]; intros x Hx; cbn [iter_pos]; auto.
Qed.

Lemma shr_1_nonneg mrs : 0 <= shr_m mrs -> 0 <= shr_m (shr_1 mrs).
Proof.
  destruct mrs as [m r s]. cbn [shr_m]. intros H.
  destruct m as [|[p|p|]|p]; cbn [shr_1 shr_m]; lia.
Qed.

Lemma shr_fexp_nonneg p e m ex l :
  0 <= m -> 0 <= shr_m (fst (shr_fexp p e m ex l)).
Proof.
  intros H. unfold shr_fexp, shr.
  assert (H0 : 0 <= shr_m (shr_record_of_loc m l)).
  { destruct l as [|[]]; exact H. }
  destruct (_ - ex); cbn [fst]; auto.
  apply iter_pos_invariant; auto using shr_1_nonneg.
Qed.

Lemma round_nearest_even_nonneg mx lx :
  0 <= mx -> 0 <= round_nearest_even mx lx.
Proof.
  intros H. unfold round_nearest_even.
  destruct lx as [|[]]; try destruct (Z.even mx); lia.
Qed.

Lemma binary_round_aux_signed p e s mx ex lx :
  0 <= mx -> signed s (binary_round_aux p e s mx ex lx).
Proof.
  intros H. unfold binary_round_aux.
  pose proof (shr_fexp_nonneg p e mx ex lx H) as H1.
  destruct (shr_fexp p e mx ex lx) as [mrs' e']. cbn [fst] in H1.
  pose proof (shr_fexp_nonneg p e _ e' loc_Exact
                (round_nearest_even_nonneg _ (loc_of_shr_record mrs') H1)) as H2.
  destruct (shr_fexp p e _ e' loc_Exact) as [mrs'' e'']. cbn [fst] in H2.
  destruct (shr_m mrs'') as [|m|m]; [now split| |lia].
  destruct (e'' <=? e - p); now split.
Qed.

Lemma binary_round_signed p e s m ex : signed s (binary_round p e s m ex).
Proof.
  unfold binary_round. destruct (shl_align _ _ _) as [mz ez].
  apply binary_round_aux_signed. lia.
Qed.

Lemma of_Z_not_negative z : 0 <= z -> sign_bit (of_Z z) = false.
Proof.
  intros H. unfold of_Z, binary_normalize. destruct z as [|m|m]; [reflexivity| |lia].
  apply binary_round_signed.
Qed.

Lemma fadd_not_negative x y :
  sign_bit x = false -> sign_bit y = false -> sign_bit (fadd x y) = false.
Proof.
  unfold fadd, SFadd.
  destruct x as [sx|sx| |sx mx ex], y as [sy|sy| |sy my ey];
    cbn [sign_bit]; intros Hx Hy; subst; try reflexivity.
  cbn [cond_Zopp]. unfold binary_normalize.
  destruct (Z.pos _ + Z.pos _) as [|m|m] eqn:E; [reflexivity| |lia].
  apply binary_round_signed.
Qed.

Lemma round_half_even_nonneg m e : 0 <= round_half_even m e.
Proof.
  unfold round_half_even. destruct e as [|p|p]; [lia| |].
  - apply Z.mul_nonneg_nonneg; [lia|]. apply Z.pow_nonneg. lia.
  - assert (Hd : 0 < 2 ^ Z.pos p) by (apply Z.pow_pos_nonneg; lia).
    assert (Hq : 0 <= Z.pos m / 2 ^ Z.pos p) by (apply Z.div_pos; lia).
    cbv zeta. destruct (_ ?= _); try destruct (Z.even _); lia.
Qed.

Lemma py_round_not_negative x z :
  sign_bit x = false -> py_round x = Ok z -> 0 <= z.
Proof.
  destruct x as [s|s| |s m e]; cbn [sign_bit py_round]; try discriminate.
  - intros _ [= <-]. lia.
  - intros -> [= <-]. apply round_half_even_nonneg.
Qed.

Lemma py_round0_sign x : sign_bit (py_round0 x) = false -> sign_bit x = false.
Proof.
  destruct x as [s|s| |s m e]; try (intros H; exact H).
  destruct e as [|p|p]; try (intros H; exact H).
  cbn [py_round0 sign_bit].
  destruct (round_half_even m (Z.neg p)) as [|r|r]; try (intros H; exact H).
  destruct s; [|reflexivity].
  unfold binary_normalize. intros H.
  destruct (binary_round_signed prec emax true r 0) as [_ Hs]. congruence.
Qed.

End FloatSigns.

(** ** Fields of the returned dictionaries *)

Lemma no_estimate_nulls missing extra : null_prices (no_estimate missing extra).
Proof. repeat split. Qed.

Lemma estimate_fields mn mx sp m rows :
  dget (estimate mn mx sp m rows) k_min_price = PInt mn
  /\ dget (estimate mn mx sp m rows) k_max_price = PInt mx
  /\ dget (estimate mn mx sp m rows) k_suggested_price = PInt sp
  /\ dget (estimate mn mx sp m rows) k_mae = PFloat (py_round0 m).
Proof. repeat split. Qed.

Lemma returned_price (env : Env) (d : dict) (sp : Z) :
  returned env d ->
  dget d k_suggested_price = PInt sp ->
  exists X y cats cb car p rest fsp lo hi rows,
    fit_model env X y cats = Ok cb
    /\ tm_predict cb car = Ok (p :: rest)
    /\ py_round p = Ok sp
    /\ float_of_int sp = Ok fsp
    /\ py_round (fsub fsp (tm_mae cb)) = Ok lo
    /\ py_round (fadd fsp (tm_mae cb)) = Ok hi
    /\ d = estimate (Z.max 0 lo) hi sp (tm_mae cb) rows.
Proof.
  intros Hd Hsp.
  destruct Hd as [missing _|r|msg|X y cats cb car _ _
                  |X y cats cb car p rest sp' fsp lo hi rows H1 H2 H3 H4 H5 H6];
    try (exfalso;
         match type of Hsp with
         | dget ?d _ = _ =>
           assert (Hn : dget d k_suggested_price = PNone) by reflexivity
         end; congruence).
  assert (sp' = sp) as ->.
  { destruct (estimate_fields (Z.max 0 lo) hi sp' (tm_mae cb) rows)
      as (_ & _ & E & _). congruence. }
  now exists X, y, cats, cb, car, p, rest, fsp, lo, hi, rows.
Qed.

Lemma returned_nulls_or_price (env : Env) (d : dict) :
  returned env d ->
  null_prices d
  \/ exists X y cats cb car p rest sp fsp lo hi rows,
      fit_model env X y cats = Ok cb
      /\ tm_predict cb car = Ok (p :: rest)
      /\ py_round p = Ok sp
      /\ float_of_int sp = Ok fsp
      /\ py_round (fsub fsp (tm_mae cb)) = Ok lo
      /\ py_round (fadd fsp (tm_mae cb)) = Ok hi
      /\ d = estimate (Z.max 0 lo) hi sp (tm_mae cb) rows.
Proof.
  intros [missing _|r|msg|X y cats cb car _ _
          |X y cats cb car p rest sp fsp lo hi rows H1 H2 H3 H4 H5 H6];
    try (left; apply no_estimate_nulls).
  right. now exists X, y, cats, cb, car, p, rest, sp, fsp, lo, hi, rows.
Qed.

(** Every returned estimate has exactly one of a price and a failure
    reason, except the one returned when the regressor gives no
    prediction. *)
Lemma exclusive_unless_silent (env : Env) (d : dict) :
  returned env d -> exclusive d = true \/ d = no_estimate [] [].
Proof.
  intros [missing Hm|r|msg|X y cats cb car _ _
          |X y cats cb car p rest sp fsp lo hi rows H1 H2 H3 H4 H5 H6];
    try (left; reflexivity); [|now right].
  left. destruct missing; [congruence | reflexivity].
Qed.

Lemma tie_run :
  outcome (run_pricing Samples.sample_lib Samples.tie_world
                       (Samples.camry (PList [])))
  = Ok Samples.tie_estimate.
Proof. vm_compute. reflexivity. Qed.

(** ** C1: a price or a reason, never both, never neither *)

(** C1. Whenever [run_pricing] returns, with a regressor that answers with
    a prediction for the row it is given, the estimate has exactly one of a
    non-null suggested price and a failure reason (a non-empty
    [missing_fields], or a non-null [_error] or [_reason]): never both,
    never neither. *)
Theorem C1_price_xor_reason (lib : Builtins) (env : Env) (a : pricing_args)
        (d : dict) :
  predicts_each_row env ->
  outcome (run_pricing lib env a) = Ok d ->
  exclusive d = true
  /\ (has_price d = true -> has_missing d = false /\ has_error d = false)
  /\ (has_price d = false -> has_missing d = true \/ has_error d = true).
Proof.
  intros Hp Hrun. apply run_pricing_returned in Hrun.
  assert (He : exclusive d = true).
  { destruct Hrun as [missing Hm|r|msg|X y cats cb car Hf Hs
                      |X y cats cb car p rest sp fsp lo hi rows _ _ _ _ _ _];
      try reflexivity.
    - destruct missing; [congruence | reflexivity].
    - elim (Hp X y cats cb car Hf Hs). }
  split; [exact He|]. unfold exclusive in He.
  destruct (has_price d), (has_missing d), (has_error d);
    try discriminate He; (split; [auto | intros; auto]); try discriminate.
Qed.

Lemma C1_witness :
  exclusive Samples.tie_estimate = true
  /\ (has_price Samples.tie_estimate = true ->
      has_missing Samples.tie_estimate = false
      /\ has_error Samples.tie_estimate = false)
  /\ (has_price Samples.tie_estimate = false ->
      has_missing Samples.tie_estimate = true
      \/ has_error Samples.tie_estimate = true).
Proof.
  apply (C1_price_xor_reason Samples.sample_lib Samples.tie_world
           (Samples.camry (PList [])) Samples.tie_estimate).
  - intros X y cats cb car H. vm_compute in H. injection H as <-.
    vm_compute. discriminate.
  - vm_compute. reflexivity.
Defined.

(** ** C2: the price range *)

(** C2 (as the code has it). In a successful estimate the three prices are
    integers and the range is taken around the suggested price with the
    unrounded held-out MAE [m] of the fitted model:
    [min_price = max(0, round(suggested_price - m))] and
    [max_price = round(suggested_price + m)], rounding to nearest with ties
    to even; the [mae] field reports [round(m, 0)]. *)
Theorem C2_range_from_unrounded_mae (lib : Builtins) (env : Env)
        (a : pricing_args) (d : dict) (sp : Z) :
  outcome (run_pricing lib env a) = Ok d ->
  dget d k_suggested_price = PInt sp ->
  exists X y cats cb fsp lo hi,
    fit_model env X y cats = Ok cb
    /\ dget d k_mae = PFloat (py_round0 (tm_mae cb))
    /\ float_of_int sp = Ok fsp
    /\ py_round (fsub fsp (tm_mae cb)) = Ok lo
    /\ py_round (fadd fsp (tm_mae cb)) = Ok hi
    /\ dget d k_min_price = PInt (Z.max 0 lo)
    /\ dget d k_max_price = PInt hi.
Proof.
  intros Hrun Hsp. apply run_pricing_returned in Hrun.
  destruct (returned_price env d sp Hrun Hsp)
    as (X & y & cats & cb & car & p & rest & fsp & lo & hi & rows
        & H1 & H2 & H3 & H4 & H5 & H6 & ->).
  exists X, y, cats, cb, fsp, lo, hi.
  destruct (estimate_fields (Z.max 0 lo) hi sp (tm_mae cb) rows)
    as (Emin & Emax & _ & Emae).
  repeat split; assumption.
Qed.

Lemma C2_witness :
  exists X y cats cb fsp lo hi,
    fit_model Samples.tie_world X y cats = Ok cb
    /\ dget Samples.tie_estimate k_mae = PFloat (py_round0 (tm_mae cb))
    /\ float_of_int 900001 = Ok fsp
    /\ py_round (fsub fsp (tm_mae cb)) = Ok lo
    /\ py_round (fadd fsp (tm_mae cb)) = Ok hi
    /\ dget Samples.tie_estimate k_min_price = PInt (Z.max 0 lo)
    /\ dget Samples.tie_estimate k_max_price = PInt hi.
Proof.
  apply (C2_range_from_unrounded_mae Samples.sample_lib Samples.tie_world
           (Samples.camry (PList [])) Samples.tie_estimate 900001).
  - vm_compute. reflexivity.
  - reflexivity.
Defined.

(** C2 as stated fails: the prediction 900001 with a held-out MAE of
    25000.5 gives [min_price = 875000], [max_price = 925002] and a reported
    [mae] of 25000.0, hence neither [900001 - 25000] nor [900001 + 25000]. *)
Lemma C2_counterexample :
  outcome (run_pricing Samples.sample_lib Samples.tie_world
                       (Samples.camry (PList [])))
  = Ok Samples.tie_estimate
  /\ ~ range_with_reported_mae Samples.tie_estimate.
Proof.
  split; [exact tie_run|].
  intros H.
  destruct (H 900001%Z (py_round0 (ratio 50001 2)) 25000%Z
              eq_refl eq_refl eq_refl) as [Hmin _].
  vm_compute in Hmin. discriminate Hmin.
Qed.

(** ** C3: no negative lower bound *)

(** C3 (as the code has it). In every returned estimate a non-null
    [min_price] is at least zero: the lower bound is clamped. The suggested
    price and the upper bound are not clamped; the upper bound is at least
    zero whenever the suggested price is and the reported MAE is not
    negative. *)
Theorem C3_min_price_clamped (lib : Builtins) (env : Env)
        (a : pricing_args) (d : dict) :
  outcome (run_pricing lib env a) = Ok d ->
  (forall z, dget d k_min_price = PInt z -> (0 <= z)%Z)
  /\ (forall sp m hi,
        dget d k_suggested_price = PInt sp ->
        dget d k_mae = PFloat m ->
        dget d k_max_price = PInt hi ->
        (0 <= sp)%Z -> sign_bit m = false -> (0 <= hi)%Z).
Proof.
  intros Hrun. apply run_pricing_returned in Hrun.
  destruct (returned_nulls_or_price env d Hrun)
    as [(Hmin & Hmax & Hsp & Hmae)
       |(X & y & cats & cb & car & p & rest & sp & fsp & lo & hi & rows
         & H1 & H2 & H3 & H4 & H5 & H6 & ->)].
  - split; [intros z Hz; congruence | intros sp m hi Hs; congruence].
  - destruct (estimate_fields (Z.max 0 lo) hi sp (tm_mae cb) rows)
      as (Emin & Emax & Esp & Emae).
    split.
    + intros z Hz. rewrite Emin in Hz. injection Hz as <-. lia.
    + intros sp' m hi' Hs Hm Hh Hpos Hsign.
      rewrite Esp in Hs. rewrite Emae in Hm. rewrite Emax in Hh.
      injection Hs as <-. injection Hm as <-. injection Hh as <-.
      apply py_round0_sign in Hsign.
      unfold float_of_int in H4.
      destruct (is_inf (of_Z sp)); [discriminate|]. injection H4 as <-.
      eapply py_round_not_negative; [|exact H6].
      apply fadd_not_negative; [now apply of_Z_not_negative | exact Hsign].
Qed.

Lemma C3_witness :
  (forall z, dget Samples.tie_estimate k_min_price = PInt z -> (0 <= z)%Z)
  /\ (forall sp m hi,
        dget Samples.tie_estimate k_suggested_price = PInt sp ->
        dget Samples.tie_estimate k_mae = PFloat m ->
        dget Samples.tie_estimate k_max_price = PInt hi ->
        (0 <= sp)%Z -> sign_bit m = false -> (0 <= hi)%Z).
Proof.
  apply (C3_min_price_clamped Samples.sample_lib Samples.tie_world
           (Samples.camry (PList [])) Samples.tie_estimate).
  vm_compute. reflexivity.
Defined.

(** C3 as stated fails: on a corpus of negative prices for which the
    regressor predicts -100000, the suggested price and the upper bound
    are -100000 while the lower bound is clamped to 0. *)
Lemma C3_counterexample :
  outcome (run_pricing Samples.sample_lib Samples.negative_world
                       (Samples.camry (PList [])))
  = Ok Samples.negative_estimate
  /\ ~ no_negative_price Samples.negative_estimate.
Proof.
  split; [vm_compute; reflexivity|].
  intros H.
  assert (Hneg : (0 <= -100000)%Z).
  { apply (H k_suggested_price); [right; right; left; reflexivity | reflexivity]. }
  lia.
Qed.

(** ** C7: two generation attempts *)

Lemma enough_rows (l : list pyval) :
  truthy (PList l) && (10 <=? length l)%nat = negb (length l <? 10)%nat.
Proof.
  destruct l; [reflexivity|]. cbn [truthy andb].
  now rewrite Nat.ltb_antisym, negb_involutive.
Qed.

Lemma too_few_rows (l : list pyval) :
  negb (truthy (PList l)) || (length l <? 10)%nat = (length l <? 10)%nat.
Proof. now destruct l. Qed.

Lemma generation_calls_app (l1 l2 : list event) :
  generation_calls (l1 ++ l2) = generation_calls l1 ++ generation_calls l2.
Proof. apply flat_map_app. Qed.

(** The second attempt, after a first one that left [rows] and
    [last_error]. *)
Lemma second_attempt (env : Env) (a : pricing_args) (rows : list pyval)
      (last_error : str) :
  generation_loop env (text_of (a_brand a)) (text_of (a_model a)) [1%nat]
                  rows last_error =
  ([EvChat (request (text_of (a_brand a)) (text_of (a_model a)) 1)],
   Ok match attempt_result env a 1 with
      | Ok rows1 =>
        if (length rows1 <? 10)%nat
        then Finished rows1 (if negb (truthy (PList rows1)) then u "empty data"
                             else u "too few rows")
        else Finished rows1 last_error
      | Raise e =>
        if is_ValueError e
        then Returned (with_reason (u "failed to parse synthetic data"))
        else Returned (with_error (exn_msg e))
      end).
Proof.
  cbn [generation_loop]. cbv zeta. rewrite bind_tell.
  unfold attempt_result.
  destruct (rbind _ _) as [rows1|e].
  - rewrite enough_rows. now destruct (length rows1 <? 10)%nat.
  - now destruct (is_ValueError e).
Qed.

Lemma first_attempt (env : Env) (a : pricing_args) :
  generation_loop env (text_of (a_brand a)) (text_of (a_model a)) (seq 0 2)
                  [] (u "empty data") =
  match attempt_result env a 0 with
  | Ok rows0 =>
    if (length rows0 <? 10)%nat
    then bind (tell (EvChat (request (text_of (a_brand a))
                                     (text_of (a_model a)) 0)))
              (fun _ => generation_loop env (text_of (a_brand a))
                          (text_of (a_model a)) [1%nat] rows0
                          (if negb (truthy (PList rows0)) then u "empty data"
                           else u "too few rows"))
    else ([EvChat (request (text_of (a_brand a)) (text_of (a_model a)) 0)],
          Ok (Finished rows0 (u "empty data")))
  | Raise e =>
    bind (tell (EvChat (request (text_of (a_brand a)) (text_of (a_model a)) 0)))
         (fun _ => generation_loop env (text_of (a_brand a))
                     (text_of (a_model a)) [1%nat] []
                     (if is_ValueError e
                      then u "failed to parse synthetic data"
                      else exn_msg e))
  end.
Proof.
  cbn [seq generation_loop]. cbv zeta. unfold attempt_result.
  destruct (rbind _ _) as [rows0|e].
  - rewrite enough_rows. destruct (length rows0 <? 10)%nat; cbn [negb];
      [reflexivity|]. now rewrite bind_tell.
  - now destruct (is_ValueError e).
Qed.

Lemma train_and_estimate_no_calls (env : Env) (row : dict) (rows : list pyval) :
  generation_calls (log_of (train_and_estimate env row rows)) = [].
Proof.
  unfold train_and_estimate.
  destruct (all_dicts rows) as [records|];
    [|now destruct (frame_of_irregular env rows)].
  destruct (negb _ || _); [reflexivity|].
  cbv zeta.
  destruct (to_numeric_int env _) as [prices|e]; [|now run_step].
  run_step.
  destruct (length _ <? 10)%nat; [reflexivity|].
  run_step. cbn [generation_calls flat_map app].
  match goal with
  | |- context [fit_model env ?X ?y ?cats] =>
    destruct (fit_model env X y cats) as [cb|e]
  end; [|now run_step].
  run_step. run_step. cbn [generation_calls flat_map app].
  match goal with
  | |- context [tm_predict cb ?car] =>
    destruct (tm_predict cb car) as [[|p rest]|e]
  end; [now run_step| |now run_step].
  run_step.
  destruct (py_round p) as [sp|e]; [|now run_step].
  run_step.
  destruct (float_of_int sp) as [fsp|e]; [|now run_step].
  run_step.
  destruct (py_round (fsub fsp (tm_mae cb))) as [lo|e]; [|now run_step].
  run_step.
  destruct (py_round (fadd fsp (tm_mae cb))) as [hi|e]; [|now run_step].
  run_step.
  destruct (serialize_rows env _) as [gen|e]; [|now run_step].
  now run_step.
Qed.

Lemma generation_failure_reason (r : str) : generation_failure (with_reason r).
Proof.
  split; [apply no_estimate_nulls|]. exists r. left. reflexivity.
Qed.

Lemma generation_failure_error (r : str) : generation_failure (with_error r).
Proof.
  split; [apply no_estimate_nulls|]. exists r. right. reflexivity.
Qed.

Lemma outcome_bind_pair {A B} (l : list event) (a : A) (k : A -> M B) :
  outcome (bind (l, Ok a) k) = outcome (k a).
Proof. unfold bind, outcome. now destruct (k a). Qed.

(** C7 (as the code has it). A pricing request issues at most two
    generation requests. When it reaches the generator, a first attempt whose
    parsed array has at least ten elements, whatever they are, is the only
    one; a first attempt that fails (the call or the parsing raises, or the
    array has fewer than ten elements) is followed by exactly one more
    request, at temperature 0.9 instead of 0.7; and when the second
    attempt fails too, [run_pricing] returns (it does not raise) null
    prices with a reason string under [_reason] or [_error]. *)
Theorem C7_two_attempts (lib : Builtins) (env : Env) (a : pricing_args) :
  let run := run_pricing lib env a in
  let rq := request (text_of (a_brand a)) (text_of (a_model a)) in
  (length (generation_calls (log_of run)) <= 2)%nat
  /\ (generation_calls (log_of run) <> [] ->
      (attempt_fails env a 0 = false -> generation_calls (log_of run) = [rq 0%nat])
      /\ (attempt_fails env a 0 = true ->
          generation_calls (log_of run) = [rq 0%nat; rq 1%nat]
          /\ rq_temperature (rq 0%nat) = f0_7
          /\ rq_temperature (rq 1%nat) = f0_9
          /\ flt f0_7 f0_9 = true)
      /\ (attempt_fails env a 0 = true -> attempt_fails env a 1 = true ->
          exists d, outcome run = Ok d /\ generation_failure d)).
Proof.
  cbv zeta. unfold run_pricing.
  destruct (build_row lib a) as [row|e];
    [|run_step; split; [cbn; lia | intros H; now elim H]].
  run_step.
  destruct (_check_missing lib row) as [missing|e];
    [|run_step; split; [cbn; lia | intros H; now elim H]].
  run_step.
  destruct (truthy (PList (map PStr missing)));
    [split; [cbn; lia | intros H; now elim H]|].
  destruct (get_client env) as [[]|e];
    [|run_step; split; [cbn; lia | intros H; now elim H]].
  run_step. rewrite first_attempt. unfold attempt_fails.
  destruct (attempt_result env a 0) as [rows0|e0].
  - destruct (length rows0 <? 10)%nat eqn:L0.
    + rewrite bind_tell, second_attempt. cbn [log_of outcome fst snd].
      rewrite log_bind. cbn [log_of outcome fst snd].
      destruct (attempt_result env a 1) as [rows1|e1].
      * destruct (length rows1 <? 10)%nat eqn:L1.
        -- rewrite too_few_rows, L1. cbn [log_of ret fst app].
           split; [cbn; lia|]. intros _.
           split; [discriminate|]. split; [repeat split|].
           intros _ _. rewrite outcome_bind_pair, too_few_rows, L1.
           eexists. split; [reflexivity|].
           apply generation_failure_reason.
        -- rewrite too_few_rows, L1. rewrite generation_calls_app.
           rewrite train_and_estimate_no_calls.
           split; [cbn; lia|]. intros _.
           split; [discriminate|]. split; [repeat split|].
           intros _. discriminate.
      * destruct (is_ValueError e1); cbn [log_of ret fst app];
          (split; [cbn; lia|]; intros _;
           split; [discriminate|]; split; [repeat split|];
           intros _ _; rewrite outcome_bind_pair;
           eexists; (split; [reflexivity|]);
           first [apply generation_failure_reason
                 | apply generation_failure_error]).
    + rewrite log_bind. cbn [log_of outcome fst snd].
      rewrite too_few_rows, L0. rewrite generation_calls_app.
      rewrite train_and_estimate_no_calls.
      split; [cbn; lia|]. intros _.
      split; [reflexivity|]. split; intros; discriminate.
  - rewrite bind_tell, second_attempt. cbn [log_of outcome fst snd].
    rewrite log_bind. cbn [log_of outcome fst snd].
    destruct (attempt_result env a 1) as [rows1|e1].
    + destruct (length rows1 <? 10)%nat eqn:L1.
      * rewrite too_few_rows, L1. cbn [log_of ret fst app].
        split; [cbn; lia|]. intros _.
        split; [discriminate|]. split; [repeat split|].
        intros _ _. rewrite outcome_bind_pair, too_few_rows, L1.
        eexists. split; [reflexivity|].
        apply generation_failure_reason.
      * rewrite too_few_rows, L1. rewrite generation_calls_app.
        rewrite train_and_estimate_no_calls.
        split; [cbn; lia|]. intros _.
        split; [discriminate|]. split; [repeat split|].
        intros _. discriminate.
    + destruct (is_ValueError e1); cbn [log_of ret fst app];
        (split; [cbn; lia|]; intros _;
         split; [discriminate|]; split; [repeat split|];
         intros _ _; rewrite outcome_bind_pair;
           eexists; (split; [reflexivity|]);
         first [apply generation_failure_reason
               | apply generation_failure_error]).
Qed.

Lemma C7_witness :
  generation_calls
    (log_of (run_pricing Samples.sample_lib Samples.few_rows_world
                         (Samples.camry (PList []))))
  = [ request (text_of (a_brand (Samples.camry (PList []))))
              (text_of (a_model (Samples.camry (PList [])))) 0%nat;
      request (text_of (a_brand (Samples.camry (PList []))))
              (text_of (a_model (Samples.camry (PList [])))) 1%nat ]
  /\ exists d,
      outcome (run_pricing Samples.sample_lib Samples.few_rows_world
                           (Samples.camry (PList []))) = Ok d
      /\ generation_failure d.
Proof.
  destruct (C7_two_attempts Samples.sample_lib Samples.few_rows_world
              (Samples.camry (PList []))) as [_ H].
  destruct H as (_ & H2 & H3); [vm_compute; discriminate|].
  split.
  - apply H2. vm_compute. reflexivity.
  - apply H3; vm_compute; reflexivity.
Defined.

(** C7 as stated fails: a first answer holding ten numbers has no valid
    row, yet its ten elements end the attempts; the corpus is rejected after
    the loop, with a reason and without a second request. *)
Lemma C7_counterexample :
  attempt_result Samples.numbers_world (Samples.camry (PList [])) 0
  = Ok Samples.ten_numbers
  /\ filter valid_row Samples.ten_numbers = []
  /\ run_pricing Samples.sample_lib Samples.numbers_world
                 (Samples.camry (PList []))
     = ([EvChat (request (u "Toyota") (u "Camry") 0)],
        Ok (with_reason (u "no price column or too few rows")))
  /\ ~ retries_invalid_batch Samples.sample_lib Samples.numbers_world
         (Samples.camry (PList [])).
Proof.
  assert (H1 : attempt_result Samples.numbers_world
                              (Samples.camry (PList [])) 0
               = Ok Samples.ten_numbers) by (vm_compute; reflexivity).
  split; [exact H1|]. split; [reflexivity|].
  split; [vm_compute; reflexivity|].
  intros H. specialize (H Samples.ten_numbers H1).
  assert (L : (length (filter valid_row Samples.ten_numbers) < 10)%nat)
    by (vm_compute; lia).
  specialize (H L). vm_compute in H. discriminate H.
Qed.

(** ** Stripping *)

Lemma lstrip_idempotent (s : str) : lstrip (lstrip s) = lstrip s.
Proof.
  induction s as [|c s IH]; [reflexivity|]. cbn [lstrip].
  destruct (isspace c) eqn:E; [exact IH|]. cbn [lstrip]. now rewrite E.
Qed.

(** [lstrip] keeps a last character that is not a space. *)
Lemma lstrip_snoc (s : str) (c : N) :
  isspace c = false -> exists s', lstrip (s ++ [c]) = s' ++ [c].
Proof.
  intros Hc. induction s as [|x s [s' IH]].
  - exists []. cbn [app lstrip]. now rewrite Hc.
  - cbn [app lstrip]. destruct (isspace x).
    + now exists s'.
    + now exists (x :: s).
Qed.

(** Once the leading spaces are gone, removing trailing ones brings none
    back in front. *)
Lemma lstrip_rstrip_lstrip (s : str) :
  lstrip (rstrip (lstrip s)) = rstrip (lstrip s).
Proof.
  destruct (lstrip s) as [|c t] eqn:E; [reflexivity|].
  assert (Hc : isspace c = false).
  { clear -E. induction s as [|x s IH]; [discriminate|].
    cbn [lstrip] in E. destruct (isspace x) eqn:Ex; [auto|].
    injection E as -> _. exact Ex. }
  unfold rstrip. cbn [rev].
  destruct (lstrip_snoc (rev t) c Hc) as [s' ->].
  rewrite rev_app_distr. cbn [rev app lstrip]. now rewrite Hc.
Qed.

Lemma strip_idempotent (s : str) : strip (strip s) = strip s.
Proof.
  unfold strip. rewrite lstrip_rstrip_lstrip.
  unfold rstrip. now rewrite rev_involutive, lstrip_idempotent.
Qed.

Lemma text_of_stripped (x : option str) : strip (text_of x) = text_of x.
Proof. apply strip_idempotent. Qed.

(** ** C4: the completeness check *)

Lemma flagged_cons (e : str * bool) (l : list (str * bool)) :
  flagged (e :: l) = flagged [e] ++ flagged l.
Proof. unfold flagged. cbn [filter]. now destruct (snd e). Qed.

Lemma flagged_in (k : str) (fields : list (str * bool)) :
  In (k, true) fields -> In k (flagged fields).
Proof.
  intros H. unfold flagged.
  apply (in_map fst _ (k, true)). apply filter_In. now split.
Qed.

Section CheckedRow.
Variable lib : Builtins.
Variable row : dict.

Lemma stripped_text (k : string) (x : option str) :
  dget row (u k) = text_field x -> stripped row k = Ok (text_of x).
Proof.
  intros H. unfold stripped. rewrite H. unfold text_field, py_or.
  destruct (truthy (PStr (text_of x))) eqn:E; cbn [py_strip].
  - now rewrite text_of_stripped.
  - destruct (text_of x); [reflexivity | discriminate].
Qed.

Lemma check_blank_text (k : string) (x : option str) (missing : list str) :
  dget row (u k) = text_field x ->
  check_blank row k missing
  = Ok (missing ++ flagged [(u k, is_empty (text_of x))]).
Proof.
  intros H. unfold check_blank. rewrite (stripped_text k x H). cbn [rbind].
  unfold flagged. cbn [filter snd].
  destruct (is_empty (text_of x)); [reflexivity | now rewrite app_nil_r].
Qed.

Lemma check_steering_text (x : option str) (missing : list str) :
  dget row (u "steering_wheel_position") = text_field x ->
  check_steering row missing
  = Ok (missing
          ++ flagged [(u "steering_wheel_position",
                       negb (str_eqb (text_of x) (u "left")
                             || str_eqb (text_of x) (u "right")))]).
Proof.
  intros H. unfold check_steering.
  rewrite (stripped_text "steering_wheel_position" x H). cbn [rbind].
  generalize (str_eqb (text_of x) (u "left")
              || str_eqb (text_of x) (u "right")).
  intros b. unfold flagged. cbn [filter snd].
  destruct b; cbn [negb map fst]; [apply f_equal, eq_sym, app_nil_r | reflexivity].
Qed.

Lemma check_int (k : string) (x : option Z) (missing : list str) :
  dget row (u k) = int_field x ->
  check_number row (py_int lib) k missing
  = Ok (missing ++ flagged [(u k, unset x)]).
Proof.
  intros H. unfold check_number. rewrite H.
  destruct x as [z|]; cbn [int_field is_none py_int unset];
    [now rewrite app_nil_r | reflexivity].
Qed.

Lemma check_float (k : string) (x : option float) (missing : list str) :
  dget row (u k) = float_field x ->
  check_number row (py_float lib) k missing
  = Ok (missing ++ flagged [(u k, unset x)]).
Proof.
  intros H. unfold check_number. rewrite H.
  destruct x as [z|]; cbn [float_field is_none py_float unset];
    [now rewrite app_nil_r | reflexivity].
Qed.

End CheckedRow.

(** On the row [run_pricing] builds, the check returns the rejected
    fields in the order of the required list. *)
Lemma check_missing_subject_row (lib : Builtins) (a : pricing_args)
      (weak moderate strong : Z) :
  _check_missing lib (subject_row a weak moderate strong)
  = Ok (flagged (rejected_fields a)).
Proof.
  unfold _check_missing.
  rewrite (check_blank_text _ "brand" (a_brand a)) by reflexivity.
  cbn [rbind].
  rewrite (check_blank_text _ "model" (a_model a)) by reflexivity.
  cbn [rbind].
  rewrite (check_blank_text _ "body_type" (a_body_type a)) by reflexivity.
  cbn [rbind].
  rewrite (check_blank_text _ "color" (a_color a)) by reflexivity.
  cbn [rbind].
  rewrite (check_steering_text _ (a_steering_wheel_position a)) by reflexivity.
  cbn [rbind].
  rewrite (check_int lib _ "year" (a_year a)) by reflexivity.
  cbn [rbind].
  rewrite (check_float lib _ "engine_capacity" (a_engine_capacity a))
    by reflexivity.
  cbn [rbind].
  rewrite (check_blank_text _ "transmission" (a_transmission a)) by reflexivity.
  cbn [rbind].
  rewrite (check_blank_text _ "drive_type" (a_drive_type a)) by reflexivity.
  cbn [rbind].
  rewrite (check_int lib _ "mileage" (a_mileage a)) by reflexivity.
  cbn [rbind].
  rewrite (check_blank_text _ "damage_flag" (a_damage_flag a)) by reflexivity.
  f_equal. unfold rejected_fields.
  rewrite !(flagged_cons _ (_ :: _)). cbn [app].
  now rewrite <- !app_assoc.
Qed.

Lemma severity_of_ok (lib : Builtins) (d : pyval) :
  defect_ok d = true ->
  exists sev s, py_get d (u "severity") = Ok sev
                /\ _severity_ru lib (py_or sev (PStr [])) = Ok s.
Proof.
  destruct d as [| | | | | |dd]; try discriminate. cbn [defect_ok py_get].
  intros H. exists (dget dd (u "severity")).
  unfold _severity_ru.
  destruct (py_or (dget dd (u "severity")) (PStr [])) as [| | | |t| |];
    try discriminate.
  assert (E : py_or (PStr t) (PStr []) = PStr t).
  { unfold py_or. destruct t; reflexivity. }
  rewrite E. cbn [py_strip rbind].
  repeat match goal with
         | |- context [if ?b then _ else _] => destruct b
         end; eauto.
Qed.

Lemma count_severity_ok (lib : Builtins) (ds : list pyval) (target : str) :
  forallb defect_ok ds = true ->
  exists n, count_severity lib ds target = Ok n.
Proof.
  induction ds as [|d ds IH]; [now exists 0%Z|].
  cbn [forallb]. intros H. apply andb_true_iff in H as [Hd Hds].
  destruct (severity_of_ok lib d Hd) as (sev & s & E1 & E2).
  destruct (IH Hds) as [n En].
  cbn [count_severity]. rewrite E1. cbn [rbind]. rewrite E2. cbn [rbind].
  rewrite En. cbn [rbind]. eauto.
Qed.

Lemma build_row_ok (lib : Builtins) (a : pricing_args) :
  defects_ok (a_defects a) = true ->
  exists weak moderate strong,
    build_row lib a = Ok (subject_row a weak moderate strong).
Proof.
  unfold defects_ok, build_row, count_defects.
  destruct (py_iter (a_defects a)) as [ds|e]; [|discriminate].
  intros H. cbn [rbind].
  destruct (count_severity_ok lib ds (u "слабая") H) as [w ->].
  destruct (count_severity_ok lib ds (u "умеренная") H) as [m ->].
  destruct (count_severity_ok lib ds (u "сильная") H) as [s ->].
  cbn [rbind]. eauto.
Qed.

Tactic Notation "at_position" integer(n) := do n right; left.

Lemma empty_is_rejected (a : pricing_args) (k : str) :
  In (k, true) (empty_fields a) -> In (k, true) (rejected_fields a).
Proof.
  intros H. unfold empty_fields in H. unfold rejected_fields.
  destruct H as [H|[H|[H|[H|[H|[H|[H|[H|[H|[H|[H|[]]]]]]]]]]]];
    injection H as Hk Hb; subst k;
    [ at_position 0 | at_position 1 | at_position 2 | at_position 3
    | at_position 4 | at_position 5 | at_position 6 | at_position 7
    | at_position 8 | at_position 9 | at_position 10 ];
    try (now rewrite Hb).
  destruct (text_of (a_steering_wheel_position a)); [reflexivity | discriminate].
Qed.

(** The short circuit of C4 behind the guard the code lacks. When the
    defect list is one [run_pricing] can
    count (each entry a dictionary whose severity is a string or is falsy)
    and a required field of the subject record is empty, [run_pricing]
    returns at once: the result holds null prices and the full list of the
    rejected required fields in the order of the required list, which
    names every empty field; no generation request and no training is
    logged, and the result is the same in every world. *)
Theorem C4_incomplete_record_short_circuits (lib : Builtins) (env : Env)
        (a : pricing_args) :
  defects_ok (a_defects a) = true ->
  (exists k, In (k, true) (empty_fields a)) ->
  run_pricing lib env a
  = ([], Ok (no_estimate (flagged (rejected_fields a)) []))
  /\ flagged (rejected_fields a) <> []
  /\ (forall k, In (k, true) (empty_fields a) ->
                In k (flagged (rejected_fields a)))
  /\ null_prices (no_estimate (flagged (rejected_fields a)) [])
  /\ (forall env', run_pricing lib env' a = run_pricing lib env a).
Proof.
  intros Hd [k Hk].
  assert (Hin : forall k, In (k, true) (empty_fields a) ->
                          In k (flagged (rejected_fields a))).
  { intros k' H. now apply flagged_in, empty_is_rejected. }
  assert (Hne : flagged (rejected_fields a) <> []).
  { intros E. specialize (Hin k Hk). rewrite E in Hin. exact Hin. }
  assert (Hrun : forall env0,
             run_pricing lib env0 a
             = ([], Ok (no_estimate (flagged (rejected_fields a)) []))).
  { intros env0. unfold run_pricing.
    destruct (build_row_ok lib a Hd) as (w & m & s & ->).
    run_step. rewrite check_missing_subject_row. run_step.
    destruct (flagged (rejected_fields a)) as [|f fs]; [congruence|].
    reflexivity. }
  split; [apply Hrun|]. split; [exact Hne|]. split; [exact Hin|].
  split; [apply no_estimate_nulls|].
  intros env'. now rewrite !Hrun.
Qed.

(** The record without a mileage: the only field reported is "mileage". *)
Lemma C4_witness :
  run_pricing Samples.sample_lib Samples.tie_world
              (Samples.camry_no_mileage (PList []))
  = ([], Ok (no_estimate [u "mileage"] [])).
Proof.
  destruct (C4_incomplete_record_short_circuits
              Samples.sample_lib Samples.tie_world
              (Samples.camry_no_mileage (PList []))) as [H _].
  - reflexivity.
  - exists (u "mileage"). unfold empty_fields. at_position 9. reflexivity.
  - etransitivity; [exact H|]. vm_compute. reflexivity.
Defined.

(** C4 (failing input). For a record without a mileage and a defect list
    whose one entry is the string "scratch", [run_pricing] raises
    [AttributeError] while it counts the severities, before the
    completeness check is reached: it does not return the list of missing
    fields, although a required field is empty. *)
Theorem C4_unguarded_defect_entry :
  (exists e,
      run_pricing Samples.sample_lib Samples.tie_world
                  (Samples.camry_no_mileage (PList [PStr (u "scratch")]))
      = ([], Raise e)
      /\ exn_cls e = AttributeError)
  /\ In (u "mileage", true)
        (empty_fields (Samples.camry_no_mileage (PList [PStr (u "scratch")])))
  /\ ~ short_circuits Samples.sample_lib Samples.tie_world
         (Samples.camry_no_mileage (PList [PStr (u "scratch")])).
Proof.
  assert (Hm : In (u "mileage", true)
                  (empty_fields
                     (Samples.camry_no_mileage (PList [PStr (u "scratch")])))).
  { unfold empty_fields. at_position 9. reflexivity. }
  split; [|split; [exact Hm|]].
  - eexists. split; vm_compute; reflexivity.
  - intros H. destruct H as [missing H]; [now exists (u "mileage")|].
    vm_compute in H. discriminate H.
Qed.

(** ** C6: back-filling of feature columns *)

Lemma mem_false_lookup (cs : list (str * list pyval)) (k : str) :
  mem k (map fst cs) = false -> lookup_col cs k = None.
Proof.
  induction cs as [|[c cells] cs IH]; [reflexivity|].
  cbn [map fst mem existsb lookup_col]. intros H.
  apply orb_false_iff in H as [H1 H2]. rewrite H1. now apply IH.
Qed.

Lemma lookup_col_app (cs cs' : list (str * list pyval)) (k : str) :
  lookup_col (cs ++ cs') k =
  match lookup_col cs k with
  | Some cells => Some cells
  | None => lookup_col cs' k
  end.
Proof.
  induction cs as [|[c cells] cs IH]; [reflexivity|].
  cbn [app lookup_col]. now destruct (str_eqb k c).
Qed.

Lemma mem_app (k : str) (l l' : list str) : mem k (l ++ l') = mem k l || mem k l'.
Proof. apply existsb_app. Qed.

Section Backfill.
Variable row : dict.

Lemma backfill_step_nrows (X : frame) (c : str) :
  f_nrows (backfill_step row X c) = f_nrows X.
Proof. unfold backfill_step. now destruct (mem c (columns X)). Qed.

Lemma backfill_step_keeps (X : frame) (c k : str) (cells : list pyval) :
  lookup_col (f_columns X) k = Some cells ->
  lookup_col (f_columns (backfill_step row X c)) k = Some cells.
Proof.
  intros H. unfold backfill_step. destruct (mem c (columns X)); [exact H|].
  cbn [add_column f_columns]. now rewrite lookup_col_app, H.
Qed.

Lemma backfill_step_adds (X : frame) (c : str) :
  mem c (columns X) = false ->
  lookup_col (f_columns (backfill_step row X c)) c
  = Some (repeat (dget_default row c (neutral c)) (f_nrows X)).
Proof.
  intros H. unfold backfill_step. rewrite H. cbn [add_column f_columns].
  rewrite lookup_col_app, (mem_false_lookup _ _ H).
  cbn [lookup_col]. now rewrite str_eqb_refl.
Qed.

Lemma backfill_step_other (X : frame) (c k : str) :
  str_eqb k c = false ->
  mem k (columns X) = false ->
  mem k (columns (backfill_step row X c)) = false.
Proof.
  intros Hkc H. unfold backfill_step. destruct (mem c (columns X)); [exact H|].
  unfold columns. cbn [add_column f_columns].
  rewrite map_app, mem_app. unfold columns in H. rewrite H.
  cbn [map fst mem existsb orb]. now rewrite Hkc.
Qed.

Lemma fold_backfill_nrows (cols : list str) (X : frame) :
  f_nrows (fold_left (backfill_step row) cols X) = f_nrows X.
Proof.
  revert X. induction cols as [|c cols IH]; intros X; [reflexivity|].
  cbn [fold_left]. now rewrite IH, backfill_step_nrows.
Qed.

Lemma fold_backfill_keeps (cols : list str) (X : frame) (k : str)
      (cells : list pyval) :
  lookup_col (f_columns X) k = Some cells ->
  lookup_col (f_columns (fold_left (backfill_step row) cols X)) k = Some cells.
Proof.
  revert X. induction cols as [|c cols IH]; intros X H; [exact H|].
  cbn [fold_left]. now apply IH, backfill_step_keeps.
Qed.

Lemma fold_backfill_adds (cols : list str) (X : frame) (k : str) :
  In k cols ->
  mem k (columns X) = false ->
  lookup_col (f_columns (fold_left (backfill_step row) cols X)) k
  = Some (repeat (dget_default row k (neutral k)) (f_nrows X)).
Proof.
  revert X. induction cols as [|c cols IH]; intros X Hin Hk; [destruct Hin|].
  cbn [fold_left].
  destruct (str_eqb k c) eqn:E.
  - apply str_eqb_eq in E as ->.
    apply fold_backfill_keeps. now apply backfill_step_adds.
  - destruct Hin as [->|Hin]; [now rewrite str_eqb_refl in E|].
    rewrite <- (backfill_step_nrows X c).
    apply IH; [exact Hin|]. now apply backfill_step_other.
Qed.

End Backfill.

Lemma lookup_col_loc (index : list nat) (X : frame) (k : str) :
  lookup_col (f_columns (loc index X)) k
  = option_map (fun cells => map (fun i => nth i cells nan_cell) index)
               (lookup_col (f_columns X) k).
Proof.
  unfold loc. cbn [f_columns].
  induction (f_columns X) as [|[c cells] cs IH]; [reflexivity|].
  cbn [map fst snd lookup_col]. now destruct (str_eqb k c).
Qed.

Lemma nth_repeat_lt {A} (v d : A) (n i : nat) :
  (i < n)%nat -> nth i (repeat v n) d = v.
Proof.
  revert i. induction n as [|n IH]; intros i H; [lia|].
  destruct i; [reflexivity|]. cbn [repeat nth]. apply IH. lia.
Qed.

Lemma map_nth_repeat {A} (v d : A) (n : nat) (index : list nat) :
  Forall (fun i => (i < n)%nat) index ->
  map (fun i => nth i (repeat v n) d) index = repeat v (length index).
Proof.
  induction 1 as [|i index Hi _ IH]; [reflexivity|].
  cbn [map length repeat]. now rewrite IH, nth_repeat_lt.
Qed.

Lemma surviving_in_range (n : nat) (prices : list (option Z)) :
  Forall (fun i => (i < n)%nat) (map fst (surviving n prices)).
Proof.
  unfold surviving. apply Forall_forall. intros i Hi.
  apply in_map_iff in Hi as ([i' z] & <- & Hi).
  apply in_flat_map in Hi as ([j p] & Hj & Hi).
  cbn [fst snd] in Hi. destruct p as [z'|]; [|destruct Hi].
  destruct Hi as [[= <- <-]|[]].
  apply in_combine_l, in_seq in Hj. cbn [fst]. lia.
Qed.

Lemma mem_drop (names : list str) (df : frame) (k : str) :
  mem k (columns df) = false -> mem k (columns (drop names df)) = false.
Proof.
  unfold columns, drop. cbn [f_columns].
  induction (f_columns df) as [|[c cells] cs IH]; [reflexivity|].
  cbn [map fst mem existsb filter]. intros H.
  apply orb_false_iff in H as [H1 H2].
  destruct (negb (mem c names)); cbn [map fst mem existsb].
  - rewrite H1. now apply IH.
  - now apply IH.
Qed.

(** A feature column the corpus lacks is, in the training frame, the
    subject's value in every row. *)
Lemma training_frame_backfilled (row : dict) (records : list dict)
      (prices : list (option Z)) (col : str) :
  In col FEATURE_COLUMNS ->
  mem col (columns (DataFrame records)) = false ->
  column (training_frame row records prices) col
  = Some (repeat (dget_default row col (neutral col))
                 (f_nrows (training_frame row records prices))).
Proof.
  intros Hin Hcol. unfold column, training_frame. cbv zeta.
  rewrite lookup_col_loc. unfold backfill.
  rewrite (fold_backfill_adds row FEATURE_COLUMNS _ col Hin)
    by now apply mem_drop.
  cbn [option_map loc f_nrows drop]. f_equal.
  apply map_nth_repeat, surviving_in_range.
Qed.

Lemma all_dicts_map (rows : list pyval) (records : list dict) :
  all_dicts rows = Some records -> rows = map PDict records.
Proof.
  revert records. induction rows as [|r rows IH]; intros records.
  - intros [= <-]. reflexivity.
  - destruct r; try discriminate. cbn [all_dicts].
    destruct (all_dicts rows) as [rs|]; [|discriminate].
    intros [= <-]. cbn [map]. now rewrite (IH rs eq_refl).
Qed.

Ltac no_fit := run_step; cbn [fitted_frames flat_map app In]; tauto.

(** The only frame [train_and_estimate] fits on is the training frame. *)
Lemma train_fitted (env : Env) (row : dict) (rows : list pyval) (X : frame) :
  In X (fitted_frames (log_of (train_and_estimate env row rows))) ->
  exists records prices,
    all_dicts rows = Some records /\ X = training_frame row records prices.
Proof.
  unfold train_and_estimate.
  destruct (all_dicts rows) as [records|];
    [|destruct (frame_of_irregular env rows); intros []].
  destruct (negb _ || _); [intros []|].
  cbv zeta.
  destruct (to_numeric_int env _) as [prices|e]; [|no_fit].
  run_step.
  destruct (length _ <? 10)%nat; [intros []|].
  run_step. cbn [fitted_frames flat_map app In].
  intros [<-|H]; [now exists records, prices|]. exfalso. revert H.
  match goal with
  | |- context [fit_model env ?X ?y ?cats] =>
    destruct (fit_model env X y cats) as [cb|e]
  end; [|no_fit].
  run_step. run_step. cbn [fitted_frames flat_map app].
  match goal with
  | |- context [tm_predict cb ?car] =>
    destruct (tm_predict cb car) as [[|p rest]|e]
  end; [no_fit| |no_fit].
  run_step.
  destruct (py_round p) as [sp|e]; [|no_fit].
  run_step.
  destruct (float_of_int sp) as [fsp|e]; [|no_fit].
  run_step.
  destruct (py_round (fsub fsp (tm_mae cb))) as [lo|e]; [|no_fit].
  run_step.
  destruct (py_round (fadd fsp (tm_mae cb))) as [hi|e]; [|no_fit].
  run_step.
  destruct (serialize_rows env _) as [gen|e]; [|no_fit].
  no_fit.
Qed.

Lemma fitted_frames_app (l1 l2 : list event) :
  fitted_frames (l1 ++ l2) = fitted_frames l1 ++ fitted_frames l2.
Proof. apply flat_map_app. Qed.

(** The frame [run_pricing] fits on is the training frame of the subject
    row and of the rows one of the two attempts produced. *)
Lemma run_pricing_fitted (lib : Builtins) (env : Env) (a : pricing_args)
      (X : frame) :
  In X (fitted_frames (log_of (run_pricing lib env a))) ->
  exists weak moderate strong attempt records prices,
    build_row lib a = Ok (subject_row a weak moderate strong)
    /\ attempt_result env a attempt = Ok (map PDict records)
    /\ X = training_frame (subject_row a weak moderate strong) records prices.
Proof.
  unfold run_pricing.
  destruct (build_row lib a) as [row|e] eqn:Erow; [|run_step; intros []].
  assert (Hrow : exists w m s, row = subject_row a w m s).
  { unfold build_row in Erow.
    destruct (count_defects lib (a_defects a) (u "слабая")) as [w|];
      [|discriminate].
    destruct (count_defects lib (a_defects a) (u "умеренная")) as [m|];
      [|discriminate].
    destruct (count_defects lib (a_defects a) (u "сильная")) as [s|];
      [|discriminate].
    injection Erow as <-. eauto. }
  destruct Hrow as (w & m & s & ->).
  run_step.
  destruct (_check_missing lib _) as [missing|e]; [|run_step; intros []].
  run_step.
  destruct (truthy (PList (map PStr missing))); [intros []|].
  destruct (get_client env) as [[]|e]; [|run_step; intros []].
  run_step. rewrite first_attempt.
  destruct (attempt_result env a 0) as [rows0|e0] eqn:E0.
  - destruct (length rows0 <? 10)%nat eqn:L0.
    + rewrite bind_tell, second_attempt. cbn [log_of outcome fst snd].
      rewrite log_bind. cbn [log_of outcome fst snd].
      destruct (attempt_result env a 1) as [rows1|e1] eqn:E1.
      * destruct (length rows1 <? 10)%nat eqn:L1; rewrite too_few_rows, L1;
          [intros []|].
        rewrite fitted_frames_app. cbn [fitted_frames flat_map app].
        intros H. apply train_fitted in H as (records & prices & Hd & ->).
        exists w, m, s, 1%nat, records, prices.
        now rewrite <- (all_dicts_map _ _ Hd).
      * destruct (is_ValueError e1); intros [].
    + rewrite log_bind. cbn [log_of outcome fst snd].
      rewrite too_few_rows, L0. rewrite fitted_frames_app.
      cbn [fitted_frames flat_map app].
      intros H. apply train_fitted in H as (records & prices & Hd & ->).
      exists w, m, s, 0%nat, records, prices.
      now rewrite <- (all_dicts_map _ _ Hd).
  - rewrite bind_tell, second_attempt. cbn [log_of outcome fst snd].
    rewrite log_bind. cbn [log_of outcome fst snd].
    destruct (attempt_result env a 1) as [rows1|e1] eqn:E1.
    + destruct (length rows1 <? 10)%nat eqn:L1; rewrite too_few_rows, L1;
        [intros []|].
      rewrite fitted_frames_app. cbn [fitted_frames flat_map app].
      intros H. apply train_fitted in H as (records & prices & Hd & ->).
      exists w, m, s, 1%nat, records, prices.
      now rewrite <- (all_dicts_map _ _ Hd).
    + destruct (is_ValueError e1); intros [].
Qed.

Lemma subject_row_has_features (a : pricing_args) (w m s : Z) (col : str) :
  In col FEATURE_COLUMNS ->
  lookup (subject_row a w m s) col <> None.
Proof.
  intros H.
  assert (F : forallb (has_key (subject_row a w m s)) FEATURE_COLUMNS = true)
    by reflexivity.
  rewrite forallb_forall in F. specialize (F col H).
  unfold has_key in F. now destruct (lookup _ col).
Qed.

(** C6 (as the code has it). Every frame the regressor is fitted on is the
    corpus of one of the two attempts, without price, brand and model,
    restricted to the rows with a valid price; a declared feature column
    that the corpus lacks is back-filled, before fitting, with the subject
    record's own value for that column in every row. The subject record
    holds every declared feature column, so the neutral value (0 or the
    empty string) is never what fills it. *)
Theorem C6_backfill_with_subject_values (lib : Builtins) (env : Env)
        (a : pricing_args) (X : frame) :
  In X (fitted_frames (log_of (run_pricing lib env a))) ->
  exists row attempt records prices,
    build_row lib a = Ok row
    /\ attempt_result env a attempt = Ok (map PDict records)
    /\ X = training_frame row records prices
    /\ forall col,
        In col FEATURE_COLUMNS ->
        mem col (columns (DataFrame records)) = false ->
        lookup row col <> None
        /\ column X col = Some (repeat (dget row col) (f_nrows X)).
Proof.
  intros H.
  destruct (run_pricing_fitted lib env a X H)
    as (w & m & s & attempt & records & prices & Hrow & Hrows & ->).
  exists (subject_row a w m s), attempt, records, prices.
  repeat split; try assumption.
  - now apply subject_row_has_features.
  - rewrite training_frame_backfilled by assumption.
    unfold dget_default, dget.
    pose proof (subject_row_has_features a w m s col H0) as Hk.
    now destruct (lookup (subject_row a w m s) col).
Qed.

Lemma tie_fitted :
  fitted_frames (log_of (run_pricing Samples.sample_lib Samples.tie_world
                                     (Samples.camry (PList []))))
  = [Samples.tie_frame].
Proof. vm_compute. reflexivity. Qed.

Lemma C6_witness :
  exists row attempt records prices,
    build_row Samples.sample_lib (Samples.camry (PList [])) = Ok row
    /\ attempt_result Samples.tie_world (Samples.camry (PList [])) attempt
       = Ok (map PDict records)
    /\ Samples.tie_frame = training_frame row records prices
    /\ forall col,
        In col FEATURE_COLUMNS ->
        mem col (columns (DataFrame records)) = false ->
        lookup row col <> None
        /\ column Samples.tie_frame col
           = Some (repeat (dget row col) (f_nrows Samples.tie_frame)).
Proof.
  apply (C6_backfill_with_subject_values Samples.sample_lib Samples.tie_world
           (Samples.camry (PList [])) Samples.tie_frame).
  rewrite tie_fitted. left. reflexivity.
Defined.

(** C6 as stated fails: the corpus holds prices only and the subject is a
    red car; the column "color" of the frame the regressor is fitted on is
    "red" in every row, not the empty string. *)
Lemma C6_counterexample :
  fitted_frames (log_of (run_pricing Samples.sample_lib Samples.tie_world
                                     (Samples.camry (PList []))))
  = [Samples.tie_frame]
  /\ ~ backfilled_with_neutral Samples.tie_frame [u "price"].
Proof.
  split; [exact tie_fitted|].
  intros H. specialize (H (u "color")).
  assert (Hc : column Samples.tie_frame (u "color")
               = Some (repeat (neutral (u "color"))
                              (f_nrows Samples.tie_frame))).
  { apply H; [|reflexivity].
    unfold FEATURE_COLUMNS. cbn [map]. at_position 1. reflexivity. }
  vm_compute in Hc. discriminate Hc.
Qed.

(** ** C8: a failing second barrier *)

Lemma price_estimation_degraded (lib : Builtins) (e : exn) :
  price_estimation_of lib [(u "_error", PStr (exn_msg e))]
  = Ok (degraded_price e).
Proof.
  unfold degraded_price. destruct (exn_msg e); reflexivity.
Qed.

Lemma bind_pair {A B} (l : list event) (a : A) (k : A -> M B) :
  bind (l, Ok a) k = (l ++ log_of (k a), outcome (k a)).
Proof. unfold bind, log_of, outcome. now destruct (k a). Qed.

Lemma analyze_after_phase1 (lib : Builtins) (env : Env)
      (images : list (list N)) (v c : dict) :
  images <> [] ->
  run_vision env (map b64encode images) = Ok (PDict v) ->
  run_classification env (map b64encode images) = Ok (PDict c) ->
  outcome (analyze_images lib env images)
  = outcome (assemble lib env (map b64encode images) (PDict v) (PDict c)).
Proof.
  intros Hi Hv Hc. unfold analyze_images.
  destruct images as [|img images]; [congruence|].
  cbv zeta. unfold vision_task, classification_task.
  rewrite !bind_tell, Hv, Hc.
  unfold both. cbn [lift log_of outcome fst snd].
  rewrite bind_pair. cbn [catch ret log_of outcome fst snd].
  now rewrite outcome_bind_pair.
Qed.

(** The fields derived from the first phase, in any response. *)
Lemma assemble_phase1_fields (lib : Builtins) (env : Env) (b64 : list str)
      (v c : dict) (resp : AnalysisResponse) :
  outcome (assemble lib env b64 (PDict v) (PDict c)) = Ok resp ->
  exists score,
    visual_score_of lib v = Ok score
    /\ car_identity resp = identity_of lib c v
    /\ visual_condition resp = visual_condition_of lib v score
    /\ technical_assumptions resp = assumptions_of lib (identity_of lib c v)
    /\ status resp = _decide_status lib (PDict v) (PDict c)
    /\ vision_result resp = v.
Proof.
  unfold assemble. cbn [as_dict]. run_step. run_step.
  destruct (visual_score_of lib v) as [score|e]; [|run_step; discriminate].
  run_step. intros H.
  apply outcome_bind_ok in H as (p2 & _ & H).
  destruct (price_estimation_of lib (fst p2)) as [pe|e];
    [|revert H; run_step; discriminate].
  revert H. run_step. cbn [outcome ret snd]. intros [= <-].
  exists score. repeat split.
Qed.

(** The degradation of C8 as the handler performs it. When the second
    barrier of [analyze_images]
    raises, the request does not fail: the response holds a price estimate
    with null prices and no missing fields, whose error message is the text
    of the exception when that text is not empty (and null when it is), and
    an empty description; the car identity, the visual condition and the
    status are those computed from the first-phase outputs, the same as in
    any response to the same first-phase outputs. *)
Theorem C8_second_barrier_degrades (lib : Builtins) (env : Env)
        (images : list (list N)) (v c : dict) (score : float) (e : exn) :
  images <> [] ->
  run_vision env (map b64encode images) = Ok (PDict v) ->
  run_classification env (map b64encode images) = Ok (PDict c) ->
  visual_score_of lib v = Ok score ->
  outcome (second_barrier lib env images v c score) = Raise e ->
  exists resp,
    outcome (analyze_images lib env images) = Ok resp
    /\ price_estimation resp = degraded_price e
    /\ (exn_msg e <> [] ->
        error_message (price_estimation resp) = Some (exn_msg e))
    /\ generated_description resp = []
    /\ car_identity resp = identity_of lib c v
    /\ visual_condition resp = visual_condition_of lib v score
    /\ status resp = _decide_status lib (PDict v) (PDict c)
    /\ (forall env' resp',
          run_vision env' (map b64encode images) = Ok (PDict v) ->
          run_classification env' (map b64encode images) = Ok (PDict c) ->
          outcome (analyze_images lib env' images) = Ok resp' ->
          car_identity resp' = car_identity resp
          /\ visual_condition resp' = visual_condition resp
          /\ status resp' = status resp).
Proof.
  intros Hi Hv Hc Hs He.
  rewrite (analyze_after_phase1 lib env images v c Hi Hv Hc).
  unfold assemble. cbn [as_dict]. run_step. run_step. rewrite Hs. run_step.
  unfold phase2. unfold second_barrier in He. cbv zeta in He.
  destruct (both _ _) as [l2 r2]. cbn [outcome snd] in He. subst r2.
  cbn [catch ret]. rewrite outcome_bind_pair. cbn [fst snd].
  rewrite price_estimation_degraded. run_step. cbn [outcome ret snd].
  eexists. split; [reflexivity|].
  cbn [price_estimation generated_description car_identity visual_condition
       status].
  repeat split.
  - intros Hm. unfold degraded_price. cbn [error_message].
    destruct (exn_msg e); [congruence | reflexivity].
  - rewrite (analyze_after_phase1 lib env' images v c Hi H H0) in H1.
    apply assemble_phase1_fields in H1 as (score' & Hs' & H1 & _). exact H1.
  - rewrite (analyze_after_phase1 lib env' images v c Hi H H0) in H1.
    apply assemble_phase1_fields in H1 as (score' & Hs' & _ & H1 & _).
    rewrite Hs in Hs'. injection Hs' as <-. exact H1.
  - rewrite (analyze_after_phase1 lib env' images v c Hi H H0) in H1.
    now apply assemble_phase1_fields in H1 as (score' & Hs' & _ & _ & _ & H1 & _).
Qed.

(** The description agent times out with a message: the response carries
    it, with an empty description and the status of the first phase. *)
Lemma C8_witness :
  exists resp,
    outcome (analyze_images Samples.sample_lib
               (Samples.failing_description Samples.timed_out)
               Samples.one_image) = Ok resp
    /\ price_estimation resp = degraded_price Samples.timed_out
    /\ error_message (price_estimation resp) = Some (u "Request timed out.")
    /\ generated_description resp = []
    /\ status resp = u "ok".
Proof.
  destruct (C8_second_barrier_degrades Samples.sample_lib
              (Samples.failing_description Samples.timed_out)
              Samples.one_image
              (Samples.fields Samples.camry_vision)
              (Samples.fields Samples.camry_classification)
              f0_9 Samples.timed_out)
    as (resp & H1 & H2 & H3 & H4 & _ & _ & H7 & _).
  - discriminate.
  - reflexivity.
  - reflexivity.
  - reflexivity.
  - vm_compute. reflexivity.
  - exists resp. split; [exact H1|]. split; [exact H2|].
    split; [apply H3; vm_compute; discriminate|]. split; [exact H4|].
    rewrite H7. vm_compute. reflexivity.
Defined.

(** C8 (failing input). When the description agent raises an exception
    whose text is empty, the second barrier raises it and the handler stores
    the empty text under [_error]; the response then carries no error
    message at all: the price estimate is the default one, there is no
    warning and the status is "ok". *)
Theorem C8_empty_text_loses_error :
  outcome (second_barrier Samples.sample_lib
             (Samples.failing_description Samples.timeout) Samples.one_image
             (Samples.fields Samples.camry_vision)
             (Samples.fields Samples.camry_classification) f0_9)
  = Raise Samples.timeout
  /\ exists resp,
      outcome (analyze_images Samples.sample_lib
                 (Samples.failing_description Samples.timeout)
                 Samples.one_image) = Ok resp
      /\ price_estimation resp = default_PriceEstimation
      /\ ~ carries_error_message (price_estimation resp)
      /\ generated_description resp = []
      /\ confidence_warnings resp = []
      /\ status resp = u "ok".
Proof.
  split; [vm_compute; reflexivity|].
  eexists. split; [vm_compute; reflexivity|].
  split; [reflexivity|]. split; [intros H; now apply H|].
  repeat split.
Qed.

(* ================================================================== *)
(** * Further properties of the pricing agent *)

Lemma build_row_shape (lib : Builtins) (a : pricing_args) (row : dict) :
  build_row lib a = Ok row ->
  exists weak moderate strong, row = subject_row a weak moderate strong.
Proof.
  unfold build_row.
  destruct (count_defects lib (a_defects a) (u "слабая")) as [w|];
    [|discriminate].
  destruct (count_defects lib (a_defects a) (u "умеренная")) as [m|];
    [|discriminate].
  destruct (count_defects lib (a_defects a) (u "сильная")) as [s|];
    [|discriminate].
  intros [= <-]. eauto.
Qed.

(** With a countable defect list [run_pricing] is decided by the rejected
    fields: a non-empty list is returned at once, an empty one leads to the
    client and the generation loop. *)
Lemma run_pricing_rejected (lib : Builtins) (env : Env) (a : pricing_args)
      (row : dict) :
  build_row lib a = Ok row ->
  flagged (rejected_fields a) <> [] ->
  run_pricing lib env a
  = ([], Ok (no_estimate (flagged (rejected_fields a)) [])).
Proof.
  intros Hrow Hne. unfold run_pricing. rewrite Hrow. run_step.
  destruct (build_row_shape lib a row Hrow) as (w & m & s & ->).
  rewrite check_missing_subject_row. run_step.
  destruct (flagged (rejected_fields a)); [congruence | reflexivity].
Qed.

Lemma run_pricing_complete (lib : Builtins) (env : Env) (a : pricing_args)
      (row : dict) :
  build_row lib a = Ok row ->
  flagged (rejected_fields a) = [] ->
  run_pricing lib env a
  = bind (lift (get_client env))
         (fun _ =>
            bind (generation_loop env (text_of (a_brand a))
                                  (text_of (a_model a)) (seq 0 2) []
                                  (u "empty data"))
                 (fun ex =>
                    match ex with
                    | Returned d => ret d
                    | Finished rows last_error =>
                      if negb (truthy (PList rows)) || (length rows <? 10)%nat
                      then ret (with_reason last_error)
                      else train_and_estimate env row rows
                    end)).
Proof.
  intros Hrow He. unfold run_pricing. rewrite Hrow. run_step.
  destruct (build_row_shape lib a row Hrow) as (w & m & s & ->).
  rewrite check_missing_subject_row, He. run_step. reflexivity.
Qed.

(** X1. Without an API key a complete subject record makes [run_pricing]
    raise the [ValueError] of [get_api_key] before any generation request;
    nothing is returned and nothing is logged. *)
Theorem pricing_needs_api_key (lib : Builtins) (env : Env) (a : pricing_args) :
  defects_ok (a_defects a) = true ->
  flagged (rejected_fields a) = [] ->
  env_api_key env = None \/ env_api_key env = Some [] ->
  run_pricing lib env a
  = ([], Raise (mkExn ValueError (u "OPENAI_API_KEY is not set"))).
Proof.
  intros Hd Hc Hk.
  destruct (build_row_ok lib a Hd) as (w & m & s & Hrow).
  rewrite (run_pricing_complete lib env a _ Hrow Hc).
  unfold get_client. destruct Hk as [->| ->]; now run_step.
Qed.

Lemma pricing_needs_api_key_witness :
  run_pricing Samples.sample_lib no_key_world (Samples.camry (PList []))
  = ([], Raise (mkExn ValueError (u "OPENAI_API_KEY is not set"))).
Proof.
  apply pricing_needs_api_key; [reflexivity | reflexivity | left; reflexivity].
Defined.

(** ** Further properties of the orchestrator *)

(** X2. When one of its two arguments is not a dictionary, the status
    resolver answers "error": its [try] turns the fault into the status. *)
Theorem decide_status_of_malformed (lib : Builtins) (v c : pyval) :
  is_dict v = false \/ is_dict c = false ->
  _decide_status lib v c = u "error".
Proof.
  intros H. unfold _decide_status, decide.
  destruct (is_dict v) eqn:Hv.
  - destruct H as [H|Hc]; [discriminate|].
    destruct v as [| | | | | |vd]; try discriminate.
    cbn [py_get rbind]. rewrite !(get_not_dict c _ Hc).
    destruct (truthy (dget vd (u "_error"))); cbn [rbind].
    + now destruct (truthy (dget vd (u "_error"))).
    + now destruct (truthy (dget vd (u "_parse_error"))).
  - now rewrite (get_not_dict v _ Hv).
Qed.

Lemma decide_status_of_malformed_witness :
  _decide_status Samples.sample_lib Samples.camry_vision (PList [])
  = u "error".
Proof.
  apply decide_status_of_malformed. right. reflexivity.
Defined.

Ltac in_list :=
  match goal with
  | |- In ?x (?y :: _) => first [constr_eq x y; left; reflexivity
                               | right; in_list]
  end.

Lemma normalized_type_cases (lib : Builtins) (t : str) :
  In (_normalize_defect_type lib t) DEFECT_TYPES.
Proof.
  unfold _normalize_defect_type, DEFECT_TYPES. cbv zeta. cbn [map].
  destruct (List.find _ DEFECT_TYPE_MAP) as [[ru en]|] eqn:E.
  - apply find_some in E as [Hin _]. unfold DEFECT_TYPE_MAP in Hin.
    destruct Hin as [H|[H|[H|[H|[H|[H|[H|[H|[]]]]]]]]];
      injection H as _ <-; in_list.
  - repeat match goal with
           | |- context [if ?b then _ else _] => destruct b
           end; in_list.
Qed.

(** X3. Whatever the text, the normalized defect type is one of the six
    types of the data contract. *)
Theorem normalized_type_in_contract (lib : Builtins) (t : str) :
  In (_normalize_defect_type lib t) DEFECT_TYPES.
Proof. apply normalized_type_cases. Qed.

Lemma map_defect_contract (lib : Builtins) (d : dict) :
  In (di_type (map_defect lib d)) DEFECT_TYPES
  /\ In (di_severity (map_defect lib d)) SEVERITIES.
Proof.
  unfold map_defect. cbv zeta. cbn [di_type di_severity]. split.
  - match goal with
    | |- In (if ?b then ?t else _) _ => destruct b
    end; [apply normalized_type_cases|].
    unfold DEFECT_TYPES. cbn [map]. in_list.
  - unfold SEVERITY_MAP, SEVERITIES. cbn [str_lookup map].
    repeat match goal with
           | |- context [if ?b then _ else _] => destruct b
           end; in_list.
Qed.

(** X4. [_map_defects] yields one item per dictionary among the entries of
    the defect list, in order, and drops every other entry; anything that
    is not a list yields no item. Every item has a type and a severity of
    the data contract. *)
Theorem map_defects_contract (lib : Builtins) (vision : dict) :
  (forall raw,
      py_or (dget vision (u "defects")) (PList []) = PList raw ->
      _map_defects lib vision = map (map_defect lib) (dict_entries raw))
  /\ ((forall raw, py_or (dget vision (u "defects")) (PList []) <> PList raw) ->
      _map_defects lib vision = [])
  /\ (forall item,
         In item (_map_defects lib vision) ->
         In (di_type item) DEFECT_TYPES /\ In (di_severity item) SEVERITIES).
Proof.
  assert (Hlist : forall raw,
             flat_map (fun d => match d with
                                | PDict d => [map_defect lib d]
                                | _ => []
                                end) raw
             = map (map_defect lib) (dict_entries raw)).
  { induction raw as [|d raw IH]; [reflexivity|].
    unfold dict_entries in *. cbn [flat_map].
    rewrite IH. destruct d; try reflexivity. }
  unfold _map_defects. split; [|split].
  - intros raw ->. apply Hlist.
  - intros H. destruct (py_or _ _) as [| | | | |raw|]; try reflexivity.
    now elim (H raw).
  - intros item. destruct (py_or _ _) as [| | | | |raw|]; try (intros []).
    rewrite Hlist. intros H. apply in_map_iff in H as (d & <- & _).
    apply map_defect_contract.
Qed.

Lemma map_defects_contract_witness :
  _map_defects Samples.sample_lib
    [(u "defects", PList [PStr (u "scratch");
                          PDict [(u "type", PStr (u "Вмятина на двери"));
                                 (u "severity", PStr (u "Сильная"))]])]
  = map (map_defect Samples.sample_lib)
        (dict_entries [PStr (u "scratch");
                       PDict [(u "type", PStr (u "Вмятина на двери"));
                              (u "severity", PStr (u "Сильная"))]]).
Proof.
  apply (map_defects_contract Samples.sample_lib). reflexivity.
Defined.

Lemma analyze_phase1_failed (lib : Builtins) (env : Env)
      (images : list (list N)) (e : exn) :
  images <> [] ->
  outcome (both (vision_task env (map b64encode images))
                (classification_task env (map b64encode images))) = Raise e ->
  analyze_images lib env images
  = ([EvVision (map b64encode images); EvClassification (map b64encode images)],
     Ok (agents_failed e)).
Proof.
  intros Hi. unfold analyze_images.
  destruct images as [|img images]; [congruence|].
  cbv zeta. unfold vision_task, classification_task.
  rewrite !bind_tell. unfold both. cbn [lift log_of outcome fst snd app].
  intros H. rewrite H. reflexivity.
Qed.

(** X5. When an agent of the first phase raises, [analyze_images] still
    returns: the status is "error" and the only warning, on the field
    "agents", ends with the text of the exception (of the perception agent
    if both raise). Both agents have been called, and neither the price
    estimator nor the description agent is. *)
Theorem agent_fault_gives_error_response (lib : Builtins) (env : Env)
        (images : list (list N)) (e : exn) :
  images <> [] ->
  run_vision env (map b64encode images) = Raise e
  \/ ((exists v, run_vision env (map b64encode images) = Ok v)
      /\ run_classification env (map b64encode images) = Raise e) ->
  analyze_images lib env images
  = ([EvVision (map b64encode images); EvClassification (map b64encode images)],
     Ok (response_with (u "error")
           [ {| field := u "agents"; confidence := u "low";
                reason := u "Ошибка выполнения агентов: " ++ exn_msg e |} ])).
Proof.
  intros Hi H. apply analyze_phase1_failed; [exact Hi|].
  unfold both, vision_task, classification_task. rewrite !bind_tell.
  cbn [lift log_of outcome fst snd].
  destruct H as [-> | [[v ->] ->]]; reflexivity.
Qed.

Lemma agent_fault_gives_error_response_witness :
  analyze_images Samples.sample_lib blind_world Samples.one_image
  = ([EvVision (map b64encode Samples.one_image);
      EvClassification (map b64encode Samples.one_image)],
     Ok (response_with (u "error")
           [ {| field := u "agents"; confidence := u "low";
                reason := u "Ошибка выполнения агентов: "
                            ++ exn_msg Samples.timed_out |} ])).
Proof.
  apply agent_fault_gives_error_response.
  - discriminate.
  - left. reflexivity.
Defined.

Lemma price_estimation_of_missing (lib : Builtins) (missing : list str) :
  price_estimation_of lib (no_estimate missing [])
  = Ok {| min_price := None; max_price := None; suggested_price := None;
          mae := None; missing_fields := map PStr missing;
          error_message := None; generated_rows := None |}.
Proof. reflexivity. Qed.

(** The price task of [analyze_images]: the identity it is given has no
    year, so it asks the generator nothing and returns missing fields, or
    raises. *)
Lemma pricing_task_unpriced (lib : Builtins) (env : Env) (ci : CarIdentity)
      (vc : VisualCondition) (v : dict) :
  ci_year ci = None ->
  generation_calls (log_of (pricing_task lib env ci vc v)) = []
  /\ fitted_frames (log_of (pricing_task lib env ci vc v)) = []
  /\ forall d, outcome (pricing_task lib env ci vc v) = Ok d ->
               exists missing, In (u "year") missing /\ d = no_estimate missing [].
Proof.
  intros Hy. unfold pricing_task. cbv zeta.
  match goal with
  | |- context [lift ?r] => destruct r as [irs|e]
  end; [|run_step; repeat split; discriminate].
  run_step. rewrite bind_tell.
  match goal with
  | |- context [run_pricing lib env ?args] => set (a := args)
  end.
  assert (Hin : In (u "year") (flagged (rejected_fields a))).
  { apply flagged_in. unfold rejected_fields. at_position 5.
    subst a. cbn [a_year]. now rewrite Hy. }
  destruct (build_row lib a) as [row|e] eqn:Hrow.
  - rewrite (run_pricing_rejected lib env a row Hrow)
      by (intros E; rewrite E in Hin; exact Hin).
    cbn [log_of outcome fst snd]. repeat split.
    intros d [= <-]. eauto.
  - unfold run_pricing. rewrite Hrow. run_step. repeat split. discriminate.
Qed.

Lemma analyze_log_after_phase1 (lib : Builtins) (env : Env)
      (images : list (list N)) (v c : dict) :
  images <> [] ->
  run_vision env (map b64encode images) = Ok (PDict v) ->
  run_classification env (map b64encode images) = Ok (PDict c) ->
  log_of (analyze_images lib env images)
  = EvVision (map b64encode images)
      :: EvClassification (map b64encode images)
      :: log_of (assemble lib env (map b64encode images) (PDict v) (PDict c)).
Proof.
  intros Hi Hv Hc. unfold analyze_images.
  destruct images as [|img images]; [congruence|].
  cbv zeta. unfold vision_task, classification_task.
  rewrite !bind_tell, Hv, Hc.
  unfold both. cbn [lift log_of outcome fst snd].
  rewrite bind_pair. cbn [catch ret log_of outcome fst snd].
  rewrite bind_pair. cbn [log_of fst app]. reflexivity.
Qed.

Lemma assemble_unpriced (lib : Builtins) (env : Env) (b64 : list str)
      (v c : dict) (score : float) :
  visual_score_of lib v = Ok score ->
  generation_calls (log_of (assemble lib env b64 (PDict v) (PDict c))) = []
  /\ fitted_frames (log_of (assemble lib env b64 (PDict v) (PDict c))) = []
  /\ exists resp,
      outcome (assemble lib env b64 (PDict v) (PDict c)) = Ok resp
      /\ min_price (price_estimation resp) = None
      /\ max_price (price_estimation resp) = None
      /\ suggested_price (price_estimation resp) = None
      /\ mae (price_estimation resp) = None
      /\ generated_rows (price_estimation resp) = None.
Proof.
  intros Hs. unfold assemble. cbn [as_dict]. run_step. run_step.
  rewrite Hs. run_step. unfold phase2, both.
  destruct (pricing_task_unpriced lib env (identity_of lib c v)
              (visual_condition_of lib v score) v eq_refl)
    as (Hg & Hf & Hd).
  destruct (pricing_task lib env _ _ v) as [lp rp].
  cbn [log_of outcome fst snd] in *.
  unfold description_task. rewrite bind_tell. cbn [lift log_of outcome fst snd].
  destruct rp as [d|e].
  - destruct (Hd d eq_refl) as (missing & _ & ->).
    destruct (run_description env _ _ _ _) as [text|e];
      cbn [catch ret]; rewrite bind_pair; cbn [fst snd].
    + rewrite price_estimation_of_missing. run_step.
      cbn [log_of outcome ret fst snd].
      rewrite !app_nil_r, generation_calls_app, fitted_frames_app, Hg, Hf.
      repeat split. eexists. repeat split.
    + rewrite price_estimation_degraded. run_step.
      cbn [log_of outcome ret fst snd].
      rewrite !app_nil_r, generation_calls_app, fitted_frames_app, Hg, Hf.
      repeat split. eexists. repeat split.
  - cbn [catch ret]. rewrite bind_pair. cbn [fst snd].
    rewrite price_estimation_degraded. run_step.
    cbn [log_of outcome ret fst snd].
    rewrite !app_nil_r, generation_calls_app, fitted_frames_app, Hg, Hf.
    repeat split. eexists. repeat split.
Qed.

(** X6. [analyze_images] never obtains a price. The identity it derives
    from the photographs has no year, engine capacity, drive type or
    mileage, so its price task stops at the completeness check (or
    raises): whenever the two agents return dictionaries and the visual
    score converts, the analysis returns a response whose price fields are
    all null, and it has sent no request to the generative service and
    fitted no model. *)
Theorem analysis_never_prices (lib : Builtins) (env : Env)
        (images : list (list N)) (v c : dict) (score : float) :
  images <> [] ->
  run_vision env (map b64encode images) = Ok (PDict v) ->
  run_classification env (map b64encode images) = Ok (PDict c) ->
  visual_score_of lib v = Ok score ->
  generation_calls (log_of (analyze_images lib env images)) = []
  /\ fitted_frames (log_of (analyze_images lib env images)) = []
  /\ exists resp,
      outcome (analyze_images lib env images) = Ok resp
      /\ min_price (price_estimation resp) = None
      /\ max_price (price_estimation resp) = None
      /\ suggested_price (price_estimation resp) = None
      /\ mae (price_estimation resp) = None
      /\ generated_rows (price_estimation resp) = None.
Proof.
  intros Hi Hv Hc Hs.
  rewrite (analyze_log_after_phase1 lib env images v c Hi Hv Hc).
  rewrite (analyze_after_phase1 lib env images v c Hi Hv Hc).
  cbn [generation_calls fitted_frames flat_map app].
  apply (assemble_unpriced lib env _ v c score Hs).
Qed.

Lemma analysis_never_prices_witness :
  generation_calls (log_of (analyze_images Samples.sample_lib Samples.tie_world
                                           Samples.one_image)) = []
  /\ fitted_frames (log_of (analyze_images Samples.sample_lib Samples.tie_world
                                           Samples.one_image)) = []
  /\ exists resp,
      outcome (analyze_images Samples.sample_lib Samples.tie_world
                              Samples.one_image) = Ok resp
      /\ min_price (price_estimation resp) = None
      /\ max_price (price_estimation resp) = None
      /\ suggested_price (price_estimation resp) = None
      /\ mae (price_estimation resp) = None
      /\ generated_rows (price_estimation resp) = None.
Proof.
  apply (analysis_never_prices Samples.sample_lib Samples.tie_world
           Samples.one_image (Samples.fields Samples.camry_vision)
           (Samples.fields Samples.camry_classification) f0_9).
  - discriminate.
  - reflexivity.
  - reflexivity.
  - reflexivity.
Defined.

(** ** The reason of a generation failure *)

Lemma get_client_ok (env : Env) (key : str) :
  env_api_key env = Some key -> key <> [] -> get_client env = Ok tt.
Proof.
  intros H Hk. unfold get_client. rewrite H. now destruct key.
Qed.

(** X7. After a failed first attempt the second attempt alone decides what
    a complete pricing request returns when it fails too: a [ValueError]
    of the call or of the parsing gives the reason "failed to parse
    synthetic data", any other exception gives its own text as [_error],
    an empty array gives the reason "empty data" and one to nine rows give
    "too few rows" - whatever went wrong the first time. *)
Theorem second_attempt_names_the_failure (lib : Builtins) (env : Env)
        (a : pricing_args) (key : str) :
  defects_ok (a_defects a) = true ->
  flagged (rejected_fields a) = [] ->
  env_api_key env = Some key -> key <> [] ->
  attempt_fails env a 0 = true ->
  match attempt_result env a 1 with
  | Raise e =>
    outcome (run_pricing lib env a)
    = Ok (if is_ValueError e
          then with_reason (u "failed to parse synthetic data")
          else with_error (exn_msg e))
  | Ok rows =>
    (rows = [] -> outcome (run_pricing lib env a) = Ok (with_reason (u "empty data")))
    /\ (rows <> [] -> (length rows < 10)%nat ->
        outcome (run_pricing lib env a) = Ok (with_reason (u "too few rows")))
  end.
Proof.
  intros Hd Hc Hkey Hne H0.
  destruct (build_row_ok lib a Hd) as (w & m & s & Hrow).
  rewrite (run_pricing_complete lib env a _ Hrow Hc).
  rewrite (get_client_ok env key Hkey Hne). run_step.
  rewrite first_attempt. unfold attempt_fails in H0.
  assert (Hsecond : forall rows0 le0,
    match attempt_result env a 1 with
    | Raise e =>
      outcome
        (bind (bind (tell (EvChat (request (text_of (a_brand a))
                                           (text_of (a_model a)) 0)))
                    (fun _ => generation_loop env (text_of (a_brand a))
                                (text_of (a_model a)) [1%nat] rows0 le0))
              (fun ex =>
                 match ex with
                 | Returned d => ret d
                 | Finished rows last_error =>
                   if negb (truthy (PList rows)) || (length rows <? 10)%nat
                   then ret (with_reason last_error)
                   else train_and_estimate env
                          (subject_row a w m s) rows
                 end))
      = Ok (if is_ValueError e
            then with_reason (u "failed to parse synthetic data")
            else with_error (exn_msg e))
    | Ok rows =>
      (rows = [] ->
       outcome
        (bind (bind (tell (EvChat (request (text_of (a_brand a))
                                           (text_of (a_model a)) 0)))
                    (fun _ => generation_loop env (text_of (a_brand a))
                                (text_of (a_model a)) [1%nat] rows0 le0))
              (fun ex =>
                 match ex with
                 | Returned d => ret d
                 | Finished rows last_error =>
                   if negb (truthy (PList rows)) || (length rows <? 10)%nat
                   then ret (with_reason last_error)
                   else train_and_estimate env
                          (subject_row a w m s) rows
                 end))
       = Ok (with_reason (u "empty data")))
      /\ (rows <> [] -> (length rows < 10)%nat ->
       outcome
        (bind (bind (tell (EvChat (request (text_of (a_brand a))
                                           (text_of (a_model a)) 0)))
                    (fun _ => generation_loop env (text_of (a_brand a))
                                (text_of (a_model a)) [1%nat] rows0 le0))
              (fun ex =>
                 match ex with
                 | Returned d => ret d
                 | Finished rows last_error =>
                   if negb (truthy (PList rows)) || (length rows <? 10)%nat
                   then ret (with_reason last_error)
                   else train_and_estimate env
                          (subject_row a w m s) rows
                 end))
       = Ok (with_reason (u "too few rows")))
    end).
  { intros rows0 le0. rewrite bind_tell, second_attempt.
    cbn [log_of outcome fst snd].
    destruct (attempt_result env a 1) as [rows1|e1].
    - split.
      + intros ->. rewrite outcome_bind_pair. reflexivity.
      + intros Hr Hl. apply Nat.ltb_lt in Hl. rewrite Hl.
        rewrite outcome_bind_pair, too_few_rows, Hl.
        destruct rows1; [congruence | reflexivity].
    - rewrite outcome_bind_pair. now destruct (is_ValueError e1). }
  destruct (attempt_result env a 0) as [rows0|e0].
  - rewrite H0. apply Hsecond.
  - apply Hsecond.
Qed.

Lemma second_attempt_names_the_failure_witness :
  match attempt_result Samples.few_rows_world (Samples.camry (PList [])) 1 with
  | Raise e =>
    outcome (run_pricing Samples.sample_lib Samples.few_rows_world
                         (Samples.camry (PList [])))
    = Ok (if is_ValueError e
          then with_reason (u "failed to parse synthetic data")
          else with_error (exn_msg e))
  | Ok rows =>
    (rows = [] ->
     outcome (run_pricing Samples.sample_lib Samples.few_rows_world
                          (Samples.camry (PList [])))
     = Ok (with_reason (u "empty data")))
    /\ (rows <> [] -> (length rows < 10)%nat ->
        outcome (run_pricing Samples.sample_lib Samples.few_rows_world
                             (Samples.camry (PList [])))
        = Ok (with_reason (u "too few rows")))
  end.
Proof.
  apply (second_attempt_names_the_failure Samples.sample_lib
           Samples.few_rows_world (Samples.camry (PList [])) (u "sk-test")).
  - reflexivity.
  - reflexivity.
  - reflexivity.
  - vm_compute. discriminate.
  - vm_compute. reflexivity.
Defined.

(** ** Fitting *)

Ltac one_fit := run_step; cbn [fitted_frames flat_map app In length];
                split; [lia | tauto].

Lemma train_fits_once (env : Env) (row : dict) (rows : list pyval) :
  (length (fitted_frames (log_of (train_and_estimate env row rows))) <= 1)%nat
  /\ forall X,
      In X (fitted_frames (log_of (train_and_estimate env row rows))) ->
      (10 <= f_nrows X)%nat.
Proof.
  unfold train_and_estimate.
  destruct (all_dicts rows) as [records|];
    [|destruct (frame_of_irregular env rows); cbn; split; (lia || tauto)].
  destruct (negb _ || _); [cbn; split; (lia || tauto)|].
  cbv zeta.
  destruct (to_numeric_int env _) as [prices|e]; [|one_fit].
  run_step.
  destruct (length _ <? 10)%nat eqn:L; [cbn; split; (lia || tauto)|].
  apply Nat.ltb_ge in L.
  run_step. cbn [fitted_frames flat_map app].
  assert (Hrest : forall (m : M dict),
             fitted_frames (log_of m) = [] ->
             (length (loc (map fst (surviving (f_nrows (DataFrame records)) prices))
                          (backfill row
                             (drop (filter (fun c => mem c (columns (DataFrame records)))
                                           (map u ["price"; "brand"; "model"]))
                                   (DataFrame records)))
                        :: fitted_frames (log_of m)) <= 1)%nat
             /\ forall X,
                 In X (loc (map fst (surviving (f_nrows (DataFrame records)) prices))
                           (backfill row
                              (drop (filter (fun c => mem c (columns (DataFrame records)))
                                            (map u ["price"; "brand"; "model"]))
                                    (DataFrame records)))
                         :: fitted_frames (log_of m)) ->
                 (10 <= f_nrows X)%nat).
  { intros m0 ->. split; [cbn [length]; lia|].
    intros X [<-|[]]. cbn [loc f_nrows]. now rewrite length_map. }
  apply Hrest.
  match goal with
  | |- context [fit_model env ?X ?y ?cats] =>
    destruct (fit_model env X y cats) as [cb|e]
  end; [|now run_step].
  run_step. run_step. cbn [fitted_frames flat_map app].
  match goal with
  | |- context [tm_predict cb ?car] =>
    destruct (tm_predict cb car) as [[|p rest]|e]
  end; [now run_step| |now run_step].
  run_step.
  destruct (py_round p) as [sp|e]; [|now run_step].
  run_step.
  destruct (float_of_int sp) as [fsp|e]; [|now run_step].
  run_step.
  destruct (py_round (fsub fsp (tm_mae cb))) as [lo|e]; [|now run_step].
  run_step.
  destruct (py_round (fadd fsp (tm_mae cb))) as [hi|e]; [|now run_step].
  run_step.
  destruct (serialize_rows env _) as [gen|e]; [|now run_step].
  now run_step.
Qed.

(** The log of [run_pricing]: generation requests, then what fitting and
    scoring log, if they are reached. *)
Lemma run_pricing_log (lib : Builtins) (env : Env) (a : pricing_args) :
  exists chats rest,
    log_of (run_pricing lib env a) = chats ++ rest
    /\ fitted_frames chats = []
    /\ (rest = []
        \/ exists row rows, rest = log_of (train_and_estimate env row rows)).
Proof.
  unfold run_pricing.
  destruct (build_row lib a) as [row|e];
    [|run_step; exists [], []; repeat split; auto].
  run_step.
  destruct (_check_missing lib row) as [missing|e];
    [|run_step; exists [], []; repeat split; auto].
  run_step.
  destruct (truthy (PList (map PStr missing)));
    [exists [], []; repeat split; auto|].
  destruct (get_client env) as [[]|e];
    [|run_step; exists [], []; repeat split; auto].
  run_step. rewrite first_attempt.
  assert (Hsecond : forall rows0 le0,
    exists chats rest,
      log_of
        (bind (bind (tell (EvChat (request (text_of (a_brand a))
                                           (text_of (a_model a)) 0)))
                    (fun _ => generation_loop env (text_of (a_brand a))
                                (text_of (a_model a)) [1%nat] rows0 le0))
              (fun ex =>
                 match ex with
                 | Returned d => ret d
                 | Finished rows last_error =>
                   if negb (truthy (PList rows)) || (length rows <? 10)%nat
                   then ret (with_reason last_error)
                   else train_and_estimate env row rows
                 end)) = chats ++ rest
      /\ fitted_frames chats = []
      /\ (rest = []
          \/ exists row' rows, rest = log_of (train_and_estimate env row' rows))).
  { intros rows0 le0. rewrite bind_tell, second_attempt.
    cbn [log_of outcome fst snd]. rewrite log_bind.
    cbn [log_of outcome fst snd].
    eexists _, _. split; [reflexivity|]. split; [reflexivity|].
    destruct (attempt_result env a 1) as [rows1|e1].
    - destruct (length rows1 <? 10)%nat eqn:L1; rewrite too_few_rows, L1;
        [now left | right; eauto].
    - destruct (is_ValueError e1); now left. }
  destruct (attempt_result env a 0) as [rows0|e0]; [|apply Hsecond].
  destruct (length rows0 <? 10)%nat eqn:L0; [apply Hsecond|].
  rewrite log_bind. cbn [log_of outcome fst snd].
  rewrite too_few_rows, L0.
  eexists _, _. split; [reflexivity|]. split; [reflexivity|]. right. eauto.
Qed.

(** X8. A pricing request trains the regressor at most once, and never
    from fewer than ten rows: the frame handed to the split and the fit
    holds the rows of the corpus whose price survived the coercion, at
    least ten of them. *)
Theorem fits_once_on_ten_rows (lib : Builtins) (env : Env) (a : pricing_args) :
  (length (fitted_frames (log_of (run_pricing lib env a))) <= 1)%nat
  /\ forall X,
      In X (fitted_frames (log_of (run_pricing lib env a))) ->
      (10 <= f_nrows X)%nat.
Proof.
  destruct (run_pricing_log lib env a) as (chats & rest & -> & Hc & Hrest).
  rewrite fitted_frames_app, Hc. cbn [app].
  destruct Hrest as [->|(row & rows & ->)].
  - cbn. split; [lia | tauto].
  - apply train_fits_once.
Qed.

(** ** The defect counts of the subject record *)

Lemma severities_distinct :
  u "слабая" <> u "умеренная" /\ u "слабая" <> u "сильная"
  /\ u "умеренная" <> u "сильная".
Proof. repeat split; vm_compute; discriminate. Qed.

Lemma count_severity_sum (lib : Builtins) (ds : list pyval) :
  forall w m s,
    count_severity lib ds (u "слабая") = Ok w ->
    count_severity lib ds (u "умеренная") = Ok m ->
    count_severity lib ds (u "сильная") = Ok s ->
    (0 <= w /\ 0 <= m /\ 0 <= s /\ w + m + s <= Z.of_nat (length ds))%Z.
Proof.
  destruct severities_distinct as (D12 & D13 & D23).
  induction ds as [|d ds IH]; intros w m s.
  - cbn [count_severity length]. intros [= <-] [= <-] [= <-]. lia.
  - cbn [count_severity].
    destruct (py_get d (u "severity")) as [sev|]; [|discriminate].
    cbn [rbind].
    destruct (_severity_ru lib (py_or sev (PStr []))) as [sv|]; [|discriminate].
    cbn [rbind].
    destruct (count_severity lib ds (u "слабая")) as [w'|]; [|discriminate].
    destruct (count_severity lib ds (u "умеренная")) as [m'|]; [|discriminate].
    destruct (count_severity lib ds (u "сильная")) as [s'|]; [|discriminate].
    cbn [rbind]. intros [= <-] [= <-] [= <-].
    specialize (IH w' m' s' eq_refl eq_refl eq_refl).
    rewrite length_cons, Nat2Z.inj_succ.
    destruct (str_eqb sv (u "слабая")) eqn:E1;
      destruct (str_eqb sv (u "умеренная")) eqn:E2;
      destruct (str_eqb sv (u "сильная")) eqn:E3;
      try apply str_eqb_eq in E1; try apply str_eqb_eq in E2;
      try apply str_eqb_eq in E3; try congruence; lia.
Qed.

(** X9. In the subject record [run_pricing] builds, the total defect count
    is the sum of the three severity counts; each count is at least zero
    and together they do not exceed the number of entries of the defect
    list (entries with an unknown severity are counted nowhere). *)
Theorem defect_counts_add_up (lib : Builtins) (a : pricing_args) (row : dict) :
  build_row lib a = Ok row ->
  exists ds w m s,
    py_iter (a_defects a) = Ok ds
    /\ dget row (u "defects_severity_weak_cnt") = PInt w
    /\ dget row (u "defects_severity_moderate_cnt") = PInt m
    /\ dget row (u "defects_severity_strong_cnt") = PInt s
    /\ dget row (u "defects_cnt") = PInt (w + m + s)
    /\ (0 <= w /\ 0 <= m /\ 0 <= s /\ w + m + s <= Z.of_nat (length ds))%Z.
Proof.
  unfold build_row, count_defects.
  destruct (py_iter (a_defects a)) as [ds|e]; [|discriminate].
  cbn [rbind].
  destruct (count_severity lib ds (u "слабая")) as [w|] eqn:Ew; [|discriminate].
  destruct (count_severity lib ds (u "умеренная")) as [m|] eqn:Em;
    [|discriminate].
  destruct (count_severity lib ds (u "сильная")) as [s|] eqn:Es; [|discriminate].
  cbn [rbind]. intros [= <-].
  exists ds, w, m, s. repeat split;
    apply (count_severity_sum lib ds w m s Ew Em Es).
Qed.

Lemma defect_counts_add_up_witness :
  exists ds w m s,
    py_iter (a_defects (Samples.camry mixed_defects)) = Ok ds
    /\ dget (subject_row (Samples.camry mixed_defects) 1 0 1)
            (u "defects_severity_weak_cnt") = PInt w
    /\ dget (subject_row (Samples.camry mixed_defects) 1 0 1)
            (u "defects_severity_moderate_cnt") = PInt m
    /\ dget (subject_row (Samples.camry mixed_defects) 1 0 1)
            (u "defects_severity_strong_cnt") = PInt s
    /\ dget (subject_row (Samples.camry mixed_defects) 1 0 1)
            (u "defects_cnt") = PInt (w + m + s)
    /\ (0 <= w /\ 0 <= m /\ 0 <= s /\ w + m + s <= Z.of_nat (length ds))%Z.
Proof.
  apply (defect_counts_add_up Samples.sample_lib
           (Samples.camry mixed_defects)
           (subject_row (Samples.camry mixed_defects) 1 0 1)).
  vm_compute. reflexivity.
Defined.

(** ** The completeness check on any dictionary *)

Section AnyRow.
Variable lib : Builtins.
Variable row : dict.

Lemma check_blank_appends (k : string) (missing missing' : list str) :
  check_blank row k missing = Ok missing' ->
  exists b, missing' = missing ++ flagged [(u k, b)].
Proof.
  unfold check_blank. destruct (stripped row k) as [t|]; [|discriminate].
  cbn [rbind]. intros [= <-]. exists (is_empty t).
  unfold flagged. cbn [filter snd].
  now destruct (is_empty t); [|rewrite app_nil_r].
Qed.

Lemma check_steering_appends (missing missing' : list str) :
  check_steering row missing = Ok missing' ->
  exists b, missing' = missing ++ flagged [(u "steering_wheel_position", b)].
Proof.
  unfold check_steering.
  destruct (stripped row "steering_wheel_position") as [t|]; [|discriminate].
  cbn [rbind].
  generalize (str_eqb t (u "left") || str_eqb t (u "right")).
  intros b [= <-]. exists (negb b).
  unfold flagged. cbn [filter snd].
  destruct b; cbn [negb map fst]; [now rewrite app_nil_r | reflexivity].
Qed.

Lemma check_number_appends {A} (conv : pyval -> result A) (k : string)
      (missing missing' : list str) :
  check_number row conv k missing = Ok missing' ->
  exists b, missing' = missing ++ flagged [(u k, b)].
Proof.
  unfold check_number.
  destruct (is_none (dget row (u k))).
  - intros [= <-]. now exists true.
  - destruct (conv (dget row (u k))) as [x|e].
    + intros [= <-]. exists false. unfold flagged. cbn [filter snd map].
      now rewrite app_nil_r.
    + destruct (is_TypeError e || is_ValueError e); [|discriminate].
      intros [= <-]. now exists true.
Qed.

End AnyRow.

Lemma flagged_app (l l' : list (str * bool)) :
  flagged (l ++ l') = flagged l ++ flagged l'.
Proof. unfold flagged. now rewrite filter_app, map_app. Qed.

Lemma flagged_incl (fields : list (str * bool)) :
  incl (flagged fields) (map fst fields).
Proof.
  intros k H. unfold flagged in H. apply in_map_iff in H as (e & <- & H).
  apply filter_In in H as [H _]. now apply in_map.
Qed.

(** X10. On any dictionary, when the completeness check returns, what it
    returns is the required list with some fields left out: the reported
    names are required fields, in the order of the required list, each at
    most once. *)
Theorem check_missing_reports_required_fields (lib : Builtins) (row : dict)
        (missing : list str) :
  _check_missing lib row = Ok missing ->
  exists flags,
    length flags = length REQUIRED_FOR_PRICING
    /\ missing = flagged (combine REQUIRED_FOR_PRICING flags)
    /\ incl missing REQUIRED_FOR_PRICING.
Proof.
  unfold _check_missing. intros H.
  repeat match type of H with
         | rbind ?r _ = Ok _ =>
           let m := fresh "m" in
           let E := fresh "E" in
           destruct r as [m|] eqn:E; [cbn [rbind] in H | discriminate H]
         end.
  apply check_blank_appends in E as [b1 ->].
  apply check_blank_appends in E0 as [b2 ->].
  apply check_blank_appends in E1 as [b3 ->].
  apply check_blank_appends in E2 as [b4 ->].
  apply check_steering_appends in E3 as [b5 ->].
  apply check_number_appends in E4 as [b6 ->].
  apply check_number_appends in E5 as [b7 ->].
  apply check_blank_appends in E6 as [b8 ->].
  apply check_blank_appends in E7 as [b9 ->].
  apply check_number_appends in E8 as [b10 ->].
  apply check_blank_appends in H as [b11 ->].
  exists [b1; b2; b3; b4; b5; b6; b7; b8; b9; b10; b11].
  assert (Hm : ((((((((((([] ++ flagged [(u "brand", b1)])
                         ++ flagged [(u "model", b2)])
                        ++ flagged [(u "body_type", b3)])
                       ++ flagged [(u "color", b4)])
                      ++ flagged [(u "steering_wheel_position", b5)])
                     ++ flagged [(u "year", b6)])
                    ++ flagged [(u "engine_capacity", b7)])
                   ++ flagged [(u "transmission", b8)])
                  ++ flagged [(u "drive_type", b9)])
                 ++ flagged [(u "mileage", b10)])
                ++ flagged [(u "damage_flag", b11)])
               = flagged (combine REQUIRED_FOR_PRICING
                            [b1; b2; b3; b4; b5; b6; b7; b8; b9; b10; b11])).
  { unfold REQUIRED_FOR_PRICING. cbn [map combine].
    rewrite !(flagged_cons _ (_ :: _)). cbn [app].
    now rewrite <- !app_assoc. }
  split; [reflexivity|]. split; [exact Hm|].
  rewrite Hm. intros k Hk. apply flagged_incl in Hk.
  unfold REQUIRED_FOR_PRICING in *. cbn [map combine fst] in Hk. exact Hk.
Qed.

Lemma check_missing_reports_required_fields_witness :
  exists flags,
    length flags = length REQUIRED_FOR_PRICING
    /\ [u "model"; u "steering_wheel_position"; u "year"; u "engine_capacity";
        u "transmission"; u "drive_type"; u "mileage"; u "damage_flag"]
       = flagged (combine REQUIRED_FOR_PRICING flags)
    /\ incl [u "model"; u "steering_wheel_position"; u "year";
             u "engine_capacity"; u "transmission"; u "drive_type";
             u "mileage"; u "damage_flag"] REQUIRED_FOR_PRICING.
Proof.
  apply (check_missing_reports_required_fields Samples.sample_lib
           [ (u "brand", PStr (u "Lada")); (u "body_type", PStr (u "sedan"));
             (u "color", PStr (u "white")); (u "year", PStr (u "two thousand")) ]).
  vm_compute. reflexivity.
Defined.

(** ** Recalculation of the price *)

Lemma defect_dict_ok (d : DefectItem) : defect_ok (defect_dict d) = true.
Proof.
  unfold defect_ok, defect_dict.
  replace (dget _ (u "severity")) with (PStr (di_severity d)) by reflexivity.
  unfold py_or, truthy. now destruct (di_severity d).
Qed.

Lemma recalc_defects_ok (ci : CarIdentity) (vc : VisualCondition)
      (ta : TechnicalAssumptions) :
  defects_ok (a_defects (recalc_args ci vc ta)) = true.
Proof.
  unfold defects_ok. cbn [recalc_args a_defects py_iter].
  induction (defects vc) as [|d ds IH]; [reflexivity|].
  cbn [map forallb]. now rewrite defect_dict_ok.
Qed.

(** X11. [recalculate_price] on a record with a rejected required field
    returns, without any request to the generator and without a fit, a
    price estimation with no prices, the rejected fields as missing fields
    and no error message: the defect list it builds from the visual
    condition can always be counted. *)
Theorem recalculation_of_incomplete_record (lib : Builtins) (env : Env)
        (ci : CarIdentity) (vc : VisualCondition) (ta : TechnicalAssumptions) :
  flagged (rejected_fields (recalc_args ci vc ta)) <> [] ->
  recalculate_price lib env ci vc ta
  = ([], Ok {| min_price := None; max_price := None; suggested_price := None;
              mae := None;
              missing_fields :=
                map PStr (flagged (rejected_fields (recalc_args ci vc ta)));
              error_message := None;
              generated_rows := None |}).
Proof.
  intros Hne. unfold recalculate_price.
  destruct (build_row_ok lib _ (recalc_defects_ok ci vc ta))
    as (w & m & s & Hrow).
  rewrite (run_pricing_rejected lib env _ _ Hrow Hne).
  destruct (flagged (rejected_fields (recalc_args ci vc ta))) as [|k ks];
    [congruence|].
  reflexivity.
Qed.

Lemma recalculation_of_incomplete_record_witness :
  recalculate_price Samples.sample_lib Samples.tie_world
                    blank_flag_identity two_defects default_TechnicalAssumptions
  = ([], Ok {| min_price := None; max_price := None; suggested_price := None;
              mae := None;
              missing_fields :=
                map PStr (flagged (rejected_fields
                                     (recalc_args blank_flag_identity two_defects
                                        default_TechnicalAssumptions)));
              error_message := None;
              generated_rows := None |}).
Proof.
  apply (recalculation_of_incomplete_record Samples.sample_lib Samples.tie_world
           blank_flag_identity two_defects default_TechnicalAssumptions).
  vm_compute. discriminate.
Defined.

Lemma train_and_estimate_lists_nothing (env : Env) (row : dict)
      (rows : list pyval) (d : dict) :
  outcome (train_and_estimate env row rows) = Ok d ->
  dget d (u "missing_fields") = PList [].
Proof.
  unfold train_and_estimate.
  destruct (all_dicts rows) as [records|].
  2:{ destruct (frame_of_irregular env rows); cbn [outcome throw ret snd];
      [discriminate|]. intros [= <-]. reflexivity. }
  destruct (negb _ || _).
  { cbn [outcome ret snd]. intros [= <-]. reflexivity. }
  cbv zeta.
  destruct (to_numeric_int env _) as [prices|e]; [|run_step; discriminate].
  run_step.
  destruct (length _ <? 10)%nat.
  { cbn [outcome ret snd]. intros [= <-]. reflexivity. }
  run_step.
  match goal with
  | |- context [fit_model env ?X ?y ?cats] =>
    destruct (fit_model env X y cats) as [cb|e]
  end; [|run_step; discriminate].
  run_step. run_step.
  match goal with
  | |- context [tm_predict cb ?car] =>
    destruct (tm_predict cb car) as [[|p rest]|e]
  end; [| |run_step; discriminate].
  { run_step. cbn [outcome ret snd]. intros [= <-]. reflexivity. }
  run_step.
  destruct (py_round p) as [sp|e]; [|run_step; discriminate].
  run_step.
  destruct (float_of_int sp) as [fsp|e]; [|run_step; discriminate].
  run_step.
  destruct (py_round (fsub fsp (tm_mae cb))) as [lo|e];
    [|run_step; discriminate].
  run_step.
  destruct (py_round (fadd fsp (tm_mae cb))) as [hi|e];
    [|run_step; discriminate].
  run_step.
  destruct (serialize_rows env _) as [gen|e]; [|run_step; discriminate].
  run_step. cbn [outcome ret snd]. intros [= <-]. reflexivity.
Qed.

(** Whatever [run_pricing] returns lists the rejected fields, and only
    them, as missing. *)
Lemma run_pricing_missing_fields (lib : Builtins) (env : Env)
      (a : pricing_args) (d : dict) :
  outcome (run_pricing lib env a) = Ok d ->
  dget d (u "missing_fields") = PList (map PStr (flagged (rejected_fields a))).
Proof.
  unfold run_pricing.
  destruct (build_row lib a) as [row|e] eqn:Hrow; [|run_step; discriminate].
  run_step.
  destruct (build_row_shape lib a row Hrow) as (w & m & s & ->).
  rewrite check_missing_subject_row. run_step.
  destruct (flagged (rejected_fields a)) as [|k ks].
  2:{ change (truthy (PList (map PStr (k :: ks)))) with true. cbv iota.
      cbn [outcome ret snd]. intros [= <-]. reflexivity. }
  change (truthy (PList (map PStr []))) with false. cbv iota.
  destruct (get_client env) as [[]|e]; [|run_step; discriminate].
  run_step.
  intros H. apply outcome_bind_ok in H as (ex & Hex & H).
  destruct (generation_loop_exit env (text_of (a_brand a)) (text_of (a_model a))
              (seq 0 2) [] (u "empty data")) as (ex' & Hex' & Hshape).
  rewrite Hex in Hex'. injection Hex' as <-.
  destruct Hshape as [(rows' & le & ->)|[(r & ->)|(r & ->)]].
  - destruct (negb _ || _).
    + cbn [outcome ret snd] in H. injection H as <-. reflexivity.
    + now apply train_and_estimate_lists_nothing in H.
  - cbn [outcome ret snd] in H. injection H as <-. reflexivity.
  - cbn [outcome ret snd] in H. injection H as <-. reflexivity.
Qed.

Lemma damage_flag_rejected (a : pricing_args) :
  In (u "damage_flag") (flagged (rejected_fields a)) ->
  is_empty (text_of (a_damage_flag a)) = true.
Proof.
  intros Hin. unfold flagged in Hin.
  apply in_map_iff in Hin as ([k b] & Hk & Hf).
  apply filter_In in Hf as [Hf Hb]. cbn [fst snd] in Hk, Hb. subst k b.
  unfold rejected_fields in Hf.
  destruct Hf as [H|[H|[H|[H|[H|[H|[H|[H|[H|[H|[H|[]]]]]]]]]]]];
    try (injection H as Hk Hb; vm_compute in Hk; discriminate Hk).
  now injection H.
Qed.

(** X12. Whenever [recalculate_price] returns, the missing fields of its
    answer are the rejected required fields of the record. The damage flag
    is among them only if no accident signs are set and the stored flag is
    not empty but blank: with accident signs the flag is set for the user,
    and an empty flag is replaced by the default. *)
Theorem recalculation_missing_fields (lib : Builtins) (env : Env)
        (ci : CarIdentity) (vc : VisualCondition) (ta : TechnicalAssumptions)
        (p : PriceEstimation) :
  outcome (recalculate_price lib env ci vc ta) = Ok p ->
  missing_fields p
  = map PStr (flagged (rejected_fields (recalc_args ci vc ta)))
  /\ (In (PStr (u "damage_flag")) (missing_fields p) ->
      accident_signs ta = false
      /\ ci_damage_flag ci <> []
      /\ strip (ci_damage_flag ci) = []).
Proof.
  intros H. unfold recalculate_price in H.
  apply outcome_bind_ok in H as (raw & Hraw & H).
  apply run_pricing_missing_fields in Hraw.
  assert (Hm : missing_fields p
               = map PStr (flagged (rejected_fields (recalc_args ci vc ta)))).
  { revert H. cbv zeta. rewrite Hraw.
    destruct (int_or_none "min_price" _) as [mn|e]; [|run_step; discriminate].
    run_step.
    destruct (int_or_none "max_price" _) as [mx|e]; [|run_step; discriminate].
    run_step.
    destruct (int_or_none "suggested_price" _) as [sp|e];
      [|run_step; discriminate].
    run_step.
    destruct (float_or_none "mae" _) as [ma|e]; [|run_step; discriminate].
    run_step.
    destruct (flagged (rejected_fields (recalc_args ci vc ta))) as [|k ks].
    - change (py_or (PList (map PStr [])) (PList [])) with (PList []).
      cbn [list_or_none]. run_step.
      destruct (list_or_none "generated_rows" _) as [gr|e];
        [|run_step; discriminate].
      run_step. cbn [outcome ret snd]. intros [= <-]. reflexivity.
    - change (py_or (PList (map PStr (k :: ks))) (PList []))
        with (PList (map PStr (k :: ks))).
      cbn [list_or_none]. run_step.
      destruct (list_or_none "generated_rows" _) as [gr|e];
        [|run_step; discriminate].
      run_step. cbn [outcome ret snd]. intros [= <-]. reflexivity. }
  split; [exact Hm|].
  rewrite Hm. intros Hin.
  apply in_map_iff in Hin as (k & [= ->] & Hin).
  apply damage_flag_rejected in Hin.
  cbn [recalc_args a_damage_flag] in Hin.
  unfold recalc_damage_flag, text_of in Hin.
  destruct (accident_signs ta); [vm_compute in Hin; discriminate Hin|].
  destruct (ci_damage_flag ci) as [|c l];
    [vm_compute in Hin; discriminate Hin|].
  split; [reflexivity|]. split; [discriminate|].
  now destruct (strip (c :: l)).
Qed.

Lemma recalculation_missing_fields_witness :
  missing_fields blank_flag_answer
  = map PStr (flagged (rejected_fields
                         (recalc_args blank_flag_identity two_defects
                            default_TechnicalAssumptions)))
  /\ (In (PStr (u "damage_flag")) (missing_fields blank_flag_answer) ->
      accident_signs default_TechnicalAssumptions = false
      /\ ci_damage_flag blank_flag_identity <> []
      /\ strip (ci_damage_flag blank_flag_identity) = []).
Proof.
  apply (recalculation_missing_fields Samples.sample_lib Samples.tie_world
           blank_flag_identity two_defects default_TechnicalAssumptions
           blank_flag_answer).
  vm_compute. reflexivity.
Defined.

(** ** Regeneration of the description *)

Lemma lookup_dict_set (d : dict) (k : str) (v : pyval) (k' : str) :
  lookup (dict_set d k v) k' = if str_eqb k' k then Some v else lookup d k'.
Proof.
  induction d as [|[k0 v0] d IH]; cbn [dict_set lookup]; [reflexivity|].
  destruct (str_eqb k k0) eqn:E.
  - apply str_eqb_eq in E. subst k0. cbn [lookup].
    now destruct (str_eqb k' k).
  - cbn [lookup]. destruct (str_eqb k' k0) eqn:E2.
    + apply str_eqb_eq in E2. subst k'.
      assert (E3 : str_eqb k0 k = false).
      { apply str_eqb_neq. apply str_eqb_neq in E. congruence. }
      now rewrite E3.
    + apply IH.
Qed.

Lemma lookup_absent (d : dict) (k : str) :
  ~ In k (map fst d) -> lookup d k = None.
Proof.
  induction d as [|[k0 v0] d IH]; [reflexivity|].
  cbn [map fst lookup]. intros H.
  destruct (str_eqb k k0) eqn:E.
  - apply str_eqb_eq in E. subst. exfalso. apply H. now left.
  - apply IH. intros Hin. apply H. now right.
Qed.

Lemma lookup_dict_update (extra : dict) :
  forall (d : dict) (k : str),
    NoDup (map fst extra) ->
    lookup (dict_update d extra) k
    = match lookup extra k with Some v => Some v | None => lookup d k end.
Proof.
  unfold dict_update.
  induction extra as [|[k0 v0] rest IH]; intros d k Hnd; [reflexivity|].
  cbn [map fst] in Hnd. apply NoDup_cons_iff in Hnd as [Hk0 Hnd].
  cbn [fold_left fst snd lookup]. rewrite (IH _ _ Hnd), lookup_dict_set.
  destruct (str_eqb k k0) eqn:E; [|reflexivity].
  apply str_eqb_eq in E. subst k0. now rewrite (lookup_absent rest k Hk0).
Qed.

(** X13. [regenerate_description] makes one call of the description agent.
    In the feature dictionary of that call every entry of the extra
    parameters stands as the user gave it, also where the record has a value
    of its own for the key; an identity field the extra parameters do not
    name keeps the value of the record. The answer of the agent is returned
    as it is. *)
Theorem extra_params_override (env : Env) (images : list str)
        (ci : CarIdentity) (vision extra_params : dict) :
  NoDup (map fst extra_params) ->
  exists df,
    regenerate_description env images ci vision extra_params
    = ([EvDescription images (PDict (identity_fields ci)) (PDict vision) df],
       run_description env images (PDict (identity_fields ci)) (PDict vision) df)
    /\ (forall k v, lookup extra_params k = Some v -> lookup df k = Some v)
    /\ (forall k v,
          lookup extra_params k = None ->
          lookup (identity_fields ci) k = Some v ->
          lookup df k = Some v).
Proof.
  intros Hnd. exists (regenerated_features ci extra_params).
  split; [|split].
  - unfold regenerate_description. cbv zeta. rewrite bind_tell.
    reflexivity.
  - intros k v Hk. unfold regenerated_features.
    now rewrite (lookup_dict_update _ _ _ Hnd), Hk.
  - intros k v Hk Hi. unfold regenerated_features.
    rewrite (lookup_dict_update _ _ _ Hnd), Hk.
    unfold identity_fields in Hi. cbn [lookup] in *.
    repeat match goal with
           | |- context [if ?b then _ else _] => destruct b; [exact Hi|]
           end.
    discriminate Hi.
Qed.

Lemma extra_params_override_witness :
  exists df,
    regenerate_description Samples.tie_world [] blank_flag_identity []
                           user_edits
    = ([EvDescription [] (PDict (identity_fields blank_flag_identity))
                      (PDict []) df],
       run_description Samples.tie_world []
                       (PDict (identity_fields blank_flag_identity))
                       (PDict []) df)
    /\ (forall k v, lookup user_edits k = Some v -> lookup df k = Some v)
    /\ (forall k v,
          lookup user_edits k = None ->
          lookup (identity_fields blank_flag_identity) k = Some v ->
          lookup df k = Some v).
Proof.
  apply (extra_params_override Samples.tie_world [] blank_flag_identity []
           user_edits).
  unfold user_edits. cbn [map fst].
  repeat constructor; cbn [In]; intros H;
    repeat match goal with
           | H : _ \/ _ |- _ => destruct H as [H|H]
           | H : False |- _ => exact H
           | H : _ = _ |- _ => vm_compute in H; discriminate H
           end.
Defined.

(** ** The upload handler *)

Lemma accepted_iff (f : upload) :
  accepted f = true
  <-> (exists t, content_type f = Some t /\ startswith (u "image/") t = true)
      /\ (Z.of_nat (length (content f)) <= 15 * 1024 * 1024)%Z.
Proof.
  unfold accepted, is_image, size_limit.
  rewrite andb_true_iff, negb_true_iff, Z.ltb_ge.
  split.
  - intros [Hi Hs]. split; [|exact Hs].
    destruct (content_type f) as [t|]; [|discriminate].
    apply andb_true_iff in Hi as [_ Hi]. now exists t.
  - intros [(t & -> & Ht) Hs]. split; [|exact Hs].
    rewrite Ht. now destruct t.
Qed.

(** X14. The handler of [POST /api/analyze] never lets an exception
    through. It accepts the uploads whose content type starts with
    "image/" and whose size is at most 15 MB. When no upload is accepted it
    answers 400 and calls no agent; otherwise it answers 200 with a body,
    which is the error response of the handler when the analysis of the
    accepted files raises. *)
Theorem analyze_answers (lib : Builtins) (env : Env) (files : list upload) :
  (forall f,
      In f (filter accepted files)
      <-> In f files
          /\ (exists t, content_type f = Some t
                        /\ startswith (u "image/") t = true)
          /\ (Z.of_nat (length (content f)) <= 15 * 1024 * 1024)%Z)
  /\ match filter accepted files with
     | [] =>
       exists detail, analyze lib env files = ([], Ok (Http400 detail))
     | f :: fs =>
       exists body,
         outcome (analyze lib env files) = Ok (Http200 body)
         /\ forall e,
             outcome (analyze_images lib env (map content (f :: fs))) = Raise e ->
             body = analysis_failed e
     end.
Proof.
  split.
  { intros f. rewrite filter_In, accepted_iff. tauto. }
  unfold analyze. destruct files as [|f0 files].
  { cbn [filter]. eexists. reflexivity. }
  destruct (filter accepted (f0 :: files)) as [|f fs].
  { cbn [map]. eexists. reflexivity. }
  cbn [map].
  destruct (analyze_images lib env (content f :: map content fs))
    as [l [r|e]].
  - exists r. split; [reflexivity|]. cbn [outcome snd]. discriminate.
  - exists (analysis_failed e). split; [reflexivity|].
    cbn [outcome snd]. now intros e' [= <-].
Qed.

Lemma analyze_answers_witness :
  filter accepted [notes; photo] = [photo]
  /\ exists body,
      outcome (analyze Samples.sample_lib Samples.tie_world [notes; photo])
      = Ok (Http200 body)
      /\ forall e,
          outcome (analyze_images Samples.sample_lib Samples.tie_world
                                  (map content [photo])) = Raise e ->
          body = analysis_failed e.
Proof.
  split; [vm_compute; reflexivity|].
  exact (proj2 (analyze_answers Samples.sample_lib Samples.tie_world
                                [notes; photo])).
Defined.

(** ** The array in the answer of the generator *)

Lemma scan_step (c : N) (s : str) (d : Z) (i : nat) :
  scan_brackets (c :: s) d i
  = if (delta c =? 1)%Z then scan_brackets s (d + 1) (S i)
    else if (delta c =? -1)%Z then
           if (d - 1 =? 0)%Z then Some i else scan_brackets s (d - 1) (S i)
         else scan_brackets s d (S i).
Proof.
  cbn [scan_brackets]. unfold delta.
  destruct (char_in c (u "[{")); [reflexivity|].
  destruct (char_in c (u "]}")); reflexivity.
Qed.

Lemma delta_range (c : N) : (delta c = 1 \/ delta c = -1 \/ delta c = 0)%Z.
Proof.
  unfold delta. destruct (char_in c (u "[{")); [now left|].
  destruct (char_in c (u "]}")); [right; now left | right; now right].
Qed.

Lemma net_cons (c : N) (s : str) : net (c :: s) = (delta c + net s)%Z.
Proof. reflexivity. Qed.

(** From inside the array the scan stops at the character that brings the
    depth back to zero. *)
Lemma scan_closes (post : str) (body : str) :
  forall (d : Z) (i : nat),
    (0 < d)%Z ->
    body <> [] ->
    (forall n, (0 < n < length body)%nat -> (0 < d + net (firstn n body))%Z) ->
    (d + net body = 0)%Z ->
    scan_brackets (body ++ post) d i = Some (i + length body - 1)%nat.
Proof.
  induction body as [|c rest IH]; intros d i Hd Hne Hin Hnet; [congruence|].
  rewrite net_cons in Hnet. cbn [app]. rewrite scan_step.
  destruct rest as [|c' rest'].
  - change (net []) with 0%Z in Hnet.
    destruct (delta_range c) as [E|[E|E]]; rewrite E in *; try lia.
    change (-1 =? 1)%Z with false. change (-1 =? -1)%Z with true. cbv iota.
    replace (d - 1 =? 0)%Z with true by (symmetry; apply Z.eqb_eq; lia).
    cbn [length]. f_equal. lia.
  - assert (H1 : (0 < d + delta c)%Z).
    { specialize (Hin 1%nat). cbn [length firstn] in Hin.
      rewrite net_cons in Hin. change (net []) with 0%Z in Hin. lia. }
    assert (IH' : forall j,
               scan_brackets ((c' :: rest') ++ post) (d + delta c) j
               = Some (j + length (c' :: rest') - 1)%nat).
    { intros j. apply IH; [exact H1 | discriminate | | lia].
      intros n Hn. specialize (Hin (S n)).
      cbn [firstn] in Hin. rewrite net_cons in Hin.
      cbn [length] in Hin, Hn. lia. }
    destruct (delta_range c) as [E|[E|E]]; rewrite E in *.
    + change (1 =? 1)%Z with true. cbv iota. rewrite IH'.
      cbn [length]. f_equal. lia.
    + change (-1 =? 1)%Z with false. change (-1 =? -1)%Z with true. cbv iota.
      replace (d - 1 =? 0)%Z with false by (symmetry; apply Z.eqb_neq; lia).
      replace (d - 1)%Z with (d + -1)%Z by lia. rewrite IH'.
      cbn [length]. f_equal. lia.
    + change (0 =? 1)%Z with false. change (0 =? -1)%Z with false. cbv iota.
      replace d with (d + 0)%Z at 1 by lia. rewrite IH'.
      cbn [length]. f_equal. lia.
Qed.

Lemma inside_prefix (s : str) (n : nat) :
  inside s = true -> (0 < n < length s)%nat -> (0 < net (firstn n s))%Z.
Proof.
  unfold inside. intros H Hn.
  rewrite forallb_forall in H. apply Z.ltb_lt, H, in_seq. lia.
Qed.

Lemma startswith_bracket (c : N) (x y : str) :
  startswith (u "[") (c :: x) = startswith (u "[") (c :: y).
Proof. reflexivity. Qed.

Lemma find_after (pre rest : str) :
  contains (u "[") pre = false ->
  find (u "[") (pre ++ 91%N :: rest) = Some (length pre).
Proof.
  unfold contains. induction pre as [|c pre IH]; [reflexivity|].
  cbn [find app length].
  rewrite (startswith_bracket c (pre ++ 91%N :: rest) pre).
  destruct (startswith (u "[") (c :: pre)); [discriminate|].
  destruct (find (u "[") pre) as [j|]; [discriminate|].
  intros _. now rewrite IH.
Qed.

Lemma bracketed_shape (body : str) :
  bracketed body = true ->
  exists body', body = 91%N :: body' /\ body' <> []
                /\ (forall n, (0 < n < length body')%nat ->
                              (0 < 1 + net (firstn n body'))%Z)
                /\ (1 + net body' = 0)%Z.
Proof.
  unfold bracketed. intros H.
  apply andb_true_iff in H as [H Hnet]. apply andb_true_iff in H as [Hs Hin].
  apply Z.eqb_eq in Hnet.
  destruct body as [|c body']; [discriminate Hs|].
  assert (c = 91%N) as ->.
  { change (startswith (u "[") (c :: body'))
      with ((91 =? c)%N && true) in Hs.
    rewrite andb_true_r in Hs. apply N.eqb_eq in Hs. congruence. }
  assert (D : delta 91 = 1%Z) by reflexivity.
  rewrite net_cons, D in Hnet.
  exists body'. split; [reflexivity|]. split; [|split; [|exact Hnet]].
  - intros ->. change (net []) with 0%Z in Hnet. lia.
  - intros n Hn.
    pose proof (inside_prefix (91%N :: body') (S n) Hin) as Hp.
    cbn [firstn length] in Hp. rewrite net_cons, D in Hp. apply Hp. lia.
Qed.

(** X15. When the stripped answer reads: text without a square bracket, then
    a passage that opens with a square bracket and whose bracket depth
    returns to zero at its last character and not before, then anything,
    [_extract_json_array] gives exactly that passage to the JSON parser and
    answers what the parser answers: the text around the array is
    ignored. *)
Theorem extract_ignores_surrounding_text (env : Env)
        (text pre body post : str) :
  strip text = pre ++ body ++ post ->
  contains (u "[") pre = false ->
  bracketed body = true ->
  _extract_json_array env text = json_loads env body.
Proof.
  intros Ht Hpre Hb.
  destruct (bracketed_shape body Hb) as (body' & -> & Hne & Hin & Hnet).
  unfold _extract_json_array. cbv zeta. rewrite Ht.
  cbn [app]. rewrite (find_after pre (body' ++ post) Hpre).
  rewrite skipn_app, skipn_all, Nat.sub_diag. cbn [skipn app].
  rewrite scan_step. change (delta 91 =? 1)%Z with true. cbv iota.
  rewrite (scan_closes post body' (0 + 1) (S (length pre)));
    [ | lia | exact Hne | exact Hin | exact Hnet ].
  unfold slice. rewrite skipn_app, skipn_all, Nat.sub_diag. cbn [skipn app].
  assert (Hl : (length body' <> 0)%nat).
  { destruct body'; [congruence | discriminate]. }
  replace (S (length pre) + length body' - 1 + 1 - length pre)%nat
    with (length (91%N :: body') + 0)%nat by (cbn [length]; lia).
  change (91%N :: body' ++ post) with ((91%N :: body') ++ post).
  rewrite firstn_app_2. cbn [firstn]. now rewrite app_nil_r.
Qed.

Lemma extract_ignores_surrounding_text_witness :
  _extract_json_array Samples.tie_world (u "  data: [[1], {}] thanks ")
  = json_loads Samples.tie_world (u "[[1], {}]").
Proof.
  apply (extract_ignores_surrounding_text Samples.tie_world
           (u "  data: [[1], {}] thanks ") (u "data: ") (u "[[1], {}]")
           (u " thanks"));
    vm_compute; reflexivity.
Defined.

(** ** The status of the contract *)

(** X16. Whatever its two arguments are, the status resolver answers one of
    the three statuses of the data contract. *)
Theorem status_in_contract (lib : Builtins) (v c : pyval) :
  In (_decide_status lib v c)
     [u "ok"; u "needs_user_input"; u "error"].
Proof.
  unfold _decide_status, decide.
  repeat match goal with
         | |- context [rbind ?r _] => destruct r; cbn [rbind]
         | |- context [if ?b then _ else _] => destruct b
         end;
    in_list.
Qed.

(** ** Contract defects in the recalculation *)

Lemma contract_severity_counted (lib : Builtins) (d : DefectItem) :
  (forall s, In s SEVERITIES -> str_lower lib s = s) ->
  In (di_severity d) SEVERITIES ->
  exists sev s,
    py_get (defect_dict d) (u "severity") = Ok sev
    /\ _severity_ru lib (py_or sev (PStr [])) = Ok s
    /\ ((if str_eqb s (u "слабая") then 1 else 0)
        + (if str_eqb s (u "умеренная") then 1 else 0)
        + (if str_eqb s (u "сильная") then 1 else 0) = 1)%Z.
Proof.
  intros Hlow Hin. exists (PStr (di_severity d)).
  assert (Hget : py_get (defect_dict d) (u "severity")
                 = Ok (PStr (di_severity d))) by reflexivity.
  pose proof (Hlow _ Hin) as Hl.
  unfold SEVERITIES in Hin. cbn [map In] in Hin.
  destruct Hin as [E|[E|[E|[]]]]; rewrite <- E in *;
    [ exists (u "слабая") | exists (u "умеренная") | exists (u "сильная") ];
    (split; [exact Hget|]);
    (split; [|vm_compute; reflexivity]);
    unfold _severity_ru;
    match goal with
    | |- context [py_strip ?v] =>
      match goal with
      | Hl : str_lower lib ?t = ?t |- _ =>
        replace (py_strip v) with (Ok t) by (vm_compute; reflexivity)
      end
    end;
    cbn [rbind]; cbv zeta; rewrite Hl; vm_compute; reflexivity.
Qed.

Lemma contract_defects_counted (lib : Builtins) (ds : list DefectItem) :
  (forall s, In s SEVERITIES -> str_lower lib s = s) ->
  (forall d, In d ds -> In (di_severity d) SEVERITIES) ->
  exists w m s,
    count_severity lib (map defect_dict ds) (u "слабая") = Ok w
    /\ count_severity lib (map defect_dict ds) (u "умеренная") = Ok m
    /\ count_severity lib (map defect_dict ds) (u "сильная") = Ok s
    /\ (w + m + s = Z.of_nat (length ds))%Z.
Proof.
  intros Hlow. induction ds as [|d ds IH]; intros Hin.
  - exists 0%Z, 0%Z, 0%Z. repeat split.
  - destruct IH as (w & m & s & Hw & Hm & Hs & Hsum).
    { intros d' Hd'. apply Hin. now right. }
    destruct (contract_severity_counted lib d Hlow (Hin d (or_introl eq_refl)))
      as (sev & sv & Hget & Hsev & Hone).
    cbn [map count_severity]. rewrite Hget. cbn [rbind]. rewrite Hsev.
    cbn [rbind]. rewrite Hw, Hm, Hs. cbn [rbind].
    do 3 eexists. repeat split.
    rewrite length_cons, Nat2Z.inj_succ. lia.
Qed.

(** X17. For a visual condition whose defects carry severities of the data
    contract, the subject record [recalculate_price] has [run_pricing] build
    counts every defect: its defect count is the number of defects. (It
    relies on [str.lower] leaving the three severity words as they are.) *)
Theorem contract_defects_all_counted (lib : Builtins) (ci : CarIdentity)
        (vc : VisualCondition) (ta : TechnicalAssumptions) :
  (forall s, In s SEVERITIES -> str_lower lib s = s) ->
  (forall d, In d (defects vc) -> In (di_severity d) SEVERITIES) ->
  exists row,
    build_row lib (recalc_args ci vc ta) = Ok row
    /\ dget row (u "defects_cnt") = PInt (Z.of_nat (length (defects vc))).
Proof.
  intros Hlow Hin.
  destruct (contract_defects_counted lib (defects vc) Hlow Hin)
    as (w & m & s & Hw & Hm & Hs & Hsum).
  exists (subject_row (recalc_args ci vc ta) w m s). split.
  - unfold build_row, count_defects. cbn [recalc_args a_defects py_iter rbind].
    rewrite Hw, Hm, Hs. reflexivity.
  - rewrite <- Hsum. reflexivity.
Qed.

Lemma contract_defects_all_counted_witness :
  exists row,
    build_row Samples.sample_lib
              (recalc_args blank_flag_identity two_defects
                           default_TechnicalAssumptions) = Ok row
    /\ dget row (u "defects_cnt") = PInt (Z.of_nat (length (defects two_defects))).
Proof.
  apply (contract_defects_all_counted Samples.sample_lib blank_flag_identity
           two_defects default_TechnicalAssumptions).
  - intros s Hs. unfold SEVERITIES in Hs. cbn [map In] in Hs.
    destruct Hs as [<-|[<-|[<-|[]]]]; vm_compute; reflexivity.
  - intros d Hd. unfold two_defects in Hd. cbn [defects In] in Hd.
    destruct Hd as [<-|[<-|[]]]; vm_compute; auto.
Defined.

(** ** The markdown fence *)

Lemma lstrip_before_fence (mid : str) :
  lstrip (mid ++ u "```") = lstrip mid ++ u "```".
Proof.
  induction mid as [|c mid IH]; [reflexivity|].
  cbn [app lstrip]. now destruct (isspace c).
Qed.

Lemma rstrip_fence (y : str) : rstrip (y ++ u "```") = y ++ u "```".
Proof.
  unfold rstrip. rewrite rev_app_distr.
  change (rev (u "```")) with (96 :: 96 :: [96])%N.
  cbn [app lstrip]. change (isspace 96) with false. cbv iota.
  cbn [rev]. rewrite rev_involutive, <- !app_assoc. reflexivity.
Qed.

Lemma endswith_fence (y : str) : endswith (u "```") (y ++ u "```") = true.
Proof.
  unfold endswith. rewrite rev_app_distr. reflexivity.
Qed.

Lemma rfind_fence (y : str) : rfind (u "```") (y ++ u "```") = Some (length y).
Proof.
  induction y as [|c y IH]; [reflexivity|].
  cbn [app rfind length]. now rewrite IH.
Qed.

Lemma strip_fence_body (mid : str) :
  strip_fence (u "```json" ++ mid ++ u "```") = strip mid
  /\ (startswith (u "json") (mid ++ u "```") = false ->
      strip_fence (u "```" ++ mid ++ u "```") = strip mid).
Proof.
  assert (Hbody : (if endswith (u "```") (strip (mid ++ u "```"))
                   then match rfind (u "```") (strip (mid ++ u "```")) with
                        | Some i => strip (firstn i (strip (mid ++ u "```")))
                        | None => strip (removelast (strip (mid ++ u "```")))
                        end
                   else strip (mid ++ u "```")) = strip mid).
  { assert (E : strip (mid ++ u "```") = lstrip mid ++ u "```").
    { unfold strip. now rewrite lstrip_before_fence, rstrip_fence. }
    rewrite E, endswith_fence, rfind_fence.
    rewrite firstn_app, Nat.sub_diag, firstn_all. cbn [firstn].
    rewrite app_nil_r. unfold strip. now rewrite lstrip_idempotent. }
  split.
  - unfold strip_fence.
    change (startswith (u "```") (u "```json" ++ mid ++ u "```")) with true.
    change (startswith (u "```json") (u "```json" ++ mid ++ u "```")) with true.
    cbv iota zeta.
    change (skipn (length (u "```json")) (u "```json" ++ mid ++ u "```"))
      with (mid ++ u "```").
    exact Hbody.
  - intros Hj. unfold strip_fence.
    change (startswith (u "```") (u "```" ++ mid ++ u "```")) with true.
    change (startswith (u "```json") (u "```" ++ mid ++ u "```"))
      with (startswith (u "json") (mid ++ u "```")).
    rewrite Hj. cbv iota zeta.
    change (skipn (length (u "```")) (u "```" ++ mid ++ u "```"))
      with (mid ++ u "```").
    exact Hbody.
Qed.

Lemma strip_fenced (tag mid : str) (c : N) :
  isspace c = false ->
  strip ((c :: tag) ++ mid ++ u "```") = (c :: tag) ++ mid ++ u "```".
Proof.
  intros Hc. unfold strip. cbn [app lstrip]. rewrite Hc.
  change (c :: tag ++ mid ++ u "```") with ((c :: tag) ++ mid ++ u "```").
  rewrite app_assoc. apply rstrip_fence.
Qed.

(** X18. A markdown fence around the answer of the generator changes
    nothing: for any text whose stripped form does not itself open with a
    fence, the answer wrapped in a json fence, or in a bare fence when the
    text does not begin with the word json, is parsed exactly as the text
    alone. *)
Theorem fence_is_transparent (env : Env) (mid : str) :
  startswith (u "```") (strip mid) = false ->
  parse_answer env (Some (u "```json" ++ mid ++ u "```"))
  = parse_answer env (Some mid)
  /\ (startswith (u "json") (mid ++ u "```") = false ->
      parse_answer env (Some (u "```" ++ mid ++ u "```"))
      = parse_answer env (Some mid)).
Proof.
  intros Hm.
  assert (F : strip_fence (strip (u "```json" ++ mid ++ u "```")) = strip mid).
  { change (u "```json") with ((96 :: u "``json")%N) at 1.
    rewrite (strip_fenced (u "``json") mid 96 eq_refl).
    apply (strip_fence_body mid). }
  assert (E : strip_fence (strip mid) = strip mid).
  { unfold strip_fence. now rewrite Hm. }
  split.
  - unfold parse_answer. cbv zeta. now rewrite F, E.
  - intros Hj.
    assert (G : strip_fence (strip (u "```" ++ mid ++ u "```")) = strip mid).
    { change (u "```") with ((96 :: u "``")%N) at 1.
      rewrite (strip_fenced (u "``") mid 96 eq_refl).
      now apply (strip_fence_body mid). }
    unfold parse_answer. cbv zeta. now rewrite G, E.
Qed.

Lemma fence_is_transparent_witness :
  parse_answer Samples.tie_world
               (Some (u "```json" ++ u " [[1], {}] " ++ u "```"))
  = parse_answer Samples.tie_world (Some (u " [[1], {}] "))
  /\ (startswith (u "json") (u " [[1], {}] " ++ u "```") = false ->
      parse_answer Samples.tie_world
                   (Some (u "```" ++ u " [[1], {}] " ++ u "```"))
      = parse_answer Samples.tie_world (Some (u " [[1], {}] "))).
Proof.
  apply (fence_is_transparent Samples.tie_world (u " [[1], {}] ")).
  vm_compute. reflexivity.
Defined.
